(** * Attendance system: session registry, matcher, enrollment and student
      catalog, embedded from the Python sources and verified.

    The development follows the source files one module at a time:
    - [Py]              : the few Python built-ins the sources rely on;
    - [Run]             : Run.py, the per-class session registry;
    - [Main]            : main.py, the matcher and the attendance report;
    - [App]             : app.py, the HTTP routes built on the registry;
    - [EncodeGenerator] : EncodeGenerator.py, the embedding-store update;
    - [Student_Manage]  : Student_Manage.py, the student image folders;
    - [Threads]         : record calls of Run.py run by concurrent threads;
    - [Recognition]     : main.py and app.py, recognising the faces of an
                          uploaded image;
    - [StudentRoutes]   : app.py, the routes over the student folders;
    - [Firebase_config] : firebase_config.py, the attendance documents. *)

From Stdlib Require Import ZArith QArith Lia Lqa List Ascii String DecimalString.
From Stdlib Require DecimalNat.
From stdpp Require Import gmap strings list fin_maps.

Local Open Scope Z_scope.
Local Open Scope string_scope.

(* ===================================================================== *)
(** ** Python built-ins *)
(* ===================================================================== *)

Module Py.

(** Truthiness of a [str]: the empty string is falsy. *)
Definition truthy (s : string) : bool :=
  match s with "" => false | _ => true end.

(** Truthiness of an optional [str] ([None] is falsy as well). *)
Definition truthy_opt (o : option string) : bool :=
  match o with Some s => truthy s | None => false end.

(** [a or b] on an optional string with a string default. *)
Definition or_else (o : option string) (d : string) : string :=
  match o with
  | Some s => if truthy s then s else d
  | None => d
  end.

(** *** Strings (ASCII; the sources apply these to names and file names) *)

(** [c.isspace()] for an ASCII character: tab, newline, vertical tab, form
    feed, carriage return, the separators 28 to 31, and space. *)
Definition isspace (c : ascii) : bool :=
  let n := nat_of_ascii c in
  ((9 <=? n) && (n <=? 13) || (28 <=? n) && (n <=? 32))%nat.

(** [s.lstrip()], [s.rstrip()] and [s.strip()]. *)
Fixpoint lstrip (s : string) : string :=
  match s with
  | String c rest => if isspace c then lstrip rest else s
  | "" => ""
  end.

Fixpoint rstrip (s : string) : string :=
  match s with
  | String c rest =>
      match rstrip rest with
      | "" => if isspace c then "" else String c ""
      | r => String c r
      end
  | "" => ""
  end.

Definition strip (s : string) : string := rstrip (lstrip s).

(** [s.replace(a, b)] for single characters. *)
Fixpoint replace_char (a b : ascii) (s : string) : string :=
  match s with
  | String c rest => String (if Ascii.eqb c a then b else c) (replace_char a b rest)
  | "" => ""
  end.

(** [c.lower()] for an ASCII character, and [s.lower()]. *)
Definition lower_char (c : ascii) : ascii :=
  let n := nat_of_ascii c in
  if ((65 <=? n) && (n <=? 90))%nat then ascii_of_nat (n + 32) else c.

Fixpoint lower (s : string) : string :=
  match s with
  | String c rest => String (lower_char c) (lower rest)
  | "" => ""
  end.

(** [s.startswith(t)], and [s.endswith(t)] for a tuple of suffixes. *)
Definition startswith (s t : string) : bool := String.prefix t s.

Definition endswith1 (s t : string) : bool :=
  (String.length t <=? String.length s)%nat
  && String.eqb (String.substring (String.length s - String.length t)
                   (String.length t) s) t.

Definition endswith (s : string) (ts : list string) : bool :=
  existsb (endswith1 s) ts.

(** [c in s] for a character. *)
Fixpoint contains (c : ascii) (s : string) : bool :=
  match s with
  | String d rest => Ascii.eqb d c || contains c rest
  | "" => false
  end.

(** [s.split(c)] for a single character. *)
Fixpoint split (c : ascii) (s : string) : list string :=
  match s with
  | "" => [""]
  | String d rest =>
      if Ascii.eqb d c then "" :: split c rest
      else
        match split c rest with
        | piece :: pieces => String d piece :: pieces
        | [] => [String d ""]
        end
  end.

(** [str(n)] for a natural number. *)
Definition str (n : nat) : string := NilEmpty.string_of_uint (Nat.to_uint n).

(** [os.path.join(a, b)] (POSIX). *)
Definition path_join (a b : string) : string :=
  if startswith b "/" then b
  else if negb (truthy a) || endswith1 a "/" then a ++ b
  else a ++ "/" ++ b.

(** [os.path.dirname(p)] (POSIX): the part up to the last slash, without
    its trailing slashes unless it consists of slashes only. *)
Fixpoint drop_while (f : ascii → bool) (l : list ascii) : list ascii :=
  match l with
  | c :: rest => if f c then drop_while f rest else l
  | [] => []
  end.

Definition dirname (p : string) : string :=
  let is_slash c := Ascii.eqb c "/" in
  let head := drop_while (λ c, negb (is_slash c)) (rev (list_ascii_of_string p)) in
  if forallb is_slash head then string_of_list_ascii head
  else string_of_list_ascii (rev (drop_while is_slash head)).

(** *** Dicts, in insertion order *)

Definition dict (V : Type) : Type := list (string * V).

(** [d.get(k)] *)
Fixpoint dict_get {V} (k : string) (d : dict V) : option V :=
  match d with
  | [] => None
  | (k', v) :: rest => if decide (k' = k) then Some v else dict_get k rest
  end.

(** [k in d] *)
Definition dict_mem {V} (k : string) (d : dict V) : bool :=
  match dict_get k d with Some _ => true | None => false end.

(** [d[k] = v]: an existing key keeps its place, a new one goes last. *)
Fixpoint dict_set {V} (k : string) (v : V) (d : dict V) : dict V :=
  match d with
  | [] => [(k, v)]
  | (k', v') :: rest =>
      if decide (k' = k) then (k, v) :: rest else (k', v') :: dict_set k v rest
  end.

(** [del d[k]] *)
Fixpoint dict_del {V} (k : string) (d : dict V) : dict V :=
  match d with
  | [] => []
  | (k', v') :: rest =>
      if decide (k' = k) then rest else (k', v') :: dict_del k rest
  end.

Definition dict_keys {V} (d : dict V) : list string := map fst d.

End Py.

(* ===================================================================== *)
(** ** Run.py: the per-class session registry *)
(* ===================================================================== *)

Module Run.

(** Dict objects are mutated in place by the recording path
    ([records[name] = ...]), so the dicts that hold the counters live in a
    store of objects and a session refers to its dict by address.  The
    session dicts themselves are only ever replaced as a whole. *)
Abbreviation loc := positive.

(** One entry of [_sessions_by_class]. *)
Record session := Session {
  is_active : bool;
  session_name : option string;
  attendance_records : loc;
  start_time : option Z   (* a datetime, in microseconds *)
}.

(** The module state: [_sessions_by_class] and the dict objects it reaches. *)
Record state := State {
  sessions_by_class : gmap string session;
  heap : gmap loc (gmap string Z)
}.

Definition init : state := State ∅ ∅.

(** Allocation of a new dict object holding [d]. *)
Definition alloc (d : gmap string Z) (h : gmap loc (gmap string Z))
  : loc * gmap loc (gmap string Z) :=
  let l := fresh (dom h) in (l, <[l := d]> h).

(** Contents of the dict at [l]. *)
Definition deref (h : gmap loc (gmap string Z)) (l : loc) : gmap string Z :=
  default ∅ (h !! l).

(** The argument of [jsonify(summary)] in [stop_session], before it is
    serialised: [attendance_records] is the address of the copy. *)
Record summary := Summary {
  sm_session_active : bool;
  sm_session_name : option string;
  sm_class_id : string;
  sm_attendance_records : loc;
  sm_start_time : option Z;
  sm_end_time : Z;
  sm_duration_seconds : Z
}.

(** JSON bodies.  [jsonify] serialises at the call, so a body holds the
    contents of the dicts it was built from, not their addresses. *)
Record summary_json := SummaryJson {
  js_session_active : bool;
  js_session_name : option string;
  js_class_id : string;
  js_attendance_records : gmap string Z;
  js_start_time : option Z;
  js_end_time : Z;
  js_duration_seconds : Z
}.

Inductive body :=
| JError (message : string)            (* {"status": "error", "message": m} *)
| JAlreadyActive (class_id : string)   (* {"status": "already_active", ...} *)
| JStarted (class_id session_name : string) (start_time : Z)
| JInactive                            (* {"status": "inactive", ...} *)
| JSummary (s : summary_json)
| JRecorded (updated : gmap string Z)  (* {"status": "recorded", ...} *)
| JStatus (session_active : bool) (session_name : option string)
          (class_id : string) (start_time : option Z).

(** What a function of Run.py returns: a Flask [Response] (sent with
    status 200), or a tuple of a [Response] and a status code. *)
Inductive response :=
| Response (b : body)
| WithStatus (b : body) (code : Z).

Definition Conflict (class_id : string) : response :=
  WithStatus (JAlreadyActive class_id) 409.
Definition NotActive_stop : response := WithStatus JInactive 400.
Definition NotActive_record : response := WithStatus JInactive 403.
Definition class_id_required : response :=
  WithStatus (JError "class_id is required") 400.

Definition jsonify_summary (h : gmap loc (gmap string Z)) (s : summary) : summary_json :=
  {| js_session_active := sm_session_active s;
     js_session_name := sm_session_name s;
     js_class_id := sm_class_id s;
     js_attendance_records := deref h (sm_attendance_records s);
     js_start_time := sm_start_time s;
     js_end_time := sm_end_time s;
     js_duration_seconds := sm_duration_seconds s |}.

(** [sess and sess.get("is_active")] *)
Definition active (o : option session) : bool :=
  match o with Some sess => is_active sess | None => false end.

(** The dict literal with [is_active = False] written by [stop_session] and
    [clear_session_data]; its [{}] is a new object. *)
Definition reset_slot (class_id : string) (st : state) : state :=
  let '(l, h) := alloc ∅ (heap st) in
  State (<[class_id := Session false None l None]> (sessions_by_class st)) h.

Definition start_session (class_id : string) (name : option string) (now : Z)
    (st : state) : response * state :=
  if negb (Py.truthy class_id) then (class_id_required, st)
  else if active (sessions_by_class st !! class_id) then (Conflict class_id, st)
  else
    let '(l, h) := alloc ∅ (heap st) in
    let s := Session true (Some (Py.or_else name (class_id ++ "_session"))) l (Some now) in
    (Response (JStarted class_id (Py.or_else name (class_id ++ "_session")) now),
     State (<[class_id := s]> (sessions_by_class st)) h).

(** [int((end_time - start_time).total_seconds()) if start_time else 0]:
    [int] truncates towards zero. *)
Definition duration_seconds (start : option Z) (end_time : Z) : Z :=
  match start with
  | Some t => Z.quot (end_time - t) 1000000
  | None => 0
  end.

(** The body of the critical section of [stop_session] for an active
    session: the [summary] dict and the state after the reset. *)
Definition stop_summary (class_id : string) (now : Z) (sess : session)
    (st : state) : summary * state :=
  let '(lc, h) := alloc (deref (heap st) (attendance_records sess)) (heap st) in
  let sm :=
    {| sm_session_active := false;
       sm_session_name := session_name sess;
       sm_class_id := class_id;
       sm_attendance_records := lc;
       sm_start_time := start_time sess;
       sm_end_time := now;
       sm_duration_seconds := duration_seconds (start_time sess) now |} in
  (sm, reset_slot class_id (State (sessions_by_class st) h)).

Definition stop_session (class_id : string) (now : Z) (st : state)
    : response * state :=
  if negb (Py.truthy class_id) then (class_id_required, st)
  else
    match sessions_by_class st !! class_id with
    | Some sess =>
        if is_active sess then
          let '(sm, st') := stop_summary class_id now sess st in
          (Response (JSummary (jsonify_summary (heap st') sm)), st')
        else (NotActive_stop, st)
    | None => (NotActive_stop, st)
    end.

Definition get_session_status (class_id : string) (st : state) : response :=
  if negb (Py.truthy class_id) then class_id_required
  else
    match sessions_by_class st !! class_id with
    | Some sess =>
        Response
          (JStatus (is_active sess) (session_name sess) class_id (start_time sess))
    | None => Response (JStatus false None class_id None)
    end.

(** One turn of the loop of [record_recognition_results_for_class]. *)
Definition record_name (records : gmap string Z) (name : string) : gmap string Z :=
  if decide (name = "Unknown") then records
  else <[name := default 0 (records !! name) + 1]> records.

Definition record_names (records : gmap string Z) (names : list string)
    : gmap string Z :=
  foldl record_name records names.

Definition record_recognition_results_for_class (recognized_names : list string)
    (class_id : string) (st : state) : response * state :=
  if negb (Py.truthy class_id) then (class_id_required, st)
  else
    match sessions_by_class st !! class_id with
    | Some sess =>
        if is_active sess then
          let l := attendance_records sess in
          let records := record_names (deref (heap st) l) recognized_names in
          (Response (JRecorded records),
           State (sessions_by_class st) (<[l := records]> (heap st)))
        else (NotActive_record, st)
    | None => (NotActive_record, st)
    end.

(** The dict returned by [get_current_session_data] ([None] when there is
    no slot); its [attendance_records] is a copy. *)
Definition get_current_session_data (class_id : string) (st : state)
    : option (bool * option string * string * gmap string Z * option Z) :=
  if negb (Py.truthy class_id) then None
  else
    match sessions_by_class st !! class_id with
    | Some sess =>
        Some (is_active sess, session_name sess, class_id,
              deref (heap st) (attendance_records sess), start_time sess)
    | None => None
    end.

Definition clear_session_data (class_id : option string) (st : state) : state :=
  match class_id with
  | Some c =>
      if Py.truthy c then reset_slot c st
      else State ∅ (heap st)
  | None => State ∅ (heap st)
  end.

(** The counters of the session of [class_id], as a reader of the registry
    sees them; a name that is not a key counts 0. *)
Definition counters (st : state) (class_id : string) : gmap string Z :=
  match sessions_by_class st !! class_id with
  | Some sess => deref (heap st) (attendance_records sess)
  | None => ∅
  end.

Definition count (records : gmap string Z) (name : string) : Z :=
  default 0 (records !! name).

(** How many times [name] occurs in [names]. *)
Fixpoint occurrences (name : string) (names : list string) : Z :=
  match names with
  | [] => 0
  | n :: rest =>
      (if decide (n = name) then 1 else 0) + occurrences name rest
  end.

(** Calls on the registry, and the states they lead to. *)
Inductive call :=
| CStart (class_id : string) (name : option string) (now : Z)
| CStop (class_id : string) (now : Z)
| CRecord (recognized_names : list string) (class_id : string)
| CClear (class_id : option string).

Definition exec (st : state) (c : call) : state :=
  match c with
  | CStart k n t => snd (start_session k n t st)
  | CStop k t => snd (stop_session k t st)
  | CRecord ns k => snd (record_recognition_results_for_class ns k st)
  | CClear k => clear_session_data k st
  end.

Definition run (cs : list call) (st : state) : state := foldl exec st cs.

Definition reachable (st : state) : Prop := ∃ cs, st = run cs init.

(** *** The registry invariant *)

(** What every reachable state satisfies: the empty key has no slot, every
    slot owns a dict of the store that no other slot shares, and an
    inactive slot is the canonical empty one. *)
Record wf (st : state) : Prop := Wf {
  wf_key : sessions_by_class st !! "" = None;
  wf_heap : ∀ k s, sessions_by_class st !! k = Some s →
      is_Some (heap st !! attendance_records s);
  wf_sep : ∀ k1 k2 s1 s2,
      sessions_by_class st !! k1 = Some s1 →
      sessions_by_class st !! k2 = Some s2 →
      attendance_records s1 = attendance_records s2 → k1 = k2;
  wf_inactive : ∀ k s, sessions_by_class st !! k = Some s →
      is_active s = false →
      heap st !! attendance_records s = Some ∅ ∧ start_time s = None
      ∧ session_name s = None
}.

(** [l] is not the counter dict of any slot. *)
Definition unreferenced (st : state) (l : loc) : Prop :=
  ∀ k s, sessions_by_class st !! k = Some s → attendance_records s ≠ l.

End Run.

(* ===================================================================== *)
(** ** main.py: the matcher and the attendance report *)
(* ===================================================================== *)

Module Main.

(** Similarities are finite floats; every finite float is a rational and
    the comparisons of finite floats are those of the rationals they
    denote, so scores are rationals here. *)

(** [SIMILARITY_THRESHOLD = 0.6], as the double that the literal denotes. *)
Definition SIMILARITY_THRESHOLD : Q := 5404319552844595 # 9007199254740992.

(** [ATTENDANCE_THRESHOLD = 0.25] (exact as a double). *)
Definition ATTENDANCE_THRESHOLD : Q := 1 # 4.

(** [x > y] and [x >= y] on scores. *)
Definition gt (x y : Q) : bool := negb (Qle_bool x y).
Definition ge (x y : Q) : bool := Qle_bool y x.

Section matcher.

(** The vision collaborator's vectors and scikit-learn's
    [cosine_similarity] are outside the sources. *)
Context {embedding : Type}.
Variable cosine_similarity : embedding → embedding → Q.

(** The body of the inner loop of [find_match]. *)
Definition visit (face_embedding : embedding) (person : string)
    (best : string * Q) (stored_embedding : embedding) : string * Q :=
  let similarity := cosine_similarity face_embedding stored_embedding in
  if gt similarity (snd best) then (person, similarity) else best.

(** The two nested loops; [embeddings_db] is a dict, iterated in insertion
    order. *)
Definition scan (face_embedding : embedding)
    (embeddings_db : list (string * list embedding)) (best : string * Q)
    : string * Q :=
  foldl (λ best entry,
           foldl (visit face_embedding (fst entry)) best (snd entry))
        best embeddings_db.

Definition find_match (face_embedding : embedding)
    (embeddings_db : list (string * list embedding)) : string * Q :=
  let best := scan face_embedding embeddings_db ("Unknown", 0%Q) in
  if ge (snd best) SIMILARITY_THRESHOLD then best else ("Unknown", snd best).

(** Every (identity, similarity) pair the scan looks at, in the order it
    looks at them. *)
Definition samples (face_embedding : embedding)
    (embeddings_db : list (string * list embedding)) : list (string * Q) :=
  flat_map (λ entry,
              map (λ v, (fst entry, cosine_similarity face_embedding v))
                  (snd entry))
           embeddings_db.

End matcher.

(** The [if similarity > best_score] of the loop, on a sample. *)
Definition keep_better (best sample : string * Q) : string * Q :=
  if gt (snd sample) (snd best) then sample else best.

(** Exceptions of [save_attendance]. *)
Inductive error := ZeroDivisionError.

(** [presence_time / session_length] *)
Definition percentage (presence_time : Q) (session_length : Z) : error + Q :=
  if (session_length =? 0)%Z then inl ZeroDivisionError
  else inr (presence_time / inject_Z session_length)%Q.

(** One line of the CSV file: name, presence, session duration, percentage
    (before formatting) and status. *)
Record csv_row := CsvRow {
  csv_name : string;
  csv_presence : Q;
  csv_duration : Z;
  csv_percentage : Q;
  csv_status : string
}.

(** The loop that writes the CSV rows; the first failing division ends it. *)
Fixpoint csv_rows (attendance : list (string * Q)) (session_length : Z)
    : error + list csv_row :=
  match attendance with
  | [] => inr []
  | (person, presence_time) :: rest =>
      match percentage presence_time session_length with
      | inl e => inl e
      | inr pct =>
          let status :=
            if ge pct ATTENDANCE_THRESHOLD then "Present" else "Absent" in
          match csv_rows rest session_length with
          | inl e => inl e
          | inr rows =>
              inr (CsvRow person presence_time session_length pct status :: rows)
          end
      end
  end.

(** One entry of the batch handed to Firebase. *)
Record attendance_record := AttendanceRecord {
  ar_status : string;
  ar_presence_time : Q;
  ar_attendance_percentage : Q;
  ar_session_duration : Z
}.

Fixpoint firebase_records (attendance : list (string * Q)) (session_length : Z)
    : error + list (string * attendance_record) :=
  match attendance with
  | [] => inr []
  | (person, presence_time) :: rest =>
      match percentage presence_time session_length with
      | inl e => inl e
      | inr pct =>
          let status :=
            if ge pct ATTENDANCE_THRESHOLD then "present" else "absent" in
          match firebase_records rest session_length with
          | inl e => inl e
          | inr recs =>
              inr ((person,
                    AttendanceRecord status presence_time (pct * 100)%Q
                      session_length) :: recs)
          end
      end
  end.

(** [save_attendance]: the CSV part runs outside the [try], so its
    exception leaves the function; the Firebase part runs inside it and
    only when a manager is available. *)
Definition save_attendance (attendance : list (string * Q))
    (session_length : Z) (firebase_available : bool)
    : error + (list csv_row * option (list (string * attendance_record))) :=
  match csv_rows attendance session_length with
  | inl e => inl e
  | inr rows =>
      if firebase_available then
        match firebase_records attendance session_length with
        | inl _ => inr (rows, None)
        | inr recs => inr (rows, Some recs)
        end
      else inr (rows, None)
  end.

(** [mark_attendance] answers "attendance_saved" unless [save_attendance]
    raised. *)
Definition mark_attendance (attendance_data : list (string * Q))
    (session_duration : Z) (firebase_available : bool)
    : error + (Z * nat) :=
  match save_attendance attendance_data session_duration firebase_available with
  | inl e => inl e
  | inr _ => inr (session_duration, length attendance_data)
  end.

End Main.

(* ===================================================================== *)
(** ** app.py: the HTTP routes over the registry *)
(* ===================================================================== *)

Module App.

(** Bodies of the routes: an [{"error": ...}] object, a body passed on
    from Run.py, or the answer of a completed stop. *)
Inductive body :=
| AError (error : string)
| ARun (b : Run.body)
| AStopped (classId : string) (records_saved total_students : nat).

(** What the client receives: body and HTTP status code. *)
Definition response : Type := body * Z.

(** The part of a request the two routes read: [None] when
    [request.get_json()] gives no object (the route then raises inside its
    [try]), otherwise the value of ["classId"], if any. *)
Definition request : Type := option (option string).

(** A view function may return a [Response] or a tuple; Flask sends the
    first with status 200. *)
Definition of_run (r : Run.response) : response :=
  match r with
  | Run.Response b => (ARun b, 200)
  | Run.WithStatus b code => (ARun b, code)
  end.

(** [POST /start_session].  The message of the 500 answer of the [except]
    is given without the text of the exception. *)
Definition start_session (req : request) (firebase_manager : bool) (now : Z)
    (st : Run.state) : response * Run.state :=
  match req with
  | None => ((AError "Failed to start session", 500), st)
  | Some class_id =>
      if negb (Py.truthy_opt class_id) then
        ((AError "classId is required", 400), st)
      else if negb firebase_manager then
        ((AError "Firebase not initialized", 500), st)
      else
        let st1 := Run.clear_session_data class_id st in
        let '(r, st2) := Run.start_session (default "" class_id) None now st1 in
        (of_run r, st2)
  end.

(** The keys of the parsed stop response that [stop_session] reads, with
    the defaults of its [get] calls. *)
Record session_data := SessionData {
  sd_status : option string;
  sd_attendance_records : gmap string Z;
  sd_duration_seconds : Z;
  sd_session_name : option string
}.

Definition body_data (b : Run.body) : session_data :=
  match b with
  | Run.JSummary s =>
      SessionData None (Run.js_attendance_records s)
        (Run.js_duration_seconds s) (Run.js_session_name s)
  | Run.JError _ => SessionData (Some "error") ∅ 60 (Some "Unknown")
  | Run.JAlreadyActive _ =>
      SessionData (Some "already_active") ∅ 60 (Some "Unknown")
  | Run.JStarted _ n _ => SessionData (Some "started") ∅ 60 (Some n)
  | Run.JInactive => SessionData (Some "inactive") ∅ 60 (Some "Unknown")
  | Run.JRecorded _ => SessionData (Some "recorded") ∅ 60 (Some "Unknown")
  | Run.JStatus _ n _ _ => SessionData None ∅ 60 n
  end.

(** [parse_recognize_response]: a tuple has no [get_data], the exception is
    caught and the error dict is returned. *)
Definition parse_recognize_response (r : Run.response) : session_data :=
  match r with
  | Run.Response b => body_data b
  | Run.WithStatus _ _ => SessionData (Some "error") ∅ 60 (Some "Unknown")
  end.

(** [(presence_time / session_duration) * 100 if session_duration > 0 else 0] *)
Definition attendance_percentage (presence_time session_duration : Z) : Q :=
  if (session_duration >? 0)%Z then
    (inject_Z presence_time / inject_Z session_duration * 100)%Q
  else 0%Q.

(** ["present" if attendance_percentage >= 25 else "absent"] *)
Definition status (attendance_percentage : Q) : string :=
  if Main.ge attendance_percentage 25 then "present" else "absent".

(** The arguments of one call of [save_attendance_record]. *)
Record saved_record := SavedRecord {
  sv_class_id : string;
  sv_student_id : string;
  sv_status : string;
  sv_presence_time : Z;
  sv_attendance_percentage : Q;
  sv_session_duration : Z
}.

Definition record_of (class_id : string) (session_duration : Z)
    (entry : string * Z) : saved_record :=
  let pct := attendance_percentage (snd entry) session_duration in
  SavedRecord class_id (fst entry) (status pct) (snd entry) pct session_duration.

(** The arguments of [save_session_data] that depend on the session. *)
Record saved_session := SavedSession {
  ss_session_name : option string;
  ss_duration_minutes : Z;
  ss_recognized_students : list string
}.

Section stop.

(** Whether [firebase_manager.save_attendance_record] reports success. *)
Variable save_attendance_record : saved_record → bool.

(** [POST /stop_session]: the response, what is handed to Firebase (the
    attendance records in the order of the loop, then the session) and the
    registry afterwards. *)
Definition stop_session (req : request) (firebase_manager : bool) (now : Z)
    (st : Run.state)
    : response * (list saved_record * option saved_session) * Run.state :=
  match req with
  | None => ((AError "Failed to stop session", 500), ([], None), st)
  | Some class_id =>
      if negb (Py.truthy_opt class_id) then
        ((AError "classId is required", 400), ([], None), st)
      else if negb firebase_manager then
        ((AError "Firebase not initialized", 500), ([], None), st)
      else
        let k := default "" class_id in
        let '(stop_resp, st') := Run.stop_session k now st in
        let session_data := parse_recognize_response stop_resp in
        if decide (sd_status session_data = Some "inactive") then
          ((AError "No active session found", 400), ([], None), st')
        else
          let attendance_records :=
            map_to_list (sd_attendance_records session_data) in
          let saved :=
            map (record_of k (sd_duration_seconds session_data))
                attendance_records in
          let success_count := length (filter save_attendance_record saved) in
          ((AStopped k success_count (length attendance_records), 200),
           (saved,
            Some (SavedSession (sd_session_name session_data)
                    (sd_duration_seconds session_data `div` 60)
                    (map fst attendance_records))),
           st')
  end.

End stop.

End App.

(* ===================================================================== *)
(** ** EncodeGenerator.py: the embedding-store update *)
(* ===================================================================== *)

Module EncodeGenerator.

(** One name of [os.listdir(db_path)]: whether [os.path.isdir] holds for
    it and, for a directory, its own listing. *)
Record entry := Entry {
  e_name : string;
  e_isdir : bool;
  e_files : list string
}.

(** The suffixes of the image files that are encoded. *)
Definition IMAGE_SUFFIXES : list string :=
  [".png"; ".jpg"; ".jpeg"; ".bmp"; ".tiff"].

Section manage.

(** The vision collaborators, outside the sources.  [represent] is
    [DeepFace.represent] on the path of an image ([None] when it raises);
    [imread] is [cv2.imread] ([None] when the image cannot be read);
    [represent_augmented p face i] is the embedding of augmentation number
    [i] of the image read from [p], covering the colour conversions, the
    random augmenter and [DeepFace.represent] ([None] when one raises). *)
Context {embedding image : Type}.
Variable represent : string → option embedding.
Variable imread : string → option image.
Variable represent_augmented : string → image → nat → option embedding.

(** [for i in range(N_AUG)]: an exception leaves the loop, and the
    [except] of the image keeps what was appended before. *)
Fixpoint augmentations (img_path : string) (face : image) (n i : nat)
    : list embedding :=
  match n with
  | O => []
  | S n' =>
      match represent_augmented img_path face i with
      | Some e => e :: augmentations img_path face n' (S i)
      | None => []
      end
  end.

(** What the body of the [try] appends for one image. *)
Definition image_embeddings (img_path : string) (N_AUG : Z) : list embedding :=
  match represent img_path with
  | None => []
  | Some e =>
      e :: match imread img_path with
           | None => []
           | Some face => augmentations img_path face (Z.to_nat N_AUG) 0
           end
  end.

(** The loop over the images of one student. *)
Definition person_embeddings (person_path : string) (files : list string)
    (N_AUG : Z) : list embedding :=
  flat_map
    (λ img,
       if Py.endswith (Py.lower img) IMAGE_SUFFIXES then
         image_embeddings (Py.path_join person_path img) N_AUG
       else [])
    files.

(** One turn of the loop over the student folders. *)
Definition process (db_path : string) (N_AUG : Z)
    (embeddings : Py.dict (list embedding)) (e : entry)
    : Py.dict (list embedding) :=
  if negb (e_isdir e) then embeddings
  else if Py.dict_mem (e_name e) embeddings then embeddings
  else
    Py.dict_set (e_name e)
      (person_embeddings (Py.path_join db_path (e_name e)) (e_files e) N_AUG)
      embeddings.

(** [manage_embeddings]: [stored] is the content of [emb_path] when that
    file exists, [listing] is [os.listdir(db_path)]; the result is the dict
    written back to [emb_path]. *)
Definition manage_embeddings (db_path : string) (N_AUG : Z)
    (stored : option (Py.dict (list embedding))) (listing : list entry)
    : Py.dict (list embedding) :=
  let embeddings := default [] stored in
  let embeddings := foldl (process db_path N_AUG) embeddings listing in
  let current_students := map e_name listing in
  let to_remove :=
    filter (λ name, name ∉ current_students) (Py.dict_keys embeddings) in
  foldl (λ d name, Py.dict_del name d) embeddings to_remove.

End manage.

End EncodeGenerator.

(* ===================================================================== *)
(** ** Student_Manage.py: the student image folders *)
(* ===================================================================== *)

Module Student_Manage.

Definition STUDENTS_DIR : string := "Smart Attendance System/Images".

(** The file system, as far as the module sees it: which paths exist, and
    whether each is a directory or a file with some content.  Paths are the
    strings the code builds. *)
Inductive node :=
| Dir
| File (content : string).

Abbreviation fs := (gmap string node).

(** [os.path.exists] *)
Definition path_exists (p : string) (f : fs) : bool :=
  match f !! p with Some _ => true | None => false end.

(** The path and its ancestors, outermost first. *)
Fixpoint ancestors_from (fuel : nat) (p : string) : list string :=
  match fuel with
  | O => []
  | S fuel' =>
      if negb (Py.truthy p) then []
      else if String.eqb (Py.dirname p) p then [p]
      else (ancestors_from fuel' (Py.dirname p) ++ [p])%list
  end.

Definition ancestors (p : string) : list string :=
  ancestors_from (S (String.length p)) p.

(** Exceptions leave the functions of this module, except where the code
    catches them. *)
Inductive raised := FileExistsError | NotADirectoryError | FileNotFoundError
                  | IsADirectoryError.

(** [os.makedirs(p)]: creates the missing ancestors and [p]; raises when
    [p] exists or an ancestor is a file. *)
Definition makedirs (p : string) (f : fs) : raised + fs :=
  if path_exists p f then inl FileExistsError
  else if existsb (λ a, match f !! a with Some (File _) => true | _ => false end)
            (ancestors p)
  then inl NotADirectoryError
  else inr (foldl (λ f a, <[a := Dir]> f) f (ancestors p)).

(** [open(p, "wb")] followed by [write]: the directory of [p] must exist
    and [p] must not be a directory. *)
Definition write_file (p content : string) (f : fs) : raised + fs :=
  match f !! p with
  | Some Dir => inl IsADirectoryError
  | _ =>
      let d := Py.dirname p in
      if negb (Py.truthy d) then inr (<[p := File content]> f)
      else
        match f !! d with
        | Some Dir => inr (<[p := File content]> f)
        | Some (File _) => inl NotADirectoryError
        | None => inl FileNotFoundError
        end
  end.

(** [shutil.rmtree(p)]: removes the directory [p] and all below it. *)
Definition rmtree (p : string) (f : fs) : raised + fs :=
  match f !! p with
  | Some Dir =>
      inr (filter (λ kv, ¬ (kv.1 = p ∨ Py.startswith kv.1 (p ++ "/") = true)) f)
  | Some (File _) => inl NotADirectoryError
  | None => inl FileNotFoundError
  end.

(** JSON bodies of the module. *)
Inductive body :=
| JError (message : string)
| JAdded (student : string) (photos_saved : nat) (folder : string)
| JRemoved (message : string).

(** A returned body with its status code, or an exception. *)
Inductive outcome :=
| Returned (b : body) (code : Z)
| Raised (e : raised).

(** [student_name.strip().replace(" ", "_")] *)
Definition normalize (student_name : string) : string :=
  Py.replace_char " " "_" (Py.strip student_name).

Definition student_folder_of (student_name : string) : string :=
  Py.path_join STUDENTS_DIR (normalize student_name).

(** [img_data.split(",")[1]] when there is a comma. *)
Definition payload (img_data : string) : string :=
  if Py.contains "," img_data then
    match Py.split "," img_data with
    | _ :: second :: _ => second
    | _ => img_data
    end
  else img_data.

Section add.

(** [base64.b64decode], [None] when it raises. *)
Variable b64decode : string → option string.

(** The loop over the images, from index [idx]; any exception of a turn
    ends the call with the 500 answer for that image (the text of the
    exception, which the code appends to the message, is left out). *)
Fixpoint save_images (student_name student_folder : string)
    (image_data_list : list string) (idx saved_count : nat) (f : fs)
    : outcome * fs :=
  match image_data_list with
  | [] =>
      (Returned (JAdded student_name saved_count student_folder) 200, f)
  | img_data :: rest =>
      let failed :=
        Returned (JError ("Failed to save image " ++ Py.str (idx + 1))) 500 in
      match b64decode (payload img_data) with
      | None => (failed, f)
      | Some img_bytes =>
          let filename :=
            Py.path_join student_folder
              (student_name ++ "_" ++ Py.str (idx + 1) ++ ".jpg") in
          match write_file filename img_bytes f with
          | inl _ => (failed, f)
          | inr f' =>
              save_images student_name student_folder rest (S idx)
                (S saved_count) f'
          end
      end
  end.

Definition add_student_from_api (student_name : string)
    (image_data_list : list string) (f : fs) : outcome * fs :=
  let student_name := normalize student_name in
  let student_folder := Py.path_join STUDENTS_DIR student_name in
  let made :=
    if negb (path_exists STUDENTS_DIR f) then makedirs STUDENTS_DIR f
    else inr f in
  match made with
  | inl e => (Raised e, f)
  | inr f1 =>
      if path_exists student_folder f1 then
        (Returned
           (JError ("Student '" ++ student_name
                    ++ "' already exists! Delete it first to recapture."))
           400, f1)
      else
        match makedirs student_folder f1 with
        | inl e => (Raised e, f1)
        | inr f2 =>
            save_images student_name student_folder image_data_list 0 0 f2
        end
  end.

End add.

Definition remove_student (student_name : string) (f : fs) : outcome * fs :=
  let student_name := normalize student_name in
  let student_folder := Py.path_join STUDENTS_DIR student_name in
  if path_exists student_folder f then
    match rmtree student_folder f with
    | inl e => (Raised e, f)
    | inr f' =>
        (Returned
           (JRemoved ("Student '" ++ student_name ++ "' removed successfully!"))
           200, f')
    end
  else
    (Returned (JError ("Student '" ++ student_name ++ "' not found.")) 404, f).

End Student_Manage.

(* ===================================================================== *)
(** ** Threads: concurrent record calls on the registry of Run.py *)
(* ===================================================================== *)

Module Threads.

(** Request threads run [record_recognition_results_for_class] at the same
    time.  A thread advances one access to the shared state at a time, and
    the scheduler may switch threads between any two steps: in particular
    between the read [records.get(name, 0)] and the store
    [records[name] = ...] of one turn of the loop. *)

(** Where a thread is in the function. *)
Inductive pc :=
| Enter                    (* before [with _sessions_lock] *)
| Locked                   (* in the [with] block, before the lookup *)
| Loop (records : Run.loc) (rest : list string)
                           (* at the head of the [for] loop *)
| Store (records : Run.loc) (name : string) (read : Z) (rest : list string)
                           (* has read the counter, has not stored yet *)
| Done (r : Run.response). (* returned; the lock is released *)

(** A thread: the arguments of its call and where it is. *)
Record thread := Thread {
  recognized_names : list string;
  class_id : string;
  at_pc : pc
}.

(** The shared state, the owner of [_sessions_lock] and the threads. *)
Record config := Config {
  shared : Run.state;
  lock : option nat;
  threads : list thread
}.

Definition set_pc (t : thread) (p : pc) : thread :=
  Thread (recognized_names t) (class_id t) p.

(** [records[name] = v] on the dict at [l]. *)
Definition store (l : Run.loc) (name : string) (v : Z) (st : Run.state)
    : Run.state :=
  Run.State (Run.sessions_by_class st)
    (<[l := <[name := v]> (Run.deref (Run.heap st) l)]> (Run.heap st)).

(** One step of thread [i]; [None] when the thread does not exist, has
    returned, or waits for the lock.  With [use_lock = false] the [with]
    statement is ignored; the source is [use_lock = true]. *)
Definition step_with (use_lock : bool) (i : nat) (c : config) : option config :=
  match threads c !! i with
  | None => None
  | Some t =>
      let continue p := Config (shared c) (lock c) (<[i := set_pc t p]> (threads c)) in
      let leave r :=
        Config (shared c) (if use_lock then None else lock c)
          (<[i := set_pc t (Done r)]> (threads c)) in
      match at_pc t with
      | Enter =>
          if negb (Py.truthy (class_id t)) then
            Some (continue (Done Run.class_id_required))
          else if negb use_lock then Some (continue Locked)
          else
            match lock c with
            | None =>
                Some (Config (shared c) (Some i)
                        (<[i := set_pc t Locked]> (threads c)))
            | Some _ => None
            end
      | Locked =>
          match Run.sessions_by_class (shared c) !! class_id t with
          | Some sess =>
              if Run.is_active sess then
                Some (continue (Loop (Run.attendance_records sess)
                                  (recognized_names t)))
              else Some (leave Run.NotActive_record)
          | None => Some (leave Run.NotActive_record)
          end
      | Loop l [] =>
          Some (leave (Run.Response
                         (Run.JRecorded (Run.deref (Run.heap (shared c)) l))))
      | Loop l (name :: rest) =>
          if decide (name = "Unknown") then Some (continue (Loop l rest))
          else
            Some (continue
                    (Store l name
                       (default 0 (Run.deref (Run.heap (shared c)) l !! name))
                       rest))
      | Store l name v rest =>
          Some (Config (store l name (v + 1) (shared c)) (lock c)
                  (<[i := set_pc t (Loop l rest)]> (threads c)))
      | Done _ => None
      end
  end.

Definition step : nat → config → option config := step_with true.

(** Executions: any thread that can step may be the next one. *)
Inductive steps : config → config → Prop :=
| steps_refl c : steps c c
| steps_step c i c' c'' : step i c = Some c' → steps c' c'' → steps c c''.

(** A schedule names the thread of each step. *)
Fixpoint run_schedule (use_lock : bool) (schedule : list nat) (c : config)
    : option config :=
  match schedule with
  | [] => Some c
  | i :: rest =>
      match step_with use_lock i c with
      | Some c' => run_schedule use_lock rest c'
      | None => None
      end
  end.

Definition returned (t : thread) : bool :=
  match at_pc t with Done _ => true | _ => false end.

Definition all_returned (c : config) : bool := forallb returned (threads c).

(** [n] concurrent calls on [class_id], none of which has started. *)
Definition spawn (st : Run.state) (class_id : string)
    (calls : list (list string)) : config :=
  Config st None (map (λ names, Thread names class_id Enter) calls).

(** The names of a call that are counted. *)
Definition counted (names : list string) : list string :=
  filter (λ name, name ≠ "Unknown") names.

(** Sum of the counters of a dict. *)
Definition total (records : gmap string Z) : Z :=
  map_fold (λ _ v acc, v + acc) 0 records.

(** Sum of [f] over a list. *)
Definition sumZ {A} (f : A → Z) (l : list A) : Z :=
  foldr (λ x acc, f x + acc) 0 l.

(** The names a thread has yet to count. *)
Definition pending (t : thread) : list string :=
  match at_pc t with
  | Enter | Locked => counted (recognized_names t)
  | Loop _ rest => counted rest
  | Store _ name _ rest => name :: counted rest
  | Done _ => []
  end.

(** Whether a thread is inside the [with] block. *)
Definition in_block (t : thread) : bool :=
  match at_pc t with
  | Locked | Loop _ _ | Store _ _ _ _ => true
  | Enter | Done _ => false
  end.

(** An upper bound on the steps a thread still takes. *)
Definition steps_left (t : thread) : nat :=
  match at_pc t with
  | Enter => 2 * length (recognized_names t) + 3
  | Locked => 2 * length (recognized_names t) + 2
  | Loop _ rest => 2 * length rest + 1
  | Store _ _ _ rest => 2 * length rest + 2
  | Done _ => 0
  end.

(** The work that is left in a configuration. *)
Definition work (c : config) : Z :=
  sumZ (λ t, Z.of_nat (steps_left t)) (threads c).

(** What holds in every configuration reached by concurrent record calls
    [calls] on the key [k] started in the state [st0], where [l] is the
    counter dict of the session of [k]: the sessions and the other dicts are
    those of [st0]; every name has been counted as often as the threads no
    longer owe it; a thread inside the [with] block owns the lock, and a
    thread between its read and its store has read the current counter. *)
Record inv (st0 : Run.state) (k : string) (l : Run.loc)
    (calls : list (list string)) (c : config) : Prop := Inv {
  inv_sessions :
    Run.sessions_by_class (shared c) = Run.sessions_by_class st0;
  inv_heap : ∀ l', l' ≠ l → Run.heap (shared c) !! l' = Run.heap st0 !! l';
  inv_count : ∀ n,
    Run.count (Run.deref (Run.heap (shared c)) l) n
    + sumZ (λ t, Run.occurrences n (pending t)) (threads c)
    = Run.count (Run.deref (Run.heap st0) l) n
      + sumZ (λ names, Run.occurrences n (counted names)) calls;
  inv_total :
    total (Run.deref (Run.heap (shared c)) l)
    + sumZ (λ t, Z.of_nat (length (pending t))) (threads c)
    = total (Run.deref (Run.heap st0) l)
      + sumZ (λ names, Z.of_nat (length (counted names))) calls;
  inv_lock : ∀ i t,
    threads c !! i = Some t → in_block t = true → lock c = Some i;
  inv_owner : ∀ i,
    lock c = Some i → ∃ t, threads c !! i = Some t ∧ in_block t = true;
  inv_class : ∀ i t, threads c !! i = Some t → class_id t = k;
  inv_loc : ∀ i t, threads c !! i = Some t →
    match at_pc t with
    | Loop l' _ => l' = l
    | Store l' name v _ =>
        l' = l ∧ name ≠ "Unknown"
        ∧ v = Run.count (Run.deref (Run.heap (shared c)) l) name
    | _ => True
    end
}.

End Threads.

(* ===================================================================== *)
(** ** main.py and app.py: recognising the faces of an image *)
(* ===================================================================== *)

Module Recognition.

Section recognize.

(** The vision collaborators are outside the sources: [cv2.imread] on the
    uploaded bytes ([None] when it gives no frame), the detector ([None]
    when it reports no array of faces), [DeepFace.represent] on the crop of
    a face ([None] when the [try] block of the loop raises), [round(x, 3)]
    and [base64.b64decode] ([None] when it raises). *)
Context {frame face embedding : Type}.
Variable cosine_similarity : embedding → embedding → Q.
Variable imread : string → option frame.
Variable detect : frame → option (list face).
Variable represent : frame → face → option embedding.
Variable round3 : Q → Q.
Variable b64decode : string → option string.

(** One entry of [results]: name, confidence and bounding box, or the
    [{"error": ...}] of a face whose [try] block raised. *)
Inductive face_result :=
| Named (name : string) (confidence : Q) (bounding_box : face)
| Failed.

(** What [recognize_faces_from_image] returns: the tuple with status 400
    for an image that cannot be read, or the [Response] with the results. *)
Inductive recognized :=
| InvalidImage
| Faces (results : list face_result).

(** The body of the loop over the faces. *)
Definition recognize_face (embeddings_db : list (string * list embedding))
    (fr : frame) (f : face) : face_result :=
  match represent fr f with
  | Some embedding =>
      let '(name, confidence) :=
        Main.find_match cosine_similarity embedding embeddings_db in
      Named name (round3 confidence) f
  | None => Failed
  end.

(** [recognize_faces_from_image], on the bytes of the file at [image_path].
    [load_embeddings] is [None] when reading the store raises; the
    exception then leaves the function. *)
Definition recognize_faces_from_image
    (load_embeddings : option (list (string * list embedding)))
    (image : string) : option recognized :=
  match load_embeddings with
  | None => None
  | Some embeddings_db =>
      match imread image with
      | None => Some InvalidImage
      | Some fr =>
          Some (Faces
                  match detect fr with
                  | Some faces => map (recognize_face embeddings_db fr) faces
                  | None => []
                  end)
      end
  end.

(** [decode_base64_image] of app.py. *)
Definition decode_base64_image (data_b64 : string) : option string :=
  let data_b64 :=
    if Py.contains "," data_b64 then
      match Py.split "," data_b64 with
      | _ :: second :: _ => second
      | _ => data_b64
      end
    else data_b64 in
  b64decode data_b64.

(** What the route reads of a request.  A JSON request gives the object of
    [request.get_json()] ([None] when there is no such object, so that the
    route raises), of which the route reads ["image"] and ["classId"]; any
    other request gives the uploaded file ["image"], if there is one. *)
Inductive upload :=
| Json (data : option (option string * option string))
| Form (image : option string).

Record request := Request {
  body : upload;
  args_classId : option string
}.

(** Bodies of the route: [{"status": "error", "message": ...}] with a fixed
    message or with the text of an exception, or the parsed answer of
    [recognize_faces_from_image]. *)
Inductive answer :=
| RError (message : string)
| RException
| RFaces (faces_detected : nat) (results : list face_result).

(** [parse_recognize_response]: the tuple has no [get_data]. *)
Definition parse_recognize_response (resp : recognized) : answer :=
  match resp with
  | Faces results => RFaces (length results) results
  | InvalidImage => RError "Failed to parse recognition response"
  end.

(** The first part of the route: the bytes of the image, or the answer that
    ends the call. *)
Definition request_image (req : request) : (answer * Z) + string :=
  match body req with
  | Json None => inl (RException, 500)
  | Json (Some (image_b64, _)) =>
      if negb (Py.truthy_opt image_b64) then
        inl (RError "No image field in JSON", 400)
      else
        match decode_base64_image (default "" image_b64) with
        | Some img_bytes => inr img_bytes
        | None => inl (RException, 500)
        end
  | Form None => inl (RError "No image file provided", 400)
  | Form (Some img_bytes) => inr img_bytes
  end.

(** The class id: the ["classId"] of the JSON object, else of the query
    string. *)
Definition request_class_id (req : request) : option string :=
  let class_id :=
    match body req with
    | Json (Some (_, class_id)) => class_id
    | _ => None
    end in
  if negb (Py.truthy_opt class_id) then args_classId req else class_id.

(** [r["name"]] of the results that have one. *)
Definition names_of (results : list face_result) : list string :=
  omap (λ r, match r with Named name _ _ => Some name | Failed => None end)
       results.

(** [POST /recognize_image]: the answer with its status code, and the
    registry afterwards. *)
Definition recognize_image_route
    (load_embeddings : option (list (string * list embedding)))
    (req : request) (st : Run.state) : (answer * Z) * Run.state :=
  match request_image req with
  | inl r => (r, st)
  | inr img_bytes =>
      match recognize_faces_from_image load_embeddings img_bytes with
      | None => ((RException, 500), st)
      | Some resp =>
          let result_json := parse_recognize_response resp in
          let class_id := request_class_id req in
          match result_json with
          | RFaces faces_detected results =>
              if (0 <? faces_detected)%nat then
                match names_of results with
                | [] => ((result_json, 200), st)
                | names =>
                    if negb (Py.truthy_opt class_id) then
                      ((RError "classId is required while a session is active",
                        400), st)
                    else
                      ((result_json, 200),
                       snd (Run.record_recognition_results_for_class names
                              (default "" class_id) st))
                end
              else ((result_json, 200), st)
          | _ => ((result_json, 200), st)
          end
      end
  end.

End recognize.

End Recognition.

(* ===================================================================== *)
(** ** app.py: the routes over the student folders *)
(* ===================================================================== *)

Module StudentRoutes.

(** An uploaded file: its content and its [mimetype] (empty when the
    client sent none). *)
Record file := File {
  content : string;
  mimetype : string
}.

(** The fields of the JSON object that [add_student_route] reads. *)
Record add_json := AddJson {
  j_student_name : option string;
  j_images : list string;
  j_image : option string
}.

(** What [add_student_route] reads of a request: with uploaded files, the
    form field ["student_name"], the files named ["images"] and the file
    named ["image"]; without, the result of [request.get_json()], which
    raises ([JsonRaises]) or gives an object or nothing. *)
Inductive add_request :=
| WithFiles (student_name : option string) (images : list file)
            (image : option file)
| WithJson (data : option add_json)
| JsonRaises.

(** The answer of a route: a body of Student_Manage.py with its status
    code, or the 500 answer of the [except] of the route, whose message is
    the text of the exception. *)
Inductive answer :=
| Passed (b : Student_Manage.body) (code : Z)
| Failed500.

Definition of_outcome (o : Student_Manage.outcome) : answer :=
  match o with
  | Student_Manage.Returned b code => Passed b code
  | Student_Manage.Raised _ => Failed500
  end.

Section routes.

Variable b64encode : string → string.
Variable b64decode : string → option string.

(** The loop over the uploaded files: empty files are skipped, the others
    become data URLs. *)
Definition data_urls (files : list file) : list string :=
  flat_map (λ f,
              if negb (Py.truthy (content f)) then []
              else
                let mime :=
                  if Py.truthy (mimetype f) then mimetype f else "image/jpeg" in
                ["data:" ++ mime ++ ";base64," ++ b64encode (content f)])
           files.

(** The first part of [add_student_route]: the name and the images. *)
Definition add_arguments (req : add_request)
    : option (option string * list string) :=
  match req with
  | WithFiles student_name images image =>
      let files :=
        match images, image with
        | [], Some f => [f]
        | _, _ => images
        end in
      Some (student_name, data_urls files)
  | WithJson data =>
      let student_name := data ≫= j_student_name in
      let images_b64 := default [] (j_images <$> data) in
      let images_b64 :=
        match images_b64, data ≫= j_image with
        | [], Some image => if Py.truthy image then [image] else images_b64
        | _, _ => images_b64
        end in
      Some (student_name, images_b64)
  | JsonRaises => None
  end.

(** [POST /add_student] *)
Definition add_student_route (req : add_request) (f : Student_Manage.fs)
    : answer * Student_Manage.fs :=
  match add_arguments req with
  | None => (Failed500, f)
  | Some (student_name, images_b64) =>
      if negb (Py.truthy_opt student_name)
         || match images_b64 with [] => true | _ => false end
      then
        (Passed (Student_Manage.JError "Missing student_name or images") 400, f)
      else
        let '(result, f') :=
          Student_Manage.add_student_from_api b64decode
            (default "" student_name) images_b64 f in
        (of_outcome result, f')
  end.

End routes.

(** [DELETE /remove_student/<student_name>]: with a Firebase manager the
    route asks the result for [result.get("status")]; neither a [Response]
    nor a tuple has a [get], so the call raises inside the [try]. *)
Definition remove_student_route (student_name : string)
    (firebase_manager : bool) (f : Student_Manage.fs)
    : answer * Student_Manage.fs :=
  let '(result, f') := Student_Manage.remove_student student_name f in
  match result with
  | Student_Manage.Raised _ => (Failed500, f')
  | Student_Manage.Returned _ _ =>
      if firebase_manager then (Failed500, f') else (of_outcome result, f')
  end.

End StudentRoutes.

(* ===================================================================== *)
(** ** firebase_config.py: attendance records in Firestore *)
(* ===================================================================== *)

Module Firebase_config.

(** Field values of a document: strings, integers, floats, and the time
    the server puts for [SERVER_TIMESTAMP]. *)
Inductive value :=
| VStr (s : string)
| VInt (n : Z)
| VFloat (q : Q)
| VServerTime (t : Z).

#[global] Instance Q_eq_dec : EqDecision Q.
Proof. solve_decision. Defined.

#[global] Instance value_eq_dec : EqDecision value.
Proof. solve_decision. Defined.

(** A document is a dict of fields; a collection holds documents by id. *)
Abbreviation document := (gmap string value).
Abbreviation collection := (gmap string document).

(** [collection.document(id).set(data, merge=True)]: the fields of [data]
    replace the fields of the same name, and the other fields of an
    existing document stay. *)
Definition set_merge (id : string) (data : document) (c : collection)
    : collection :=
  <[id := data ∪ default ∅ (c !! id)]> c.

(** What the calls read of the clocks: [datetime.now()] as a date and in
    ISO format, and the time of the server. *)
Record clock := Clock {
  today_str : string;
  isoformat : string;
  server_time : Z
}.

(** [f"{class_id}_{student_id}_{today_str}"] *)
Definition record_id (class_id student_id today_str : string) : string :=
  class_id ++ "_" ++ student_id ++ "_" ++ today_str.

(** [save_attendance_record]; [online] is false when a call of the client
    library raises, which the method answers with [False]. *)
Definition save_attendance_record (online : bool) (now : clock)
    (class_id student_id status : string) (additional_data : document)
    (attendance : collection) : bool * collection :=
  if negb online then (false, attendance)
  else
    let today_str := today_str now in
    let record_id := record_id class_id student_id today_str in
    let attendance_data : document :=
      list_to_map
        [("classId", VStr class_id);
         ("studentId", VStr student_id);
         ("date", VStr today_str);
         ("status", VStr status);
         ("timestamp", VServerTime (server_time now));
         ("createdAt", VStr (isoformat now))] in
    let attendance_data := additional_data ∪ attendance_data in
    (true, set_merge record_id attendance_data attendance).

(** [get_attendance_for_class]: the records of the class and the date (of
    today when none is given), here by their document id; each carries its
    id in the field ["id"]. *)
Definition get_attendance_for_class (online : bool) (now : clock)
    (class_id : string) (date : option string) (attendance : collection)
    : gmap string document :=
  if negb online then ∅
  else
    let date := if Py.truthy_opt date then default "" date else today_str now in
    map_imap
      (λ id doc,
         if decide (doc !! "classId" = Some (VStr class_id)
                    ∧ doc !! "date" = Some (VStr date))
         then Some (<["id" := VStr id]> doc)
         else None)
      attendance.

(** The call of [save_attendance_record] in the loop of the stop route of
    app.py, for one of the records that the route prepares. *)
Definition save_record (online : bool) (now : clock) (r : App.saved_record)
    (attendance : collection) : bool * collection :=
  save_attendance_record online now (App.sv_class_id r) (App.sv_student_id r)
    (App.sv_status r)
    (list_to_map
       [("presence_time", VInt (App.sv_presence_time r));
        ("attendance_percentage", VFloat (App.sv_attendance_percentage r));
        ("session_duration", VInt (App.sv_session_duration r))])
    attendance.

End Firebase_config.

(* ===================================================================== *)
(** ** Sample inputs *)
(* ===================================================================== *)

Module Samples.

(** One session, just started. *)
Definition st_started : Run.state :=
  Run.run [Run.CStart "CS101" None 5000000] Run.init.

(** The scenario of a session with two record calls. *)
Definition st_recorded : Run.state :=
  Run.run [Run.CRecord ["alice"; "bob"] "CS101";
           Run.CRecord ["alice"; "Unknown"] "CS101"] st_started.

(** A session started over HTTP, with one recognition recorded. *)
Definition st_http : Run.state :=
  Run.exec
    (snd (App.start_session (Some (Some "CS101")) true 5000000 Run.init))
    (Run.CRecord ["alice"] "CS101").

(** Embeddings named by a number, with a table of their similarities to
    the query. *)
Definition similarity_to (query stored : nat) : Q :=
  match stored with
  | 0%nat => -1 # 2
  | 1%nat => 3 # 10
  | 2%nat => Main.SIMILARITY_THRESHOLD
  | 3%nat => Main.SIMILARITY_THRESHOLD
  | 4%nat => 1 # 2
  | _ => 0
  end.

(** Two identities tie at exactly the threshold; "alice" comes first. *)
Definition db_tie : list (string * list nat) :=
  [("alice", [1; 2]%nat); ("bob", [3; 4]%nat)].

(** The best similarity, 1/2, is below the threshold. *)
Definition db_low : list (string * list nat) :=
  [("alice", [1]%nat); ("bob", [4; 0]%nat)].

(** Every similarity is negative. *)
Definition db_negative : list (string * list nat) := [("alice", [0]%nat)].

(** Stand-ins for the vision collaborators: embeddings and images are
    numbers. *)
Definition sample_represent (img_path : string) : option nat :=
  Some (String.length img_path).
Definition sample_imread (img_path : string) : option nat := Some 0%nat.
Definition sample_represent_augmented (img_path : string) (face i : nat)
    : option nat := Some (100 + i)%nat.

(** A catalog with two student folders and a plain file, and a stored
    dict that knows "alice" and a student who has left. *)
Definition listing : list EncodeGenerator.entry :=
  [EncodeGenerator.Entry "alice" true ["a.jpg"; "notes.txt"];
   EncodeGenerator.Entry "bob" true ["b.PNG"];
   EncodeGenerator.Entry "README.md" false []].

Definition stored : Py.dict (list nat) :=
  [("alice", [1%nat]); ("carol", [2%nat])].

(** A file system with the folder of one student. *)
Definition fs_ahmed : Student_Manage.fs :=
  list_to_map
    [("Smart Attendance System", Student_Manage.Dir);
     ("Smart Attendance System/Images", Student_Manage.Dir);
     ("Smart Attendance System/Images/Ahmed_Ali", Student_Manage.Dir);
     ("Smart Attendance System/Images/Ahmed_Ali/Ahmed_Ali_1.jpg",
      Student_Manage.File "first")].

Definition sample_b64decode (data : string) : option string := Some data.
Definition sample_b64encode (content : string) : string := content.

(** A decoder that refuses data whose length is not a multiple of four, as
    [base64.b64decode] does for incorrect padding. *)
Definition sample_b64decode_padded (data : string) : option string :=
  if (String.length data mod 4 =? 0)%nat then Some data else None.

(** Two calls that record the same name at the same time. *)
Definition two_calls : Threads.config :=
  Threads.spawn st_started "CS101" [["alice"]; ["alice"]].

(** Both threads read the counter before either stores it. *)
Definition racy_schedule : list nat := [0; 0; 0; 1; 1; 1; 0; 1; 0; 1]%nat.

(** The second thread gets the lock first; the first one follows. *)
Definition fair_schedule : list nat := [1; 1; 1; 1; 1; 0; 0; 0; 0; 0]%nat.

Definition two_calls_done : Threads.config :=
  default two_calls (Threads.run_schedule true fair_schedule two_calls).

(** Stand-ins for recognition: frames, faces and embeddings are numbers; a
    face is as similar to a stored embedding as it is equal to it, every
    frame shows the same five faces, and the face 9 has no embedding. *)
Definition sample_similarity (query stored : nat) : Q :=
  if (query =? stored)%nat then 1 else 0.
Definition sample_db : list (string * list nat) :=
  [("alice", [1]%nat); ("bob", [2]%nat)].
Definition sample_frame (image : string) : option nat :=
  if Py.truthy image then Some (String.length image) else None.
Definition sample_detect (fr : nat) : option (list nat) :=
  Some [1; 7; 2; 1; 9]%nat.
Definition sample_face (fr face : nat) : option nat :=
  if (face =? 9)%nat then None else Some face.
Definition sample_round3 (x : Q) : Q := x.

(** A day for the records of Firestore. *)
Definition sample_clock : Firebase_config.clock :=
  Firebase_config.Clock "2024-05-01" "2024-05-01T10:00:00" 1714557600.

End Samples.

(* ===================================================================== *)
(** * Properties *)
(* ===================================================================== *)

Lemma truthy_true s : Py.truthy s = true ↔ s ≠ "".
Proof. destruct s; simpl; split; congruence. Qed.

Lemma truthy_false s : Py.truthy s = false ↔ s = "".
Proof. destruct s; simpl; split; congruence. Qed.

(* ===================================================================== *)
(** ** The session registry (Run.py) *)
(* ===================================================================== *)

Section registry.
Import Run Samples.

Lemma wf_init : wf init.
Proof. split; simpl; intros; simplify_map_eq; done. Qed.

Lemma fresh_unreferenced st :
  wf st → unreferenced st (fresh (dom (heap st))).
Proof.
  intros Hwf k s Hk Heq.
  destruct (wf_heap _ Hwf _ _ Hk) as [d Hd].
  apply (is_fresh (dom (heap st))). rewrite <- Heq.
  apply elem_of_dom. eauto.
Qed.

(** Storing a new slot whose dict is a new object. *)
Lemma wf_insert_fresh st k s d :
  wf st → k ≠ "" → unreferenced st (attendance_records s) →
  (is_active s = false → d = ∅ ∧ start_time s = None ∧ session_name s = None) →
  wf (State (<[k := s]> (sessions_by_class st))
            (<[attendance_records s := d]> (heap st))).
Proof.
  intros Hwf Hk Hun Hs.
  assert (Hother : ∀ k' s', sessions_by_class st !! k' = Some s' →
            <[attendance_records s := d]> (heap st) !! attendance_records s'
            = heap st !! attendance_records s').
  { intros k' s' Hl. apply lookup_insert_ne. intros E.
    by apply (Hun _ _ Hl). }
  split; simpl.
  - rewrite lookup_insert_ne by done. apply Hwf.
  - intros k' s' Hl. destruct (decide (k' = k)) as [->|Hne].
    + rewrite lookup_insert_eq in Hl. injection Hl as <-.
      rewrite lookup_insert_eq. eauto.
    + rewrite lookup_insert_ne in Hl by done.
      rewrite (Hother _ _ Hl). eapply wf_heap; eauto.
  - intros k1 k2 s1 s2 H1 H2 Heq.
    destruct (decide (k1 = k)) as [->|Hn1], (decide (k2 = k)) as [->|Hn2];
      try done.
    + rewrite lookup_insert_eq in H1. injection H1 as <-.
      rewrite lookup_insert_ne in H2 by done.
      exfalso. by apply (Hun _ _ H2).
    + rewrite lookup_insert_eq in H2. injection H2 as <-.
      rewrite lookup_insert_ne in H1 by done.
      exfalso. by apply (Hun _ _ H1).
    + rewrite lookup_insert_ne in H1 by done.
      rewrite lookup_insert_ne in H2 by done.
      eapply wf_sep; eauto.
  - intros k' s' Hl Hina. destruct (decide (k' = k)) as [->|Hne].
    + rewrite lookup_insert_eq in Hl. injection Hl as <-.
      rewrite lookup_insert_eq. destruct (Hs Hina) as (-> & ? & ?). done.
    + rewrite lookup_insert_ne in Hl by done.
      rewrite (Hother _ _ Hl). eapply wf_inactive; eauto.
Qed.

(** Writing a dict that no slot refers to. *)
Lemma wf_store_unreferenced st l d :
  wf st → unreferenced st l →
  wf (State (sessions_by_class st) (<[l := d]> (heap st))).
Proof.
  intros Hwf Hun. split; simpl.
  - apply Hwf.
  - intros k s Hl. rewrite lookup_insert_ne by (intros E; apply (Hun _ _ Hl); done).
    eapply wf_heap; eauto.
  - apply Hwf.
  - intros k s Hl Hina.
    rewrite lookup_insert_ne by (intros E; apply (Hun _ _ Hl); done).
    eapply wf_inactive; eauto.
Qed.

(** Writing the dict of an active slot. *)
Lemma wf_store_active st k s d :
  wf st → sessions_by_class st !! k = Some s → is_active s = true →
  wf (State (sessions_by_class st) (<[attendance_records s := d]> (heap st))).
Proof.
  intros Hwf Hk Hact. split; simpl.
  - apply Hwf.
  - intros k' s' Hl.
    destruct (decide (attendance_records s = attendance_records s')) as [->|Hne].
    + rewrite lookup_insert_eq. eauto.
    + rewrite lookup_insert_ne by done. eapply wf_heap; eauto.
  - apply Hwf.
  - intros k' s' Hl Hina.
    destruct (decide (attendance_records s = attendance_records s')) as [Heq|Hne].
    + assert (k = k') as <- by (eapply (wf_sep _ Hwf); eauto).
      congruence.
    + rewrite lookup_insert_ne by done. eapply wf_inactive; eauto.
Qed.

Lemma wf_clear_all st : wf st → wf (State ∅ (heap st)).
Proof. intros _. split; simpl; intros; simplify_map_eq; done. Qed.

Lemma wf_reset_slot k st : wf st → k ≠ "" → wf (reset_slot k st).
Proof.
  intros Hwf Hk. unfold reset_slot, alloc. cbn.
  pose proof (wf_insert_fresh st k
    (Session false None (fresh (dom (heap st))) None) ∅ Hwf Hk) as H.
  simpl in H. apply H; auto using fresh_unreferenced.
Qed.

Lemma wf_start_session k n t st : wf st → wf (snd (start_session k n t st)).
Proof.
  intros Hwf. unfold start_session.
  destruct (Py.truthy k) eqn:Hk; simpl; [|done].
  destruct (active _); simpl; [done|]. unfold alloc. cbn.
  apply truthy_true in Hk.
  pose proof (wf_insert_fresh st k
    (Session true (Some (Py.or_else n (k ++ "_session")))
       (fresh (dom (heap st))) (Some t)) ∅ Hwf Hk) as H.
  simpl in H. apply H; [by apply fresh_unreferenced | discriminate].
Qed.

Lemma wf_stop_session k t st : wf st → wf (snd (stop_session k t st)).
Proof.
  intros Hwf. unfold stop_session.
  destruct (Py.truthy k) eqn:Hk; simpl; [|done].
  destruct (sessions_by_class st !! k) as [sess|] eqn:Hs; [|done].
  destruct (is_active sess); [|done].
  unfold stop_summary, alloc. simpl.
  apply wf_reset_slot; [|by apply truthy_true].
  apply wf_store_unreferenced; auto using fresh_unreferenced.
Qed.

Lemma wf_record ns k st :
  wf st → wf (snd (record_recognition_results_for_class ns k st)).
Proof.
  intros Hwf. unfold record_recognition_results_for_class.
  destruct (Py.truthy k) eqn:Hk; simpl; [|done].
  destruct (sessions_by_class st !! k) as [sess|] eqn:Hs; [|done].
  destruct (is_active sess) eqn:Ha; [|done].
  simpl. eapply wf_store_active; eauto.
Qed.

Lemma wf_clear k st : wf st → wf (clear_session_data k st).
Proof.
  intros Hwf. unfold clear_session_data.
  destruct k as [c|]; [|by apply wf_clear_all].
  destruct (Py.truthy c) eqn:Hc; [|by apply wf_clear_all].
  apply wf_reset_slot; [done|by apply truthy_true].
Qed.

Lemma wf_exec c st : wf st → wf (exec st c).
Proof.
  destruct c; simpl;
    auto using wf_start_session, wf_stop_session, wf_record, wf_clear.
Qed.

Lemma wf_run cs st : wf st → wf (run cs st).
Proof.
  revert st. induction cs as [|c cs IH]; intros st Hwf; simpl; [done|].
  apply IH, wf_exec, Hwf.
Qed.

Lemma reachable_wf st : reachable st → wf st.
Proof. intros [cs ->]. apply wf_run, wf_init. Qed.

Lemma reachable_exec st c : reachable st → reachable (exec st c).
Proof.
  intros [cs ->]. exists (cs ++ [c])%list. unfold run. by rewrite foldl_app.
Qed.

Lemma reachable_init : reachable init.
Proof. by exists []. Qed.

Lemma reachable_run cs st : reachable st → reachable (run cs st).
Proof.
  revert st. induction cs as [|c cs IH]; intros st Hr; simpl; [done|].
  by apply IH, reachable_exec.
Qed.

(** An active slot has a key that passes the [if not class_id] guard. *)
Lemma active_key_truthy st k :
  wf st → active (sessions_by_class st !! k) = true → Py.truthy k = true.
Proof.
  intros Hwf Ha. apply truthy_true. intros ->.
  by rewrite (wf_key _ Hwf) in Ha.
Qed.

Lemma counters_deref st k sess :
  sessions_by_class st !! k = Some sess →
  counters st k = deref (heap st) (attendance_records sess).
Proof. intros H. unfold counters. by rewrite H. Qed.

(** *** Recording *)

Lemma count_record_name records name n :
  count (record_name records name) n
  = count records n
    + (if decide (n = "Unknown") then 0
       else if decide (name = n) then 1 else 0).
Proof.
  unfold record_name, count.
  destruct (decide (name = "Unknown")) as [->|Hname].
  - repeat case_decide; subst; try done; lia.
  - destruct (decide (name = n)) as [->|Hne].
    + rewrite lookup_insert_eq. simpl. rewrite decide_False by done. done.
    + rewrite lookup_insert_ne by done. case_decide; lia.
Qed.

Lemma count_record_names names : ∀ records n,
  count (record_names records names) n
  = count records n
    + (if decide (n = "Unknown") then 0 else occurrences n names).
Proof.
  induction names as [|name names IH]; intros records n; simpl.
  - case_decide; lia.
  - unfold record_names in *. simpl. rewrite IH, count_record_name.
    repeat case_decide; lia.
Qed.

Lemma record_names_unknown m records :
  record_names records (replicate m "Unknown") = records.
Proof.
  induction m as [|m IH]; simpl; [done|].
  unfold record_names in *. simpl. unfold record_name at 2. by simpl.
Qed.

Lemma store_own_dict st l :
  is_Some (heap st !! l) →
  State (sessions_by_class st) (<[l := deref (heap st) l]> (heap st)) = st.
Proof.
  intros [d Hd]. unfold deref. rewrite Hd. simpl.
  rewrite insert_id by done. by destruct st.
Qed.

(** C2 (as stated, with the sentinel spelled "unknown"): recording the
    identity "unknown" on an active session does change a counter, because
    the source compares with the capitalised "Unknown". *)
Lemma record_lowercase_unknown_counted :
  active (sessions_by_class st_started !! "CS101") = true
  ∧ count (counters st_started "CS101") "unknown" = 0
  ∧ count (counters
      (snd (record_recognition_results_for_class ["unknown"] "CS101" st_started))
      "CS101") "unknown" = 1
  ∧ counters
      (snd (record_recognition_results_for_class ["unknown"] "CS101" st_started))
      "CS101" ≠ counters st_started "CS101".
Proof.
  split; [reflexivity|]. split; [reflexivity|]. split; [reflexivity|].
  intros E. apply (f_equal (λ m, count m "unknown")) in E.
  vm_compute in E. discriminate.
Qed.

(** C2 (amended): on an active session, a record call answers "recorded"
    with the updated counters, adds to the counter of every name its
    number of occurrences in the sequence unless the name is the sentinel
    "Unknown", leaves the sessions of the other keys alone, and recording
    "Unknown" any number of times, in one call or in a series of calls,
    leaves the whole state unchanged. *)
Theorem record_increments_known_names st k names :
  reachable st → active (sessions_by_class st !! k) = true →
  let r := record_recognition_results_for_class names k st in
  fst r = Response (JRecorded (counters (snd r) k))
  ∧ sessions_by_class (snd r) = sessions_by_class st
  ∧ (∀ n, count (counters (snd r) k) n
          = count (counters st k) n
            + (if decide (n = "Unknown") then 0 else occurrences n names))
  ∧ (∀ k', k' ≠ k → counters (snd r) k' = counters st k')
  ∧ (∀ m, snd (record_recognition_results_for_class
                 (replicate m "Unknown") k st) = st)
  ∧ (∀ m, run (replicate m (CRecord ["Unknown"] k)) st = st).
Proof.
  intros Hr Ha. pose proof (reachable_wf _ Hr) as Hwf.
  pose proof (active_key_truthy _ _ Hwf Ha) as Hk.
  destruct (sessions_by_class st !! k) as [sess|] eqn:Hs; [|done].
  simpl in Ha. unfold record_recognition_results_for_class.
  rewrite Hk, Hs, Ha. simpl.
  assert (Hnew : ∀ d,
    counters (State (sessions_by_class st)
                (<[attendance_records sess := d]> (heap st))) k = d).
  { intros d. unfold counters, deref. simpl. rewrite Hs.
    by rewrite lookup_insert_eq. }
  split; [by rewrite Hnew|]. split; [done|]. split.
  - intros n. rewrite Hnew, count_record_names.
    by rewrite (counters_deref _ _ _ Hs).
  - split.
    + intros k' Hne. unfold counters. simpl.
      destruct (sessions_by_class st !! k') as [s'|] eqn:Hs'; [|done].
      unfold deref. rewrite lookup_insert_ne; [done|].
      intros E. apply Hne. symmetry. by apply (wf_sep _ Hwf _ _ _ _ Hs Hs').
    + assert (Hone : ∀ m, snd (record_recognition_results_for_class
                                 (replicate m "Unknown") k st) = st).
      { intros m. unfold record_recognition_results_for_class.
        rewrite Hk, Hs, Ha. simpl. rewrite record_names_unknown.
        apply store_own_dict. by apply (wf_heap _ Hwf _ _ Hs). }
      split.
      * intros m. specialize (Hone m).
        unfold record_recognition_results_for_class in Hone.
        by rewrite Hk, Hs, Ha in Hone.
      * assert (Hone1 : exec st (CRecord ["Unknown"] k) = st)
          by exact (Hone 1%nat).
        intros m. induction m as [|m IH]; [done|].
        change (run (replicate (S m) (CRecord ["Unknown"] k)) st)
          with (run (replicate m (CRecord ["Unknown"] k))
                  (exec st (CRecord ["Unknown"] k))).
        by rewrite Hone1.
Qed.

Lemma record_increments_known_names_witness :
  reachable st_started
  ∧ active (sessions_by_class st_started !! "CS101") = true
  ∧ ∀ n, count (counters
           (snd (record_recognition_results_for_class
                   ["alice"; "Unknown"; "alice"] "CS101" st_started)) "CS101") n
         = count (counters st_started "CS101") n
           + (if decide (n = "Unknown") then 0
              else occurrences n ["alice"; "Unknown"; "alice"]).
Proof.
  assert (Hr : reachable st_started) by (by exists [CStart "CS101" None 5000000]).
  split; [exact Hr|]. split; [reflexivity|].
  apply (record_increments_known_names st_started "CS101"
           ["alice"; "Unknown"; "alice"] Hr eq_refl).
Defined.

(** C7: in every state reached from the empty registry by start, stop,
    record and clear calls, a slot whose [is_active] flag is false has an
    empty counter dict and no start time. *)
Theorem inactive_slot_invariant cs k s :
  sessions_by_class (run cs init) !! k = Some s → is_active s = false →
  heap (run cs init) !! attendance_records s = Some ∅
  ∧ counters (run cs init) k = ∅
  ∧ start_time s = None.
Proof.
  intros Hs Hina.
  assert (Hwf : wf (run cs init)) by apply wf_run, wf_init.
  destruct (wf_inactive _ Hwf _ _ Hs Hina) as (Hh & Ht & _).
  split; [done|]. split; [|done].
  rewrite (counters_deref _ _ _ Hs). unfold deref. by rewrite Hh.
Qed.

Lemma inactive_slot_invariant_witness :
  let cs := [CStart "CS101" None 5000000; CRecord ["alice"; "bob"] "CS101";
             CStop "CS101" 9000000] in
  ∃ s, sessions_by_class (run cs init) !! "CS101" = Some s
       ∧ is_active s = false
       ∧ heap (run cs init) !! attendance_records s = Some ∅
       ∧ counters (run cs init) "CS101" = ∅
       ∧ start_time s = None.
Proof.
  intros cs. eexists. split; [vm_compute; reflexivity|].
  split; [reflexivity|].
  apply (inactive_slot_invariant cs "CS101"); reflexivity.
Defined.

(** *** Stopping, and the dict of the summary *)

(** A dict that no slot refers to is out of reach of every later call. *)
Lemma unreferenced_insert st k s d l :
  unreferenced st l → attendance_records s ≠ l →
  heap st !! l = <[attendance_records s := d]> (heap st) !! l
  ∧ unreferenced
      (State (<[k := s]> (sessions_by_class st))
             (<[attendance_records s := d]> (heap st))) l.
Proof.
  intros Hun Hne. split; [by rewrite lookup_insert_ne|].
  intros k' s' Hl. simpl in Hl.
  destruct (decide (k' = k)) as [->|Hk].
  - rewrite lookup_insert_eq in Hl. by injection Hl as <-.
  - rewrite lookup_insert_ne in Hl by done. by apply (Hun _ _ Hl).
Qed.

Lemma fresh_not_allocated (h : gmap loc (gmap string Z)) l :
  is_Some (h !! l) → fresh (dom h) ≠ l.
Proof.
  intros Hl E. apply (is_fresh (dom h)). rewrite E. by apply elem_of_dom.
Qed.

Lemma reset_slot_unreferenced k st l :
  is_Some (heap st !! l) → unreferenced st l →
  heap (reset_slot k st) !! l = heap st !! l
  ∧ unreferenced (reset_slot k st) l.
Proof.
  intros Hl Hun. unfold reset_slot, alloc. cbn.
  pose proof (unreferenced_insert st k
    (Session false None (fresh (dom (heap st))) None) ∅ l Hun) as H.
  simpl in H. destruct H as [H1 H2]; [by apply fresh_not_allocated|].
  by split.
Qed.

Lemma stop_session_active st k now sess :
  Py.truthy k = true → sessions_by_class st !! k = Some sess →
  is_active sess = true →
  stop_session k now st
  = (Response
       (JSummary (jsonify_summary (heap (snd (stop_summary k now sess st)))
                    (fst (stop_summary k now sess st)))),
     snd (stop_summary k now sess st)).
Proof.
  intros Hk Hs Ha. unfold stop_session. rewrite Hk, Hs, Ha. simpl.
  by destruct (stop_summary k now sess st).
Qed.

Lemma stop_session_active_state st k now sess :
  Py.truthy k = true → sessions_by_class st !! k = Some sess →
  is_active sess = true →
  snd (stop_session k now st)
  = reset_slot k
      (State (sessions_by_class st)
         (<[fresh (dom (heap st)) := deref (heap st) (attendance_records sess)]>
            (heap st))).
Proof. intros Hk Hs Ha. by rewrite (stop_session_active _ _ _ _ Hk Hs Ha). Qed.

Lemma stop_summary_state st k now sess :
  snd (stop_summary k now sess st)
  = reset_slot k
      (State (sessions_by_class st)
         (<[fresh (dom (heap st)) := deref (heap st) (attendance_records sess)]>
            (heap st))).
Proof. reflexivity. Qed.

Lemma stop_summary_dict st k now sess :
  sm_attendance_records (fst (stop_summary k now sess st))
  = fresh (dom (heap st)).
Proof. reflexivity. Qed.

Lemma exec_unreferenced st c l :
  wf st → is_Some (heap st !! l) → unreferenced st l →
  heap (exec st c) !! l = heap st !! l ∧ unreferenced (exec st c) l.
Proof.
  intros Hwf Hl Hun. destruct c as [k n t|k t|ns k|k]; simpl.
  - unfold start_session.
    destruct (Py.truthy k); simpl; [|done].
    destruct (active _); simpl; [done|]. unfold alloc. cbn.
    pose proof (unreferenced_insert st k
      (Session true (Some (Py.or_else n (k ++ "_session")))
         (fresh (dom (heap st))) (Some t)) ∅ l Hun) as H.
    simpl in H. destruct H as [H1 H2]; [by apply fresh_not_allocated|].
    by split.
  - destruct (Py.truthy k) eqn:Hk; [|by unfold stop_session; rewrite Hk].
    destruct (sessions_by_class st !! k) as [sess|] eqn:Hs;
      [|by unfold stop_session; rewrite Hk, Hs].
    destruct (is_active sess) eqn:Ha;
      [|by unfold stop_session; rewrite Hk, Hs, Ha].
    rewrite (stop_session_active_state _ _ _ _ Hk Hs Ha).
    set (st1 := State _ _).
    assert (H1 : heap st1 !! l = heap st !! l).
    { subst st1. simpl. rewrite lookup_insert_ne; [done|].
      by apply fresh_not_allocated. }
    destruct (reset_slot_unreferenced k st1 l) as [H2 H3].
    + by rewrite H1.
    + done.
    + split; [by rewrite H2|done].
  - unfold record_recognition_results_for_class.
    destruct (Py.truthy k); simpl; [|done].
    destruct (sessions_by_class st !! k) as [sess|] eqn:Hs; [|done].
    destruct (is_active sess); [|done]. simpl.
    split; [|done]. rewrite lookup_insert_ne; [done|]. by apply (Hun _ _ Hs).
  - unfold clear_session_data.
    assert (Hall : heap (State ∅ (heap st)) !! l = heap st !! l
                   ∧ unreferenced (State ∅ (heap st)) l).
    { split; [done|]. intros k' s' Hk'. simpl in Hk'. by simplify_map_eq. }
    destruct k as [c|]; [|done].
    destruct (Py.truthy c); [|done].
    by apply reset_slot_unreferenced.
Qed.

Lemma run_unreferenced cs : ∀ st l,
  wf st → is_Some (heap st !! l) → unreferenced st l →
  heap (run cs st) !! l = heap st !! l.
Proof.
  induction cs as [|c cs IH]; intros st l Hwf Hl Hun; [done|].
  destruct (exec_unreferenced st c l Hwf Hl Hun) as [H1 H2].
  change (run (c :: cs) st) with (run cs (exec st c)).
  rewrite IH; auto using wf_exec. by rewrite H1.
Qed.

Lemma reset_slot_lookup k st :
  sessions_by_class (reset_slot k st) !! k
  = Some (Session false None (fresh (dom (heap st))) None)
  ∧ heap (reset_slot k st) !! fresh (dom (heap st)) = Some ∅.
Proof.
  unfold reset_slot, alloc. cbn. by rewrite !lookup_insert_eq.
Qed.

Lemma reset_slot_other k st k' :
  k' ≠ k →
  sessions_by_class (reset_slot k st) !! k' = sessions_by_class st !! k'.
Proof. intros Hne. unfold reset_slot, alloc. cbn. by rewrite lookup_insert_ne. Qed.

Lemma reset_slot_heap k st l :
  is_Some (heap st !! l) → heap (reset_slot k st) !! l = heap st !! l.
Proof.
  intros Hl. unfold reset_slot, alloc. cbn.
  rewrite lookup_insert_ne; [done|]. by apply fresh_not_allocated.
Qed.

(** C4 (as stated, for every key): the empty key has no session, yet
    [stop_session] answers it with the "class_id is required" error, not
    with the "inactive" outcome. *)
Lemma stop_session_empty_key :
  sessions_by_class init !! "" = None
  ∧ stop_session "" 9000000 init = (class_id_required, init)
  ∧ fst (stop_session "" 9000000 init) ≠ NotActive_stop.
Proof. split; [done|]. split; [done|]. discriminate. Qed.

(** C4 (amended): for every key that is not the empty string,
    [stop_session] answers "inactive" exactly when the key has no session or
    an inactive one, and then changes nothing; on an active session it
    answers with the summary of the live state (name, counters, start time,
    end time, duration), leaves the slot in the canonical inactive state
    with a new empty dict, leaves the other slots alone, and the dict of the
    summary is a copy that no slot refers to and that no later call changes.
    The empty key is answered with the "class_id is required" error. *)
Theorem stop_session_outcome st k now :
  reachable st →
  (k = "" → stop_session k now st = (class_id_required, st))
  ∧ (k ≠ "" →
     (fst (stop_session k now st) = NotActive_stop
        ↔ active (sessions_by_class st !! k) = false)
     ∧ (active (sessions_by_class st !! k) = false →
        snd (stop_session k now st) = st)
     ∧ ∀ sess, sessions_by_class st !! k = Some sess → is_active sess = true →
        let sm := fst (stop_summary k now sess st) in
        let st' := snd (stop_session k now st) in
        fst (stop_session k now st)
        = Response
            (JSummary
               {| js_session_active := false;
                  js_session_name := session_name sess;
                  js_class_id := k;
                  js_attendance_records := counters st k;
                  js_start_time := start_time sess;
                  js_end_time := now;
                  js_duration_seconds :=
                    duration_seconds (start_time sess) now |})
        ∧ (∃ l, sessions_by_class st' !! k = Some (Session false None l None)
                ∧ heap st' !! l = Some ∅)
        ∧ (∀ k', k' ≠ k →
             sessions_by_class st' !! k' = sessions_by_class st !! k'
             ∧ counters st' k' = counters st k')
        ∧ sm_attendance_records sm ≠ attendance_records sess
        ∧ unreferenced st' (sm_attendance_records sm)
        ∧ ∀ cs, heap (run cs st') !! sm_attendance_records sm
                = Some (counters st k)).
Proof.
  intros Hr. pose proof (reachable_wf _ Hr) as Hwf. split.
  { intros ->. reflexivity. }
  intros Hk. apply truthy_true in Hk.
  assert (Hinact : active (sessions_by_class st !! k) = false →
                   stop_session k now st = (NotActive_stop, st)).
  { unfold stop_session. rewrite Hk. simpl.
    destruct (sessions_by_class st !! k) as [sess|]; simpl; [|done].
    by intros ->. }
  split; [|split].
  - split; [|by intros H; rewrite (Hinact H)].
    destruct (active (sessions_by_class st !! k)) eqn:Ha; [|done].
    destruct (sessions_by_class st !! k) as [sess|] eqn:Hs; [|done].
    simpl in Ha. rewrite (stop_session_active _ _ _ _ Hk Hs Ha).
    discriminate.
  - by intros H; rewrite (Hinact H).
  - intros sess Hs Ha sm st'.
    destruct (wf_heap _ Hwf _ _ Hs) as [d Hd].
    assert (Hc : counters st k = d).
    { rewrite (counters_deref _ _ _ Hs). unfold deref. by rewrite Hd. }
    set (lc := fresh (dom (heap st))).
    set (st1 := State (sessions_by_class st)
                  (<[lc := deref (heap st) (attendance_records sess)]> (heap st))).
    assert (Hst' : st' = reset_slot k st1)
      by apply (stop_session_active_state _ _ _ _ Hk Hs Ha).
    assert (Hsm : sm_attendance_records sm = lc) by reflexivity.
    assert (Hlc : heap st1 !! lc = Some d).
    { subst st1. simpl. rewrite lookup_insert_eq. unfold deref. by rewrite Hd. }
    assert (Hwf1 : wf st1).
    { apply wf_store_unreferenced; [done|]. by apply fresh_unreferenced. }
    assert (Hun1 : unreferenced st1 lc) by exact (fresh_unreferenced st Hwf).
    destruct (reset_slot_unreferenced k st1 lc) as [Hlc' Hun']; [by eauto|done|].
    rewrite <- Hst' in Hlc', Hun'.
    assert (Hwf' : wf st').
    { rewrite Hst'. apply wf_reset_slot; [done|by apply truthy_true]. }
    split; [|split; [|split; [|split; [|split]]]].
    + rewrite (stop_session_active _ _ _ _ Hk Hs Ha).
      rewrite stop_summary_state. fold lc. fold st1. rewrite <- Hst'.
      unfold jsonify_summary, fst. cbn [stop_summary alloc].
      cbn [sm_session_active sm_session_name sm_class_id sm_attendance_records
           sm_start_time sm_end_time sm_duration_seconds].
      fold lc. unfold deref at 1. rewrite Hlc', Hlc. simpl. by rewrite Hc.
    + exists (fresh (dom (heap st1))). rewrite Hst'. apply reset_slot_lookup.
    + intros k' Hne. rewrite Hst'.
      assert (Hsl : sessions_by_class (reset_slot k st1) !! k'
                    = sessions_by_class st !! k')
        by (by rewrite reset_slot_other).
      split; [done|]. unfold counters. rewrite Hsl.
      destruct (sessions_by_class st !! k') as [s'|] eqn:Hs'; [|done].
      destruct (wf_heap _ Hwf _ _ Hs') as [d' Hd'].
      assert (H1 : heap st1 !! attendance_records s' = Some d').
      { subst st1. simpl. rewrite lookup_insert_ne; [done|].
        apply fresh_not_allocated. eauto. }
      unfold deref. rewrite reset_slot_heap by eauto. by rewrite H1, Hd'.
    + rewrite Hsm. intros E. by apply (fresh_unreferenced _ Hwf _ _ Hs).
    + by rewrite Hsm.
    + intros cs. rewrite Hsm.
      rewrite run_unreferenced; [| done | rewrite Hlc', Hlc; eauto | done].
      by rewrite Hlc', Hlc, Hc.
Qed.

Lemma reachable_st_started : reachable st_started.
Proof. by exists [CStart "CS101" None 5000000]. Qed.

Lemma reachable_st_recorded : reachable st_recorded.
Proof. apply reachable_run, reachable_st_started. Qed.

(** *** Starting twice *)

(** C1 (as stated, for the HTTP path): a second [POST /start_session] on a
    key with an active session is answered "started", not "already_active",
    and the counters and the start time of the first session are gone. *)
Lemma http_second_start_resets :
  active (sessions_by_class st_http !! "CS101") = true
  ∧ count (counters st_http "CS101") "alice" = 1
  ∧ fst (App.start_session (Some (Some "CS101")) true 7000000 st_http)
    = (App.ARun (JStarted "CS101" "CS101_session" 7000000), 200)
  ∧ fst (App.start_session (Some (Some "CS101")) true 7000000 st_http)
    ≠ App.of_run (Conflict "CS101")
  ∧ count (counters
      (snd (App.start_session (Some (Some "CS101")) true 7000000 st_http))
      "CS101") "alice" = 0
  ∧ start_time <$>
      (sessions_by_class
         (snd (App.start_session (Some (Some "CS101")) true 7000000 st_http))
       !! "CS101")
    ≠ start_time <$> (sessions_by_class st_http !! "CS101").
Proof.
  split; [reflexivity|]. split; [reflexivity|]. split; [reflexivity|].
  split; [intros E; vm_compute in E; discriminate E|].
  split; [reflexivity|].
  intros E. vm_compute in E. discriminate E.
Qed.

Lemma start_session_fresh st k name now :
  Py.truthy k = true → active (sessions_by_class st !! k) = false →
  start_session k name now st
  = (Response (JStarted k (Py.or_else name (k ++ "_session")) now),
     State
       (<[k := Session true (Some (Py.or_else name (k ++ "_session")))
                 (fresh (dom (heap st))) (Some now)]> (sessions_by_class st))
       (<[fresh (dom (heap st)) := ∅]> (heap st))).
Proof. intros Hk Ha. unfold start_session. by rewrite Hk, Ha. Qed.

(** C1 (amended): on a key with an active session, the registry operation
    [start_session] answers "already_active" (409) and leaves the whole
    state, hence the counters, name and start time of the session,
    unchanged.  The HTTP route clears the slot before it starts: with
    Firebase initialised it answers "started" and the slot holds a new
    session with the default name, the new start time and an empty counter
    dict; without Firebase it answers 500 and changes nothing. *)
Theorem second_start_outcome st k :
  reachable st → active (sessions_by_class st !! k) = true →
  (∀ name now, start_session k name now st = (Conflict k, st))
  ∧ (∀ now,
       let r := App.start_session (Some (Some k)) true now st in
       fst r = (App.ARun (JStarted k (k ++ "_session") now), 200)
       ∧ (∃ l, sessions_by_class (snd r) !! k
               = Some (Session true (Some (k ++ "_session")) l (Some now))
               ∧ heap (snd r) !! l = Some ∅)
       ∧ counters (snd r) k = ∅)
  ∧ (∀ now, App.start_session (Some (Some k)) false now st
            = ((App.AError "Firebase not initialized", 500), st)).
Proof.
  intros Hr Ha. pose proof (reachable_wf _ Hr) as Hwf.
  pose proof (active_key_truthy _ _ Hwf Ha) as Hk.
  split; [|split].
  - intros name now. unfold start_session. by rewrite Hk, Ha.
  - intros now r. subst r. unfold App.start_session. simpl. rewrite Hk. simpl.
    assert (Hina : active (sessions_by_class (reset_slot k st) !! k) = false).
    { by rewrite (proj1 (reset_slot_lookup k st)). }
    rewrite (start_session_fresh _ _ None now Hk Hina). simpl.
    split; [done|]. split.
    + eexists. rewrite lookup_insert_eq. split; [done|].
      by rewrite lookup_insert_eq.
    + unfold counters. simpl. rewrite lookup_insert_eq. simpl.
      unfold deref. by rewrite lookup_insert_eq.
  - intros now. unfold App.start_session. simpl. by rewrite Hk.
Qed.

Lemma second_start_outcome_witness :
  reachable st_recorded
  ∧ active (sessions_by_class st_recorded !! "CS101") = true
  ∧ start_session "CS101" (Some "retry") 7000000 st_recorded
    = (Conflict "CS101", st_recorded).
Proof.
  pose proof reachable_st_recorded as Hr.
  split; [exact Hr|]. split; [reflexivity|].
  apply (second_start_outcome st_recorded "CS101" Hr eq_refl).
Defined.

(** The scenario start, record alice and bob, record alice and "Unknown",
    stop: the summary counts alice twice and bob once. *)
Example scenario_summary :
  fst (stop_session "CS101" 9000000 st_recorded)
  = Response
      (JSummary
         {| js_session_active := false;
            js_session_name := Some "CS101_session";
            js_class_id := "CS101";
            js_attendance_records := {["alice" := 2; "bob" := 1]};
            js_start_time := Some 5000000;
            js_end_time := 9000000;
            js_duration_seconds := 4 |}).
Proof. vm_compute. reflexivity. Qed.

Lemma stop_session_outcome_witness :
  reachable st_recorded
  ∧ "CS101" ≠ ""
  ∧ fst (stop_session "CS101" 9000000 st_recorded)
    = Response
        (JSummary
           {| js_session_active := false;
              js_session_name := Some "CS101_session";
              js_class_id := "CS101";
              js_attendance_records := counters st_recorded "CS101";
              js_start_time := Some 5000000;
              js_end_time := 9000000;
              js_duration_seconds := 4 |}).
Proof.
  pose proof reachable_st_recorded as Hr.
  assert (Hk : "CS101" ≠ "") by discriminate.
  split; [exact Hr|]. split; [exact Hk|].
  destruct (stop_session_outcome st_recorded "CS101" 9000000 Hr) as [_ H].
  destruct (H Hk) as (_ & _ & H3).
  exact (proj1 (H3 (Session true (Some "CS101_session") 1%positive
                      (Some 5000000)) eq_refl eq_refl)).
Defined.

End registry.

(* ===================================================================== *)
(** ** The matcher (main.py) *)
(* ===================================================================== *)

Section matcher.
Import Main Samples.
Context {embedding : Type}.
Variable cosine_similarity : embedding → embedding → Q.

Local Open Scope Q_scope.

Lemma gt_true x y : gt x y = true ↔ y < x.
Proof.
  unfold gt. rewrite negb_true_iff. split.
  - intros H. apply Qnot_le_lt. intros Hle.
    apply Qle_bool_iff in Hle. congruence.
  - intros H. destruct (Qle_bool x y) eqn:E; [|done].
    apply Qle_bool_iff in E. by apply Qlt_not_le in H.
Qed.

Lemma gt_false x y : gt x y = false ↔ x <= y.
Proof.
  unfold gt. rewrite negb_false_iff. apply Qle_bool_iff.
Qed.

Lemma ge_true x y : ge x y = true ↔ y <= x.
Proof. apply Qle_bool_iff. Qed.

Lemma ge_false x y : ge x y = false ↔ x < y.
Proof.
  unfold ge. split.
  - intros H. apply Qnot_le_lt. intros Hle.
    apply Qle_bool_iff in Hle. congruence.
  - intros H. destruct (Qle_bool y x) eqn:E; [|done].
    apply Qle_bool_iff in E. by apply Qlt_not_le in H.
Qed.

Lemma threshold_positive : 0 < SIMILARITY_THRESHOLD.
Proof. reflexivity. Qed.

(** The scan is a fold of [keep_better] over the samples. *)
Lemma scan_samples (q : embedding) db : ∀ best,
  scan cosine_similarity q db best
  = foldl keep_better best (samples cosine_similarity q db).
Proof.
  induction db as [|[person vs] db IH]; intros best; [done|].
  unfold scan, samples in *. simpl. rewrite IH, foldl_app. f_equal.
  clear IH. revert best.
  induction vs as [|v vs IHv]; intros best; [done|].
  simpl. by rewrite IHv.
Qed.

(** Samples that do not beat the best so far leave it in place. *)
Lemma foldl_keep_better_none l : ∀ best,
  (∀ j p s, l !! j = Some (p, s) → s <= snd best) →
  foldl keep_better best l = best.
Proof.
  induction l as [|[p0 s0] l IH]; intros best Hle; [done|].
  simpl. unfold keep_better at 2. simpl.
  assert (s0 <= snd best) as ->%gt_false by apply (Hle 0%nat p0 s0 eq_refl).
  apply IH. intros j p s Hj. apply (Hle (S j) p s Hj).
Qed.

(** The first sample that reaches the maximum wins, provided it beats the
    initial score. *)
Lemma foldl_keep_better_first l : ∀ best i p s,
  l !! i = Some (p, s) →
  (∀ j p' s', l !! j = Some (p', s') → s' <= s) →
  (∀ j p' s', (j < i)%nat → l !! j = Some (p', s') → s' < s) →
  snd best < s →
  foldl keep_better best l = (p, s).
Proof.
  induction l as [|[p0 s0] l IH]; intros best i p s Hi Hmax Hfirst Hbest;
    [done|].
  destruct i as [|i]; simpl in Hi.
  - injection Hi as -> ->. simpl. unfold keep_better at 2. simpl.
    apply gt_true in Hbest. rewrite Hbest.
    apply foldl_keep_better_none. intros j p' s' Hj.
    apply (Hmax (S j) p' s' Hj).
  - simpl. apply (IH _ i); [done| | |].
    + intros j p' s' Hj. apply (Hmax (S j) p' s' Hj).
    + intros j p' s' Hlt Hj. apply (Hfirst (S j) p' s'); [lia|done].
    + unfold keep_better. simpl. destruct (gt s0 (snd best)); [|done].
      simpl. apply (Hfirst 0%nat p0 s0); [lia|done].
Qed.

(** The result of the fold bounds the initial score and every sample, and
    is the initial pair or one of the samples. *)
Lemma foldl_keep_better_bound l : ∀ best,
  snd best <= snd (foldl keep_better best l)
  ∧ (∀ j p s, l !! j = Some (p, s) → s <= snd (foldl keep_better best l))
  ∧ (foldl keep_better best l = best
     ∨ ∃ j, l !! j = Some (foldl keep_better best l)).
Proof.
  induction l as [|[p0 s0] l IH]; intros best.
  { split; [apply Qle_refl|]. split; [done|by left]. }
  simpl. destruct (IH (keep_better best (p0, s0))) as (H1 & H2 & H3).
  assert (Hstep : snd best <= snd (keep_better best (p0, s0))
                  ∧ s0 <= snd (keep_better best (p0, s0))).
  { unfold keep_better. simpl. destruct (gt s0 (snd best)) eqn:E; simpl.
    - apply gt_true in E. split; [by apply Qlt_le_weak|apply Qle_refl].
    - apply gt_false in E. split; [apply Qle_refl|done]. }
  destruct Hstep as [Hb Hs]. split; [|split].
  - by eapply Qle_trans.
  - intros [|j] p s Hj; simpl in Hj.
    + injection Hj as -> ->. by eapply Qle_trans.
    + by apply (H2 j p).
  - destruct H3 as [H3|[j Hj]]; [|right; by exists (S j)].
    rewrite H3. unfold keep_better. simpl.
    destruct (gt s0 (snd best)); [right; by exists 0%nat|by left].
Qed.

(** C3: when the best cosine similarity over all reference vectors of all
    identities is at least the threshold, equality included, [find_match]
    returns the identity of the first sample, in the iteration order of the
    store, that reaches that best similarity, together with that score. *)
Theorem find_match_threshold_inclusive (q : embedding) db i p s :
  samples cosine_similarity q db !! i = Some (p, s) →
  (∀ j p' s', samples cosine_similarity q db !! j = Some (p', s') → s' <= s) →
  (∀ j p' s', (j < i)%nat →
     samples cosine_similarity q db !! j = Some (p', s') → s' < s) →
  SIMILARITY_THRESHOLD <= s →
  find_match cosine_similarity q db = (p, s).
Proof.
  intros Hi Hmax Hfirst Hthr. unfold find_match.
  rewrite scan_samples.
  rewrite (foldl_keep_better_first _ _ i p s Hi Hmax Hfirst).
  - simpl. by apply ge_true in Hthr as ->.
  - simpl. eapply Qlt_le_trans; [apply threshold_positive|done].
Qed.

(** C5 (amended): when every similarity is below the threshold,
    [find_match] returns the sentinel "Unknown" with a score that is an
    upper bound of all similarities and is never negative: it is the best
    similarity when some similarity is positive, and 0 when none is (in
    particular for an empty store and when all similarities are
    negative). *)
Theorem find_match_below_threshold (q : embedding) db :
  (∀ j p s, samples cosine_similarity q db !! j = Some (p, s) →
            s < SIMILARITY_THRESHOLD) →
  fst (find_match cosine_similarity q db) = "Unknown"
  ∧ 0 <= snd (find_match cosine_similarity q db)
  ∧ (∀ j p s, samples cosine_similarity q db !! j = Some (p, s) →
              s <= snd (find_match cosine_similarity q db))
  ∧ ((∃ j p s, samples cosine_similarity q db !! j = Some (p, s) ∧ 0 < s) →
     ∃ j p, samples cosine_similarity q db !! j
            = Some (p, snd (find_match cosine_similarity q db)))
  ∧ ((∀ j p s, samples cosine_similarity q db !! j = Some (p, s) → s <= 0) →
     find_match cosine_similarity q db = ("Unknown", 0)).
Proof.
  intros Hlow. unfold find_match. rewrite scan_samples.
  set (l := samples cosine_similarity q db) in *.
  destruct (foldl_keep_better_bound l ("Unknown", 0)) as (H0 & Hub & Hin).
  set (best := foldl keep_better ("Unknown", 0) l) in *. simpl in H0.
  assert (Hbelow : ge (snd best) SIMILARITY_THRESHOLD = false).
  { apply ge_false. destruct Hin as [->|[j Hj]].
    - apply threshold_positive.
    - destruct best as [p s]. apply (Hlow j p s Hj). }
  rewrite Hbelow. simpl. split; [done|]. split; [done|]. split; [done|].
  split.
  - intros (j & p & s & Hj & Hpos). destruct Hin as [E|[j' Hj']].
    + exfalso. apply (Qlt_not_le _ _ Hpos). rewrite E in Hub.
      apply (Hub j p s Hj).
    + exists j', (fst best). by destruct best.
  - intros Hneg. subst best. by rewrite foldl_keep_better_none.
Qed.

End matcher.

(** Every non-empty list of samples has a first sample that reaches the
    maximum: the winner of the scan is defined for every store with at
    least one reference vector. *)
Lemma first_best_exists (l : list (string * Q)) :
  l ≠ [] →
  ∃ i p s, l !! i = Some (p, s)
    ∧ (∀ j p' s', l !! j = Some (p', s') → (s' <= s)%Q)
    ∧ (∀ j p' s', (j < i)%nat → l !! j = Some (p', s') → (s' < s)%Q).
Proof.
  induction l as [|[p0 s0] l IH]; [done|]. intros _.
  destruct l as [|x l'].
  { exists 0%nat, p0, s0. split; [done|]. split.
    - intros [|j] p' s' Hj; simpl in Hj; [|done].
      injection Hj as -> ->. apply Qle_refl.
    - intros j p' s' Hlt. lia. }
  destruct IH as (i & p & s & Hi & Hmax & Hfirst); [done|].
  destruct (Qlt_le_dec s0 s) as [Hlt|Hge].
  - exists (S i), p, s. split; [done|]. split.
    + intros [|j] p' s' Hj; simpl in Hj.
      * injection Hj as -> ->. by apply Qlt_le_weak.
      * by apply (Hmax j p').
    + intros [|j] p' s' Hji Hj; simpl in Hj.
      * by injection Hj as -> ->.
      * apply (Hfirst j p'); [lia|done].
  - exists 0%nat, p0, s0. split; [done|]. split.
    + intros [|j] p' s' Hj; simpl in Hj.
      * injection Hj as -> ->. apply Qle_refl.
      * eapply Qle_trans; [by apply (Hmax j p')|done].
    + intros j p' s' Hlt. lia.
Qed.

Section matcher_examples.
Import Main Samples.
Local Open Scope Q_scope.

Lemma find_match_threshold_inclusive_witness :
  samples similarity_to 7%nat db_tie !! 1%nat
    = Some ("alice", SIMILARITY_THRESHOLD)
  ∧ SIMILARITY_THRESHOLD <= SIMILARITY_THRESHOLD
  ∧ find_match similarity_to 7%nat db_tie = ("alice", SIMILARITY_THRESHOLD).
Proof.
  split; [reflexivity|]. split; [apply Qle_refl|].
  apply (find_match_threshold_inclusive similarity_to 7%nat db_tie 1%nat).
  - reflexivity.
  - intros [|[|[|[|j]]]] p' s' Hj; vm_compute in Hj; try discriminate Hj;
      injection Hj as <- <-; vm_compute; discriminate.
  - intros [|[|j]] p' s' Hlt Hj; [|lia..].
    vm_compute in Hj. injection Hj as <- <-. reflexivity.
  - apply Qle_refl.
Defined.

(** C5 (as stated): with a single, negative similarity the reported score
    is 0, not the best observed similarity -1/2. *)
Lemma find_match_negative_reports_zero :
  samples similarity_to 7%nat db_negative = [("alice", -1 # 2)]
  ∧ find_match similarity_to 7%nat db_negative = ("Unknown", 0)
  ∧ ¬ snd (find_match similarity_to 7%nat db_negative) == -1 # 2.
Proof. split; [reflexivity|]. split; [reflexivity|]. discriminate. Qed.

Lemma find_match_below_threshold_witness :
  (∀ j p s, samples similarity_to 7%nat db_low !! j = Some (p, s) →
            s < SIMILARITY_THRESHOLD)
  ∧ fst (find_match similarity_to 7%nat db_low) = "Unknown"
  ∧ 0 <= snd (find_match similarity_to 7%nat db_low).
Proof.
  assert (H : ∀ j p s, samples similarity_to 7%nat db_low !! j = Some (p, s) →
                       s < SIMILARITY_THRESHOLD).
  { intros [|[|[|j]]] p s Hj; vm_compute in Hj; try discriminate Hj;
      injection Hj as <- <-; reflexivity. }
  split; [exact H|].
  destruct (find_match_below_threshold similarity_to 7%nat db_low H)
    as (H1 & H2 & _).
  by split.
Defined.

Example find_match_low : find_match similarity_to 7%nat db_low = ("Unknown", 1 # 2).
Proof. reflexivity. Qed.

End matcher_examples.

(* ===================================================================== *)
(** ** Attendance percentages (app.py and main.py) *)
(* ===================================================================== *)

Section attendance.
Import Main.
Local Open Scope Q_scope.

(** The route of app.py guards the division: a duration of 0 (or less)
    gives the percentage 0 and the status "absent". *)
Lemma attendance_percentage_zero presence_time session_duration :
  (session_duration <= 0)%Z →
  App.attendance_percentage presence_time session_duration = 0
  ∧ App.status (App.attendance_percentage presence_time session_duration)
    = "absent".
Proof.
  intros Hd. unfold App.attendance_percentage.
  destruct (session_duration >? 0)%Z eqn:E; [lia|]. done.
Qed.

(** For a positive duration the route reports "present" exactly when
    presence count over duration is at least 0.25. *)
Lemma status_present_iff presence_time session_duration :
  (0 < session_duration)%Z →
  App.status (App.attendance_percentage presence_time session_duration)
    = "present"
  ↔ ATTENDANCE_THRESHOLD
    <= inject_Z presence_time / inject_Z session_duration.
Proof.
  intros Hd. unfold App.attendance_percentage, App.status.
  destruct (session_duration >? 0)%Z eqn:E; [|lia].
  set (x := inject_Z presence_time / inject_Z session_duration).
  unfold ATTENDANCE_THRESHOLD.
  destruct (ge (x * 100) 25) eqn:G.
  - apply ge_true in G. split; [intros _; lra|done].
  - apply ge_false in G. split; [done|]. intros H. lra.
Qed.

Lemma status_absent_iff presence_time session_duration :
  (0 < session_duration)%Z →
  App.status (App.attendance_percentage presence_time session_duration)
    = "absent"
  ↔ inject_Z presence_time / inject_Z session_duration
    < ATTENDANCE_THRESHOLD.
Proof.
  intros Hd. unfold App.attendance_percentage, App.status.
  destruct (session_duration >? 0)%Z eqn:E; [|lia].
  set (x := inject_Z presence_time / inject_Z session_duration).
  unfold ATTENDANCE_THRESHOLD.
  destruct (ge (x * 100) 25) eqn:G.
  - apply ge_true in G. split; [done|]. intros H. lra.
  - apply ge_false in G. split; [intros _; lra|done].
Qed.

(** Every record the route hands to Firebase for a summary of duration 0
    carries the percentage 0 and the status "absent". *)
Lemma record_of_zero_duration class_id entry :
  App.sv_attendance_percentage (App.record_of class_id 0 entry) = 0
  ∧ App.sv_status (App.record_of class_id 0 entry) = "absent".
Proof. done. Qed.

(** [save_attendance] has the same classification for a session length
    that is not 0. *)
Lemma percentage_defined presence_time session_length :
  session_length ≠ 0%Z →
  percentage presence_time session_length
  = inr (presence_time / inject_Z session_length).
Proof.
  intros Hd. unfold percentage.
  destruct (session_length =? 0)%Z eqn:E; [lia|done].
Qed.

(** C6: [save_attendance] of main.py divides without the guard that the
    route of app.py has: with a session length of 0 and at least one
    attendance entry it raises ZeroDivisionError instead of reporting the
    percentage 0 and the status absent, and so does [mark_attendance]. *)
Theorem save_attendance_zero_length_raises person presence_time rest
    firebase_available :
  save_attendance ((person, presence_time) :: rest) 0 firebase_available
    = inl ZeroDivisionError
  ∧ mark_attendance ((person, presence_time) :: rest) 0 firebase_available
    = inl ZeroDivisionError.
Proof. done. Qed.

Example save_attendance_ahmed :
  save_attendance [("Ahmed", 3)] 0 true = inl ZeroDivisionError
  ∧ App.record_of "CS101" 0 ("Ahmed", 3%Z)
    = App.SavedRecord "CS101" "Ahmed" "absent" 3 0 0.
Proof. done. Qed.

End attendance.

(* ===================================================================== *)
(** ** The embedding-store update (EncodeGenerator.py) *)
(* ===================================================================== *)

Section dicts.
Context {V : Type}.
Implicit Types (d : Py.dict V) (k : string) (v : V).

Lemma dict_get_set_eq k v d : Py.dict_get k (Py.dict_set k v d) = Some v.
Proof.
  induction d as [|[k' v'] d IH]; simpl.
  - by rewrite decide_True.
  - destruct (decide (k' = k)) as [->|Hne]; simpl.
    + by rewrite decide_True.
    + by rewrite decide_False.
Qed.

Lemma dict_get_set_ne k k' v d :
  k ≠ k' → Py.dict_get k (Py.dict_set k' v d) = Py.dict_get k d.
Proof.
  intros Hne. induction d as [|[k0 v0] d IH]; simpl.
  - by rewrite decide_False.
  - destruct (decide (k0 = k')) as [->|Hne0]; simpl.
    + by rewrite !decide_False.
    + by rewrite IH.
Qed.

Lemma dict_get_del_ne k k' d :
  k ≠ k' → Py.dict_get k (Py.dict_del k' d) = Py.dict_get k d.
Proof.
  intros Hne. induction d as [|[k0 v0] d IH]; simpl; [done|].
  destruct (decide (k0 = k')) as [->|Hne0]; simpl.
  - by rewrite decide_False.
  - by rewrite IH.
Qed.

Lemma dict_get_foldl_del k names : ∀ d,
  k ∉ names →
  Py.dict_get k (foldl (λ d name, Py.dict_del name d) d names)
  = Py.dict_get k d.
Proof.
  induction names as [|n names IH]; intros d Hk; [done|].
  simpl. rewrite IH by set_solver.
  apply dict_get_del_ne. set_solver.
Qed.

End dicts.

Section enrollment.
Import EncodeGenerator Samples.
Context {embedding image : Type}.
Variable represent : string → option embedding.
Variable imread : string → option image.
Variable represent_augmented : string → image → nat → option embedding.

Abbreviation process := (process represent imread represent_augmented).
Abbreviation person_embeddings :=
  (person_embeddings represent imread represent_augmented).
Abbreviation manage_embeddings :=
  (manage_embeddings represent imread represent_augmented).

(** A student that is in the dict is skipped by every turn of the loop. *)
Lemma process_keeps db_path N_AUG d e k old :
  Py.dict_get k d = Some old →
  Py.dict_get k (process db_path N_AUG d e) = Some old.
Proof.
  intros Hk. unfold EncodeGenerator.process.
  destruct (e_isdir e); cbn [negb]; [|done].
  destruct (Py.dict_mem (e_name e) d) eqn:Hm; [done|].
  rewrite dict_get_set_ne; [done|].
  intros ->. unfold Py.dict_mem in Hm. by rewrite Hk in Hm.
Qed.

Lemma foldl_process_keeps db_path N_AUG listing : ∀ d k old,
  Py.dict_get k d = Some old →
  Py.dict_get k (foldl (process db_path N_AUG) d listing) = Some old.
Proof.
  induction listing as [|e listing IH]; intros d k old Hk; [done|].
  simpl. by apply IH, process_keeps.
Qed.

(** A student folder that is not in the dict is encoded at its turn. *)
Lemma foldl_process_adds db_path N_AUG listing : ∀ d e,
  NoDup (map e_name listing) → e ∈ listing → e_isdir e = true →
  Py.dict_get (e_name e) d = None →
  Py.dict_get (e_name e) (foldl (process db_path N_AUG) d listing)
  = Some (person_embeddings (Py.path_join db_path (e_name e)) (e_files e) N_AUG).
Proof.
  induction listing as [|e0 listing IH]; intros d e Hnd Hin Hdir Hk.
  { by apply elem_of_nil in Hin. }
  simpl in *. apply NoDup_cons in Hnd as [Hfresh Hnd].
  apply elem_of_cons in Hin as [->|Hin].
  - apply foldl_process_keeps. unfold EncodeGenerator.process.
    rewrite Hdir. cbn [negb]. unfold Py.dict_mem. rewrite Hk.
    apply dict_get_set_eq.
  - apply IH; [done..|].
    assert (Hne : e_name e ≠ e_name e0).
    { intros E. apply Hfresh. rewrite <- E. apply list_elem_of_fmap.
      by exists e. }
    unfold EncodeGenerator.process. destruct (e_isdir e0); cbn [negb]; [|done].
    destruct (Py.dict_mem (e_name e0) d); [done|].
    by rewrite dict_get_set_ne.
Qed.

(** C9 (amended): for every identity that is a folder of the catalog,
    [manage_embeddings] leaves the store mapping it to the sequence that was
    stored when the identity was already in the store (an existing identity
    is skipped, not replaced), and to the freshly derived sequence when it
    was not. *)
Theorem manage_embeddings_keeps_or_adds db_path N_AUG stored listing e :
  NoDup (map e_name listing) → e ∈ listing → e_isdir e = true →
  Py.dict_get (e_name e) (manage_embeddings db_path N_AUG stored listing)
  = Some (match Py.dict_get (e_name e) (default [] stored) with
          | Some old => old
          | None =>
              person_embeddings (Py.path_join db_path (e_name e)) (e_files e)
                N_AUG
          end).
Proof.
  intros Hnd Hin Hdir. unfold EncodeGenerator.manage_embeddings.
  rewrite dict_get_foldl_del.
  - destruct (Py.dict_get (e_name e) (default [] stored)) as [old|] eqn:Hk.
    + by apply foldl_process_keeps.
    + by apply foldl_process_adds.
  - intros Hrm. apply list_elem_of_filter in Hrm as [Hout _].
    apply Hout. apply list_elem_of_fmap. by exists e.
Qed.

End enrollment.

Section enrollment_examples.
Import EncodeGenerator Samples.

(** C9 (as stated): "alice" is in the catalog and in the store; after the
    update the store still maps her to the stored sequence, not to the
    sequence derived from her folder. *)
Lemma manage_embeddings_skips_existing :
  Py.dict_get "alice" stored = Some [1%nat]
  ∧ person_embeddings sample_represent sample_imread
      sample_represent_augmented (Py.path_join "db" "alice")
      ["a.jpg"; "notes.txt"] 1
    = [14%nat; 100%nat]
  ∧ Py.dict_get "alice"
      (manage_embeddings sample_represent sample_imread
         sample_represent_augmented "db" 1 (Some stored) listing)
    = Some [1%nat]
  ∧ Py.dict_get "alice"
      (manage_embeddings sample_represent sample_imread
         sample_represent_augmented "db" 1 (Some stored) listing)
    ≠ Some (person_embeddings sample_represent sample_imread
              sample_represent_augmented (Py.path_join "db" "alice")
              ["a.jpg"; "notes.txt"] 1).
Proof.
  split; [reflexivity|]. split; [reflexivity|]. split; [reflexivity|].
  intros E. vm_compute in E. discriminate E.
Qed.

Lemma manage_embeddings_keeps_or_adds_witness :
  NoDup (map e_name listing)
  ∧ Entry "bob" true ["b.PNG"] ∈ listing
  ∧ Py.dict_get "bob"
      (manage_embeddings sample_represent sample_imread
         sample_represent_augmented "db" 1 (Some stored) listing)
    = Some [12%nat; 100%nat].
Proof.
  assert (Hnd : NoDup (map e_name listing)).
  { by apply (bool_decide_unpack _). }
  assert (Hin : Entry "bob" true ["b.PNG"] ∈ listing).
  { apply list_elem_of_In. simpl. tauto. }
  split; [exact Hnd|]. split; [exact Hin|].
  apply (manage_embeddings_keeps_or_adds sample_represent sample_imread
           sample_represent_augmented "db" 1 (Some stored) listing
           (Entry "bob" true ["b.PNG"]) Hnd Hin eq_refl).
Defined.

End enrollment_examples.

(* ===================================================================== *)
(** ** The student folders (Student_Manage.py) *)
(* ===================================================================== *)

Section students.
Import Student_Manage Samples.
Variable b64decode : string → option string.

Lemma path_exists_true p (f : fs) : path_exists p f = true ↔ is_Some (f !! p).
Proof.
  unfold path_exists. by destruct (f !! p); split; intros H.
Qed.

(** What [rmtree] leaves: neither the folder nor anything below it, and
    every other path as it was. *)
Lemma rmtree_lookup p (f f' : fs) q :
  rmtree p f = inr f' →
  f' !! q = if decide (q = p ∨ Py.startswith q (p ++ "/") = true) then None
            else f !! q.
Proof.
  unfold rmtree. destruct (f !! p) as [[|c]|]; try done.
  intros [= <-]. case_decide as Hq.
  - apply map_lookup_filter_None. right. intros x _ Hp. by apply Hp.
  - destruct (f !! q) as [x|] eqn:E.
    + by apply map_lookup_filter_Some.
    + apply map_lookup_filter_None. by left.
Qed.

(** Both functions see a name only through its normal form. *)
Lemma same_normal_form name1 name2 images (f : fs) :
  normalize name1 = normalize name2 →
  add_student_from_api b64decode name1 images f
  = add_student_from_api b64decode name2 images f
  ∧ remove_student name1 f = remove_student name2 f.
Proof.
  intros E. unfold add_student_from_api, remove_student. by rewrite E.
Qed.

(** C10: when the students directory exists and the normalised name
    already has a folder in it, [add_student_from_api] answers with the
    "already exists" error (400) and leaves the file system as it was, so
    no file is created or overwritten; [remove_student], given the same
    input name, addresses the same folder: it does not answer "not found",
    and when the path is a directory it removes exactly that folder. *)
Theorem add_existing_student_rejected student_name image_data_list (f : fs) :
  path_exists STUDENTS_DIR f = true →
  path_exists (student_folder_of student_name) f = true →
  add_student_from_api b64decode student_name image_data_list f
  = (Returned
       (JError ("Student '" ++ normalize student_name
                ++ "' already exists! Delete it first to recapture."))
       400, f)
  ∧ fst (remove_student student_name f)
    ≠ Returned
        (JError ("Student '" ++ normalize student_name ++ "' not found.")) 404
  ∧ (f !! student_folder_of student_name = Some Dir →
     ∃ f', rmtree (student_folder_of student_name) f = inr f'
       ∧ remove_student student_name f
         = (Returned
              (JRemoved ("Student '" ++ normalize student_name
                         ++ "' removed successfully!")) 200, f')
       ∧ path_exists (student_folder_of student_name) f' = false).
Proof.
  intros Hdir Hfolder. unfold student_folder_of in *. split; [|split].
  - unfold add_student_from_api. rewrite Hdir. simpl. by rewrite Hfolder.
  - unfold remove_student. rewrite Hfolder.
    by destruct (rmtree _ f).
  - intros Hd. unfold remove_student. rewrite Hfolder.
    destruct (rmtree _ f) as [e|f'] eqn:Hrm.
    { unfold rmtree in Hrm. by rewrite Hd in Hrm. }
    exists f'. split; [done|]. split; [done|].
    unfold path_exists. rewrite (rmtree_lookup _ _ _ _ Hrm).
    rewrite decide_True; [done|by left].
Qed.

End students.

Section students_examples.
Import Student_Manage Samples.

Lemma add_existing_student_rejected_witness :
  path_exists STUDENTS_DIR fs_ahmed = true
  ∧ path_exists (student_folder_of " Ahmed Ali ") fs_ahmed = true
  ∧ add_student_from_api sample_b64decode " Ahmed Ali "
      ["data:image/jpeg;base64,AAAA"] fs_ahmed
    = (Returned
         (JError
            "Student 'Ahmed_Ali' already exists! Delete it first to recapture.")
         400, fs_ahmed).
Proof.
  split; [reflexivity|]. split; [reflexivity|].
  apply (add_existing_student_rejected sample_b64decode " Ahmed Ali "
           ["data:image/jpeg;base64,AAAA"] fs_ahmed eq_refl eq_refl).
Defined.

(** A new student is added with one numbered file per image, and the same
    input name then removes the folder again. *)
Example add_then_remove :
  let added := add_student_from_api sample_b64decode " Omar "
                 ["data:image/jpeg;base64,AAAA"; "BBBB"] fs_ahmed in
  fst added = Returned (JAdded "Omar" 2 "Smart Attendance System/Images/Omar") 200
  ∧ snd added !! "Smart Attendance System/Images/Omar/Omar_2.jpg"
    = Some (File "BBBB")
  ∧ snd (remove_student " Omar " (snd added)) = fs_ahmed.
Proof.
  split; [reflexivity|]. split; [reflexivity|].
  apply map_eq. intros p. vm_compute. reflexivity.
Qed.

End students_examples.

(* ===================================================================== *)
(** ** Concurrent record calls (Run.py under threads) *)
(* ===================================================================== *)

Section sums.
Import Run Threads.

Lemma sumZ_insert {A} (f : A → Z) (l : list A) i x y :
  l !! i = Some x → sumZ f (<[i := y]> l) = sumZ f l - f x + f y.
Proof.
  revert i. induction l as [|a l IH]; intros [|i] Hi; simpl in *; try done.
  - injection Hi as ->. lia.
  - rewrite (IH i Hi). lia.
Qed.

Lemma sumZ_map {A B} (f : B → Z) (g : A → B) (l : list A) :
  sumZ f (map g l) = sumZ (λ x, f (g x)) l.
Proof. induction l as [|a l IH]; simpl; [done|]. by rewrite IH. Qed.

Lemma sumZ_zero {A} (f : A → Z) (l : list A) :
  (∀ i x, l !! i = Some x → f x = 0) → sumZ f l = 0.
Proof.
  induction l as [|a l IH]; intros H; simpl; [done|].
  rewrite (H 0%nat a eq_refl), IH; [done|].
  intros i x Hi. apply (H (S i) x Hi).
Qed.

Lemma sumZ_ext {A} (f g : A → Z) (l : list A) :
  (∀ x, f x = g x) → sumZ f l = sumZ g l.
Proof. intros H. induction l as [|a l IH]; simpl; [done|]. by rewrite H, IH. Qed.

Lemma total_empty : total ∅ = 0.
Proof. apply map_fold_empty. Qed.

Lemma total_insert_new (m : gmap string Z) k v :
  m !! k = None → total (<[k := v]> m) = v + total m.
Proof.
  intros Hk. unfold total. rewrite map_fold_insert_L; [done| |done].
  intros. lia.
Qed.

(** Storing a counter changes the sum by the difference with the counter
    it replaces. *)
Lemma total_insert (m : gmap string Z) k v :
  total (<[k := v]> m) = total m - count m k + v.
Proof.
  unfold count. destruct (m !! k) as [old|] eqn:Hk; simpl.
  - rewrite <- (insert_delete_eq m k v).
    rewrite total_insert_new by apply lookup_delete_eq.
    rewrite <- (insert_id m k old Hk) at 2.
    rewrite <- (insert_delete_eq m k old).
    rewrite total_insert_new by apply lookup_delete_eq. lia.
  - rewrite total_insert_new by done. lia.
Qed.

Lemma occurrences_counted_unknown names :
  occurrences "Unknown" (counted names) = 0.
Proof.
  induction names as [|n names IH]; [done|].
  unfold counted in *. rewrite filter_cons. case_decide; [|done].
  simpl. by rewrite decide_False.
Qed.

Lemma counted_cons_unknown rest : counted ("Unknown" :: rest) = counted rest.
Proof. unfold counted. by rewrite filter_cons_False by (intros H; by apply H). Qed.

Lemma counted_cons name rest :
  name ≠ "Unknown" → counted (name :: rest) = name :: counted rest.
Proof. intros H. unfold counted. by rewrite filter_cons_True. Qed.

End sums.

Section termination.
Import Run Threads.

(** Every step uses up some of the work that is left. *)
Lemma work_update c i t p sh lk :
  threads c !! i = Some t →
  (steps_left (set_pc t p) < steps_left t)%nat →
  work (Config sh lk (<[i := set_pc t p]> (threads c))) < work c.
Proof.
  intros Hi Hlt. unfold work. cbn [threads].
  rewrite (sumZ_insert _ _ _ _ _ Hi). lia.
Qed.

Ltac by_length :=
  cbv [steps_left set_pc at_pc recognized_names]; simpl length; lia.

Lemma step_work i c c' : step i c = Some c' → work c' < work c.
Proof.
  unfold step, step_with. intros Hstep.
  destruct (threads c !! i) as [t|] eqn:Hi; [|done].
  destruct t as [names cid p].
  destruct p as [| |l' rest|l' name v rest|r]; simpl in Hstep.
  - destruct (Py.truthy cid); simpl in Hstep.
    + destruct (lock c); [done|]. injection Hstep as <-.
      apply work_update; [done|by_length].
    + injection Hstep as <-. apply work_update; [done|by_length].
  - destruct (sessions_by_class (shared c) !! cid) as [s|];
      [destruct (is_active s)|]; injection Hstep as <-;
      (apply work_update; [done|by_length]).
  - destruct rest as [|name rest]; [|case_decide]; injection Hstep as <-;
      (apply work_update; [done|by_length]).
  - injection Hstep as <-. apply work_update; [done|by_length].
  - done.
Qed.

Lemma work_nonneg c : 0 <= work c.
Proof.
  unfold work. induction (threads c) as [|t ts IH]; simpl; lia.
Qed.

Lemma steps_trans c1 c2 c3 : steps c1 c2 → steps c2 c3 → steps c1 c3.
Proof. intros H. induction H; eauto using steps. Qed.

Lemma run_schedule_steps schedule : ∀ c c',
  run_schedule true schedule c = Some c' → steps c c'.
Proof.
  induction schedule as [|i schedule IH]; intros c c' H; simpl in H.
  - injection H as <-. constructor.
  - destruct (step_with true i c) as [c1|] eqn:Hs; [|done].
    econstructor; [exact Hs|]. by apply IH.
Qed.

End termination.

Section interleavings.
Import Run Threads.
Variables (st0 : state) (k : string) (sess : session)
          (calls : list (list string)).
Hypothesis Hsess : sessions_by_class st0 !! k = Some sess.
Hypothesis Hact : is_active sess = true.
Hypothesis Hk : Py.truthy k = true.

Abbreviation l := (attendance_records sess).
Abbreviation inv := (Threads.inv st0 k l calls).

Lemma lookup_update (ts : list thread) i t t' j u :
  ts !! i = Some t → <[i := t']> ts !! j = Some u →
  (j = i ∧ u = t') ∨ (j ≠ i ∧ ts !! j = Some u).
Proof.
  intros Hi Hj. destruct (decide (j = i)) as [->|Hne].
  - left. split; [done|].
    rewrite list_lookup_insert_eq in Hj by (by eapply lookup_lt_Some).
    by injection Hj.
  - right. split; [done|]. by rewrite list_lookup_insert_ne in Hj.
Qed.

Lemma inv_spawn : inv (spawn st0 k calls).
Proof.
  split; simpl; try done.
  - intros n. by rewrite sumZ_map.
  - by rewrite sumZ_map.
  - intros i t Hi. rewrite list_lookup_fmap in Hi.
    destruct (calls !! i); simpl in Hi; [|done]. by injection Hi as <-.
  - intros i t Hi. rewrite list_lookup_fmap in Hi.
    destruct (calls !! i); simpl in Hi; [|done]. by injection Hi as <-.
  - intros i t Hi. rewrite list_lookup_fmap in Hi.
    destruct (calls !! i); simpl in Hi; [|done]. by injection Hi as <-.
Qed.

(** The invariant after thread [i] has moved to [p], leaving the shared
    state [sh'], when the thread owned the lock or nobody did. *)
Lemma inv_update c i t p sh' :
  inv c → threads c !! i = Some t →
  in_block t = true ∨ lock c = None →
  sessions_by_class sh' = sessions_by_class (shared c) →
  (∀ l', l' ≠ l → heap sh' !! l' = heap (shared c) !! l') →
  (∀ n, count (deref (heap sh') l) n + occurrences n (pending (set_pc t p))
        = count (deref (heap (shared c)) l) n + occurrences n (pending t)) →
  total (deref (heap sh') l) + Z.of_nat (length (pending (set_pc t p)))
  = total (deref (heap (shared c)) l) + Z.of_nat (length (pending t)) →
  match p with
  | Loop l' _ => l' = l
  | Store l' name v _ =>
      l' = l ∧ name ≠ "Unknown" ∧ v = count (deref (heap sh') l) name
  | _ => True
  end →
  inv (Config sh' (if in_block (set_pc t p) then Some i else None)
         (<[i := set_pc t p]> (threads c))).
Proof.
  intros Hinv Hi Hown Hs Hh Hc Ht Hp.
  assert (Hothers : ∀ j u, j ≠ i → threads c !! j = Some u →
                           in_block u = false).
  { intros j u Hne Hj. destruct (in_block u) eqn:Hu; [|done].
    pose proof (inv_lock _ _ _ _ _ Hinv j u Hj Hu) as Hl.
    destruct Hown as [Hb|Hn]; [|congruence].
    pose proof (inv_lock _ _ _ _ _ Hinv i t Hi Hb). congruence. }
  split; simpl.
  - rewrite Hs. apply Hinv.
  - intros l' Hl'. rewrite Hh by done. by apply Hinv.
  - intros n. rewrite (sumZ_insert _ _ _ _ _ Hi).
    pose proof (inv_count _ _ _ _ _ Hinv n). specialize (Hc n). lia.
  - rewrite (sumZ_insert _ _ _ _ _ Hi).
    pose proof (inv_total _ _ _ _ _ Hinv). lia.
  - intros j u Hj Hu.
    destruct (lookup_update _ _ _ _ _ _ Hi Hj) as [[-> ->]|[Hne Hj']].
    + by rewrite Hu.
    + by rewrite (Hothers j u Hne Hj') in Hu.
  - intros j Hj. destruct (in_block (set_pc t p)) eqn:Hb; [|done].
    injection Hj as <-. exists (set_pc t p). split; [|done].
    apply list_lookup_insert_eq. by eapply lookup_lt_Some.
  - intros j u Hj.
    destruct (lookup_update _ _ _ _ _ _ Hi Hj) as [[-> ->]|[Hne Hj']].
    + simpl. by apply (inv_class _ _ _ _ _ Hinv i t).
    + by apply (inv_class _ _ _ _ _ Hinv j u).
  - intros j u Hj.
    destruct (lookup_update _ _ _ _ _ _ Hi Hj) as [[-> ->]|[Hne Hj']].
    + done.
    + pose proof (Hothers j u Hne Hj') as Hu.
      by destruct u as [? ? []].
Qed.

Lemma deref_store l' name v sh :
  deref (heap (store l' name v sh)) l' = <[name := v]> (deref (heap sh) l').
Proof. unfold store, deref. simpl. by rewrite lookup_insert_eq. Qed.

(** Every step keeps the invariant. *)
Lemma inv_step c i c' : inv c → step i c = Some c' → inv c'.
Proof.
  intros Hinv Hstep. unfold step, step_with in Hstep.
  destruct (threads c !! i) as [t|] eqn:Hi; [|done].
  pose proof (inv_class _ _ _ _ _ Hinv i t Hi) as Hcid.
  pose proof (inv_loc _ _ _ _ _ Hinv i t Hi) as Hloc.
  pose proof (inv_lock _ _ _ _ _ Hinv i t Hi) as Hlock.
  destruct t as [names cid p]. simpl in *. subst cid.
  destruct p as [| |l' rest|l' name v rest|r]; simpl in *.
  - (* Enter *)
    rewrite Hk in Hstep. simpl in Hstep.
    destruct (lock c) eqn:Hl; [done|]. injection Hstep as <-.
    by apply (inv_update c i (Thread names k Enter) Locked (shared c));
      auto.
  - (* Locked *)
    rewrite (inv_sessions _ _ _ _ _ Hinv), Hsess, Hact in Hstep.
    injection Hstep as <-. rewrite (Hlock eq_refl).
    by apply (inv_update c i (Thread names k Locked) (Loop l names)
                (shared c)); auto.
  - (* Loop *)
    subst l'. rewrite (Hlock eq_refl) in Hstep.
    destruct rest as [|name rest].
    + injection Hstep as <-.
      by apply (inv_update c i (Thread names k (Loop l []))
                  (Done (Response (JRecorded (deref (heap (shared c)) l))))
                  (shared c)); auto.
    + destruct (decide (name = "Unknown")) as [->|Hname];
        injection Hstep as <-.
      * apply (inv_update c i (Thread names k (Loop l ("Unknown" :: rest)))
                 (Loop l rest) (shared c)); auto.
        all: try (intros n); unfold pending; cbn [at_pc set_pc].
        all: by rewrite counted_cons_unknown.
      * apply (inv_update c i (Thread names k (Loop l (name :: rest)))
                 (Store l name
                    (default 0 (deref (heap (shared c)) l !! name)) rest)
                 (shared c)); auto.
        all: try (intros n); unfold pending; cbn [at_pc set_pc].
        all: by rewrite counted_cons.
  - (* Store *)
    destruct Hloc as (-> & Hname & ->). rewrite (Hlock eq_refl) in Hstep.
    injection Hstep as <-.
    apply (inv_update c i (Thread names k (Store l name _ rest))
             (Loop l rest) (store l name _ (shared c))); auto.
    + intros l' Hl'. simpl. by rewrite lookup_insert_ne.
    + intros n. rewrite deref_store. unfold pending. cbn [at_pc set_pc].
      unfold count at 1. cbn [occurrences].
      destruct (decide (name = n)) as [->|Hne].
      * rewrite lookup_insert_eq. simpl. lia.
      * rewrite lookup_insert_ne by done. unfold count. lia.
    + rewrite deref_store, total_insert. unfold pending. cbn [at_pc set_pc].
      simpl length. lia.
  - done.
Qed.

Lemma inv_steps c c' : inv c → steps c c' → inv c'.
Proof. intros Hinv Hs. induction Hs; eauto using inv_step. Qed.

(** As long as a thread has not returned, some thread can step: the owner
    of the lock if there is one, any thread that has not returned
    otherwise. *)
Lemma forallb_false_lookup {A} (f : A → bool) (ts : list A) :
  forallb f ts = false → ∃ i x, ts !! i = Some x ∧ f x = false.
Proof.
  induction ts as [|a ts IH]; simpl; [done|].
  destruct (f a) eqn:Ha; simpl.
  - intros H. destruct (IH H) as (i & x & Hi & Hx). by exists (S i), x.
  - intros _. by exists 0%nat, a.
Qed.

Lemma step_enabled c :
  inv c → all_returned c = false → ∃ i c', step i c = Some c'.
Proof.
  intros Hinv Hnot. destruct (lock c) as [i|] eqn:Hl.
  - destruct (inv_owner _ _ _ _ _ Hinv i Hl) as (t & Hi & Hb).
    pose proof (inv_class _ _ _ _ _ Hinv i t Hi) as Hcid.
    exists i. unfold step, step_with. rewrite Hi.
    destruct t as [names cid p]. simpl in *. subst cid.
    destruct p as [| |l' rest|l' name v rest|r]; simpl in *; try done.
    + rewrite (inv_sessions _ _ _ _ _ Hinv), Hsess, Hact. eauto.
    + destruct rest as [|name rest]; [eauto|]. case_decide; eauto.
    + eauto.
  - destruct (forallb_false_lookup _ _ Hnot) as (i & t & Hi & Hr).
    pose proof (inv_class _ _ _ _ _ Hinv i t Hi) as Hcid.
    pose proof (inv_lock _ _ _ _ _ Hinv i t Hi) as Hlock.
    exists i. unfold step, step_with. rewrite Hi.
    destruct t as [names cid p]. unfold returned in Hr. simpl in *. subst cid.
    destruct p as [| |l' rest|l' name v rest|r]; simpl in *;
      try (specialize (Hlock eq_refl); congruence); try done.
    rewrite Hk, Hl. simpl. eauto.
Qed.

(** Every execution can be continued until all threads have returned. *)
Lemma can_finish (n : nat) : ∀ c,
  inv c → work c <= Z.of_nat n →
  ∃ c', steps c c' ∧ all_returned c' = true.
Proof.
  induction n as [|n IH]; intros c Hinv Hw;
    (destruct (all_returned c) eqn:Hr;
       [exists c; split; [constructor|done]|]);
    destruct (step_enabled c Hinv Hr) as (i & c1 & Hs);
    pose proof (step_work _ _ _ Hs) as Hlt.
  - pose proof (work_nonneg c1). lia.
  - destruct (IH c1) as (c' & Hsteps & Hdone).
    + by eapply inv_step.
    + lia.
    + exists c'. split; [|done]. by econstructor.
Qed.

(** When all threads have returned, nothing is owed any more. *)
Lemma all_returned_pending c (f : list string → Z) :
  all_returned c = true → f [] = 0 →
  sumZ (λ t, f (pending t)) (threads c) = 0.
Proof.
  intros Hr Hf. apply sumZ_zero. intros i t Hi.
  unfold all_returned in Hr. rewrite forallb_forall in Hr.
  assert (Ht : returned t = true).
  { apply Hr. apply list_elem_of_In. by eapply list_elem_of_lookup_2. }
  unfold returned in Ht. unfold pending. by destruct (at_pc t).
Qed.

Lemma inv_counters c : inv c → counters (shared c) k = deref (heap (shared c)) l.
Proof.
  intros Hinv. unfold counters.
  by rewrite (inv_sessions _ _ _ _ _ Hinv), Hsess.
Qed.

Lemma returned_counts c :
  inv c → all_returned c = true →
  (∀ n, count (counters (shared c) k) n
        = count (counters st0 k) n
          + sumZ (λ names, occurrences n (counted names)) calls)
  ∧ total (counters (shared c) k)
    = total (counters st0 k)
      + sumZ (λ names, Z.of_nat (length (counted names))) calls.
Proof.
  intros Hinv Hr. rewrite (inv_counters c Hinv).
  assert (H0 : counters st0 k = deref (heap st0) l)
    by (unfold counters; by rewrite Hsess).
  rewrite H0. split.
  - intros n. pose proof (inv_count _ _ _ _ _ Hinv n) as Hc.
    rewrite (all_returned_pending c (occurrences n) Hr eq_refl) in Hc. lia.
  - pose proof (inv_total _ _ _ _ _ Hinv) as Ht.
    rewrite (all_returned_pending c (λ p, Z.of_nat (length p)) Hr eq_refl)
      in Ht. lia.
Qed.

End interleavings.

Section record_threads.
Import Run Threads Samples.

Lemma sumZ_single_calls (calls : list (list string)) :
  (∀ names, names ∈ calls → ∃ n, names = [n] ∧ n ≠ "Unknown") →
  sumZ (λ names, Z.of_nat (length (counted names))) calls
  = Z.of_nat (length calls).
Proof.
  induction calls as [|names calls IH]; intros H; [done|].
  simpl. rewrite IH by (intros ? ?; apply H; set_solver).
  destruct (H names) as (n & -> & Hn); [set_solver|].
  rewrite counted_cons by done. simpl. lia.
Qed.

(** C8: [calls] are the name lists of record calls that threads run
    concurrently on an active session, interleaved in any way at the level
    of the single reads and stores of the counters.  In every configuration
    the execution can reach, once all calls have returned each counter has
    grown by exactly the number of times its name was recorded by all calls
    together, so the counters sum to the old sum plus the number of recorded
    names: with N calls of one identity each, exactly N increments, none
    lost and none duplicated.  And every execution can be continued until
    all calls have returned. *)
Theorem no_lost_updates st0 k calls c :
  reachable st0 → active (sessions_by_class st0 !! k) = true →
  steps (spawn st0 k calls) c →
  (all_returned c = true →
     (∀ n, count (counters (shared c) k) n
           = count (counters st0 k) n
             + sumZ (λ names, occurrences n (counted names)) calls)
     ∧ total (counters (shared c) k)
       = total (counters st0 k)
         + sumZ (λ names, Z.of_nat (length (counted names))) calls
     ∧ ((∀ names, names ∈ calls → ∃ n, names = [n] ∧ n ≠ "Unknown") →
        total (counters (shared c) k)
        = total (counters st0 k) + Z.of_nat (length calls)))
  ∧ ∃ c', steps c c' ∧ all_returned c' = true.
Proof.
  intros Hreach Ha Hsteps.
  pose proof (active_key_truthy _ _ (reachable_wf _ Hreach) Ha) as Hk.
  destruct (sessions_by_class st0 !! k) as [sess|] eqn:Hsess; [|done].
  simpl in Ha.
  assert (Hinv : inv st0 k (attendance_records sess) calls c).
  { eapply inv_steps; eauto. by apply inv_spawn. }
  split.
  - intros Hr.
    destruct (returned_counts st0 k sess calls Hsess c Hinv Hr) as [Hc Ht].
    split; [done|]. split; [done|].
    intros Hone. by rewrite Ht, sumZ_single_calls.
  - apply (can_finish st0 k sess calls Hsess Ha Hk (Z.to_nat (work c)));
      [done|]. pose proof (work_nonneg c). lia.
Qed.

Lemma no_lost_updates_witness :
  reachable st_started
  ∧ active (sessions_by_class st_started !! "CS101") = true
  ∧ steps (spawn st_started "CS101" [["alice"]; ["alice"]]) two_calls_done
  ∧ all_returned two_calls_done = true
  ∧ total (counters (shared two_calls_done) "CS101")
    = total (counters st_started "CS101") + 2.
Proof.
  pose proof reachable_st_started as Hr.
  assert (Hs : steps (spawn st_started "CS101" [["alice"]; ["alice"]])
                 two_calls_done).
  { apply (run_schedule_steps fair_schedule). vm_compute. reflexivity. }
  split; [exact Hr|]. split; [reflexivity|]. split; [exact Hs|].
  split; [reflexivity|].
  destruct (no_lost_updates st_started "CS101" [["alice"]; ["alice"]]
              two_calls_done Hr eq_refl Hs) as [H _].
  destruct (H eq_refl) as (_ & _ & H3). apply H3.
  intros names Hin. exists "alice". split; [|discriminate].
  apply list_elem_of_In in Hin. simpl in Hin.
  destruct Hin as [<-|[<-|[]]]; reflexivity.
Defined.

(** The model does lose an update when the lock is left out: both threads
    read 0 and both store 1.  With the lock, the same schedule cannot run,
    because the second thread waits. *)
Example lost_update_without_lock :
  (∃ c, run_schedule false racy_schedule two_calls = Some c
        ∧ all_returned c = true
        ∧ count (counters (shared c) "CS101") "alice" = 1)
  ∧ run_schedule true racy_schedule two_calls = None.
Proof.
  split; [|reflexivity].
  eexists. split; [vm_compute; reflexivity|]. split; reflexivity.
Qed.

End record_threads.

(* ===================================================================== *)
(** ** More on the session registry (Run.py) *)
(* ===================================================================== *)

Section registry_lifecycle.
Import Run Samples.

Lemma stop_session_inactive st k now :
  Py.truthy k = true → active (sessions_by_class st !! k) = false →
  stop_session k now st = (NotActive_stop, st).
Proof.
  intros Hk Ha. unfold stop_session. rewrite Hk. simpl.
  destruct (sessions_by_class st !! k) as [sess|]; [|done].
  simpl in Ha. by rewrite Ha.
Qed.

(** The answer of a stop on an active session, in terms of the state
    before the stop. *)
Lemma stop_session_response st k now sess :
  wf st → Py.truthy k = true → sessions_by_class st !! k = Some sess →
  is_active sess = true →
  fst (stop_session k now st)
  = Response
      (JSummary
         {| js_session_active := false;
            js_session_name := session_name sess;
            js_class_id := k;
            js_attendance_records := counters st k;
            js_start_time := start_time sess;
            js_end_time := now;
            js_duration_seconds := duration_seconds (start_time sess) now |})
  ∧ active (sessions_by_class (snd (stop_session k now st)) !! k) = false.
Proof.
  intros Hwf Hk Hs Ha.
  destruct (wf_heap _ Hwf _ _ Hs) as [d Hd].
  assert (Hc : counters st k = d).
  { rewrite (counters_deref _ _ _ Hs). unfold deref. by rewrite Hd. }
  split.
  - rewrite (stop_session_active _ _ _ _ Hk Hs Ha), stop_summary_state.
    set (lc := fresh (dom (heap st))).
    set (st1 := State (sessions_by_class st)
                  (<[lc := deref (heap st) (attendance_records sess)]>
                     (heap st))).
    assert (Hlc : heap st1 !! lc = Some d).
    { subst st1. simpl. rewrite lookup_insert_eq. unfold deref.
      by rewrite Hd. }
    unfold jsonify_summary, fst. cbn [stop_summary alloc].
    cbn [sm_session_active sm_session_name sm_class_id sm_attendance_records
         sm_start_time sm_end_time sm_duration_seconds].
    fold lc. unfold deref at 1.
    rewrite (reset_slot_heap k st1 lc) by eauto.
    rewrite Hlc. simpl. by rewrite Hc.
  - rewrite (stop_session_active_state _ _ _ _ Hk Hs Ha).
    by rewrite (proj1 (reset_slot_lookup _ _)).
Qed.

Lemma or_else_nonempty name d : d ≠ "" → Py.or_else name d ≠ "".
Proof.
  intros Hd. unfold Py.or_else. destruct name as [s|]; [|done].
  destruct (Py.truthy s) eqn:E; [|done]. by apply truthy_true.
Qed.

Lemma default_name_nonempty k : k ++ "_session" ≠ "".
Proof. by destruct k. Qed.

Lemma reset_slot_counters k st k' :
  wf st → k' ≠ k → counters (reset_slot k st) k' = counters st k'.
Proof.
  intros Hwf Hne. unfold counters. rewrite reset_slot_other by done.
  destruct (sessions_by_class st !! k') as [s'|] eqn:Hs'; [|done].
  unfold deref. rewrite reset_slot_heap; [done|].
  by apply (wf_heap _ Hwf _ _ Hs').
Qed.

Lemma reset_slot_counters_eq k st : counters (reset_slot k st) k = ∅.
Proof.
  unfold counters. destruct (reset_slot_lookup k st) as [-> H].
  cbn [attendance_records]. unfold deref. by rewrite H.
Qed.

Lemma inactive_counters st k :
  wf st → active (sessions_by_class st !! k) = false → counters st k = ∅.
Proof.
  intros Hwf Ha. unfold counters.
  destruct (sessions_by_class st !! k) as [s|] eqn:Hs; [|done].
  simpl in Ha. destruct (wf_inactive _ Hwf _ _ Hs Ha) as (Hh & _).
  unfold deref. by rewrite Hh.
Qed.

(** X1: for a key that is not the empty string, [start_session] answers
    "started" exactly when the key has no active session and
    "already_active" exactly when it has one; either way the key is active
    afterwards.  A session that is started has the given name, or
    [key_session] when the name is missing or empty, the start time of the
    call and an empty counter dict; the slots and counters of all other
    keys stay as they were. *)
Theorem start_session_outcome st k name now :
  reachable st → k ≠ "" →
  let r := start_session k name now st in
  (fst r = Response (JStarted k (Py.or_else name (k ++ "_session")) now)
   ↔ active (sessions_by_class st !! k) = false)
  ∧ (fst r = Conflict k ↔ active (sessions_by_class st !! k) = true)
  ∧ active (sessions_by_class (snd r) !! k) = true
  ∧ (active (sessions_by_class st !! k) = false →
     counters (snd r) k = ∅
     ∧ ∃ l, sessions_by_class (snd r) !! k
            = Some (Session true (Some (Py.or_else name (k ++ "_session")))
                      l (Some now)))
  ∧ (∀ k', k' ≠ k →
       sessions_by_class (snd r) !! k' = sessions_by_class st !! k'
       ∧ counters (snd r) k' = counters st k').
Proof.
  intros Hr Hk r. pose proof (reachable_wf _ Hr) as Hwf.
  apply truthy_true in Hk. subst r.
  destruct (active (sessions_by_class st !! k)) eqn:Ha.
  - assert (E : start_session k name now st = (Conflict k, st)).
    { unfold start_session. by rewrite Hk, Ha. }
    rewrite E. simpl. repeat split; try done.
  - rewrite (start_session_fresh _ _ name now Hk Ha). simpl.
    split; [done|]. split; [done|].
    rewrite lookup_insert_eq. split; [done|]. split.
    + intros _. split; [|by eexists].
      unfold counters. simpl. rewrite lookup_insert_eq. simpl.
      unfold deref. by rewrite lookup_insert_eq.
    + intros k' Hne. rewrite lookup_insert_ne by done. split; [done|].
      unfold counters. simpl. rewrite lookup_insert_ne by done.
      destruct (sessions_by_class st !! k') as [s'|] eqn:Hs'; [|done].
      unfold deref. rewrite lookup_insert_ne; [done|].
      apply fresh_not_allocated. by apply (wf_heap _ Hwf _ _ Hs').
Qed.

Lemma start_session_outcome_witness :
  reachable st_recorded ∧ "MATH7" ≠ ""
  ∧ fst (start_session "MATH7" (Some "") 7000000 st_recorded)
    = Response (JStarted "MATH7" "MATH7_session" 7000000)
  ∧ counters (snd (start_session "MATH7" (Some "") 7000000 st_recorded))
      "CS101" = counters st_recorded "CS101".
Proof.
  pose proof reachable_st_recorded as Hr.
  assert (Hk : "MATH7" ≠ "") by discriminate.
  split; [exact Hr|]. split; [exact Hk|].
  destruct (start_session_outcome st_recorded "MATH7" (Some "") 7000000 Hr Hk)
    as (H1 & _ & _ & _ & H5).
  split; [by apply H1|]. by apply H5.
Defined.

(** X2: once [stop_session] has been called on a key (whatever it
    answered), the key accepts no recording and no second stop, both answer
    "inactive" and change nothing; its status shows no session, name or
    start time; its counters are empty; and it can be started again. *)
Theorem after_stop st k now :
  reachable st → k ≠ "" →
  let st' := snd (stop_session k now st) in
  (∀ names, record_recognition_results_for_class names k st'
            = (NotActive_record, st'))
  ∧ (∀ later, stop_session k later st' = (NotActive_stop, st'))
  ∧ get_session_status k st' = Response (JStatus false None k None)
  ∧ counters st' k = ∅
  ∧ (∀ name later,
       fst (start_session k name later st')
       = Response (JStarted k (Py.or_else name (k ++ "_session")) later)).
Proof.
  intros Hr Hk st'. pose proof (reachable_wf _ Hr) as Hwf.
  assert (Hr' : reachable st') by apply (reachable_exec st (CStop k now) Hr).
  pose proof (reachable_wf _ Hr') as Hwf'.
  pose proof Hk as Hk'. apply truthy_true in Hk'.
  assert (Ha : active (sessions_by_class st' !! k) = false).
  { subst st'. destruct (active (sessions_by_class st !! k)) eqn:Ha.
    - destruct (sessions_by_class st !! k) as [sess|] eqn:Hs; [|done].
      simpl in Ha. rewrite (stop_session_active_state _ _ _ _ Hk' Hs Ha).
      by rewrite (proj1 (reset_slot_lookup _ _)).
    - by rewrite (stop_session_inactive _ _ _ Hk' Ha). }
  split; [|split; [|split; [|split]]].
  - intros names. unfold record_recognition_results_for_class.
    rewrite Hk'. simpl.
    destruct (sessions_by_class st' !! k) as [s|]; [|done].
    simpl in Ha. by rewrite Ha.
  - intros later. unfold stop_session. rewrite Hk'. simpl.
    destruct (sessions_by_class st' !! k) as [s|]; [|done].
    simpl in Ha. by rewrite Ha.
  - unfold get_session_status. rewrite Hk'. simpl.
    destruct (sessions_by_class st' !! k) as [s|] eqn:Hs; [|done].
    simpl in Ha. destruct (wf_inactive _ Hwf' _ _ Hs Ha) as (_ & -> & ->).
    by rewrite Ha.
  - by apply inactive_counters.
  - intros name later. by rewrite (start_session_fresh _ _ name later Hk' Ha).
Qed.

Lemma after_stop_witness :
  reachable st_recorded ∧ "CS101" ≠ ""
  ∧ record_recognition_results_for_class ["alice"] "CS101"
      (snd (stop_session "CS101" 9000000 st_recorded))
    = (NotActive_record, snd (stop_session "CS101" 9000000 st_recorded)).
Proof.
  pose proof reachable_st_recorded as Hr.
  assert (Hk : "CS101" ≠ "") by discriminate.
  split; [exact Hr|]. split; [exact Hk|].
  destruct (after_stop st_recorded "CS101" 9000000 Hr Hk) as (H1 & _).
  apply H1.
Defined.

(** X3: [clear_session_data] with a key leaves that key with an inactive
    slot and empty counters and the other keys as they were; with no key,
    or with the empty string as key, it removes every slot, so that every
    key, active or not before, is then answered "inactive" by stop and
    record. *)
Theorem after_clear st :
  reachable st →
  (∀ k, k ≠ "" →
     let st' := clear_session_data (Some k) st in
     (∃ l, sessions_by_class st' !! k = Some (Session false None l None))
     ∧ counters st' k = ∅
     ∧ (∀ k', k' ≠ k →
          sessions_by_class st' !! k' = sessions_by_class st !! k'
          ∧ counters st' k' = counters st k'))
  ∧ (∀ c, c = None ∨ c = Some "" →
     let st' := clear_session_data c st in
     sessions_by_class st' = ∅
     ∧ ∀ k names now, k ≠ "" →
         stop_session k now st' = (NotActive_stop, st')
         ∧ record_recognition_results_for_class names k st'
           = (NotActive_record, st')).
Proof.
  intros Hr. pose proof (reachable_wf _ Hr) as Hwf. split.
  - intros k Hk st'. subst st'. unfold clear_session_data.
    apply truthy_true in Hk. rewrite Hk.
    split; [eexists; apply reset_slot_lookup|].
    split; [apply reset_slot_counters_eq|].
    intros k' Hne. split; [by apply reset_slot_other|].
    by apply reset_slot_counters.
  - intros c Hc st'.
    assert (E : st' = State ∅ (heap st)) by (by destruct Hc as [->| ->]).
    rewrite E. split; [done|]. intros k names now Hk.
    apply truthy_true in Hk.
    unfold stop_session, record_recognition_results_for_class.
    rewrite Hk. simpl. by rewrite lookup_empty.
Qed.

Lemma after_clear_witness :
  reachable st_recorded
  ∧ stop_session "CS101" 9000000 (clear_session_data (Some "") st_recorded)
    = (NotActive_stop, clear_session_data (Some "") st_recorded).
Proof.
  pose proof reachable_st_recorded as Hr. split; [exact Hr|].
  destruct (after_clear st_recorded Hr) as [_ H].
  destruct (H (Some "") (or_intror eq_refl)) as [_ H2].
  apply (H2 "CS101" [] 9000000). discriminate.
Defined.

(** *** Recording in pieces and in any order *)

Lemma record_name_comm records a b :
  record_name (record_name records a) b = record_name (record_name records b) a.
Proof.
  unfold record_name.
  destruct (decide (a = "Unknown")) as [Ha|Ha],
           (decide (b = "Unknown")) as [Hb|Hb]; try done.
  destruct (decide (a = b)) as [->|Hne]; [done|].
  rewrite (lookup_insert_ne _ a b) by done.
  rewrite (lookup_insert_ne _ b a) by done.
  by apply insert_insert_ne.
Qed.

Lemma record_names_perm names names' :
  names ≡ₚ names' →
  ∀ records, record_names records names = record_names records names'.
Proof.
  unfold record_names.
  induction 1 as [|x l l' _ IH|x y l|l1 l2 l3 _ IH1 _ IH2]; intros records;
    simpl.
  - done.
  - apply IH.
  - by rewrite record_name_comm.
  - by rewrite IH1.
Qed.

Lemma record_active st k sess names :
  Py.truthy k = true → sessions_by_class st !! k = Some sess →
  is_active sess = true →
  record_recognition_results_for_class names k st
  = (Response (JRecorded (record_names (deref (heap st) (attendance_records sess))
                            names)),
     State (sessions_by_class st)
       (<[attendance_records sess :=
            record_names (deref (heap st) (attendance_records sess)) names]>
          (heap st))).
Proof.
  intros Hk Hs Ha. unfold record_recognition_results_for_class.
  by rewrite Hk, Hs, Ha.
Qed.

(** X4: on an active session, recording a sequence of names in one call
    leaves the same state as recording a first part and then the rest in a
    second call, and the order of the names in a call does not matter. *)
Theorem record_in_pieces_any_order st k names :
  reachable st → active (sessions_by_class st !! k) = true →
  (∀ more,
     snd (record_recognition_results_for_class (names ++ more)%list k st)
     = snd (record_recognition_results_for_class more k
              (snd (record_recognition_results_for_class names k st))))
  ∧ (∀ names', names ≡ₚ names' →
       record_recognition_results_for_class names k st
       = record_recognition_results_for_class names' k st).
Proof.
  intros Hr Ha. pose proof (reachable_wf _ Hr) as Hwf.
  pose proof (active_key_truthy _ _ Hwf Ha) as Hk.
  destruct (sessions_by_class st !! k) as [sess|] eqn:Hs; [|done].
  simpl in Ha. split.
  - intros more. rewrite !(record_active st k sess) by done. simpl.
    rewrite (record_active _ k sess) by done. simpl.
    unfold deref at 2. rewrite lookup_insert_eq. simpl.
    rewrite insert_insert_eq. unfold record_names. by rewrite foldl_app.
  - intros names' Hp. rewrite !(record_active st k sess) by done.
    by rewrite (record_names_perm _ _ Hp).
Qed.

Lemma record_in_pieces_any_order_witness :
  reachable st_started
  ∧ active (sessions_by_class st_started !! "CS101") = true
  ∧ record_recognition_results_for_class ["alice"; "bob"] "CS101" st_started
    = record_recognition_results_for_class ["bob"; "alice"] "CS101" st_started.
Proof.
  pose proof reachable_st_started as Hr.
  split; [exact Hr|]. split; [reflexivity|].
  destruct (record_in_pieces_any_order st_started "CS101" ["alice"; "bob"]
              Hr eq_refl) as [_ H].
  apply H. apply perm_swap.
Defined.

End registry_lifecycle.

Section registry_invariants.
Import Run Samples.

(** *** What the counters hold *)

Lemma record_name_positive records name :
  (∀ n v, records !! n = Some v → n ≠ "Unknown" ∧ 1 <= v) →
  ∀ n v, record_name records name !! n = Some v → n ≠ "Unknown" ∧ 1 <= v.
Proof.
  intros H n v. unfold record_name.
  destruct (decide (name = "Unknown")) as [->|Hname]; [apply H|].
  destruct (decide (name = n)) as [->|Hne].
  - rewrite lookup_insert_eq. intros [= <-]. split; [done|].
    destruct (records !! n) as [v0|] eqn:E; simpl; [|lia].
    destruct (H n v0 E). lia.
  - rewrite lookup_insert_ne by done. apply H.
Qed.

Lemma record_names_positive names : ∀ records,
  (∀ n v, records !! n = Some v → n ≠ "Unknown" ∧ 1 <= v) →
  ∀ n v, record_names records names !! n = Some v → n ≠ "Unknown" ∧ 1 <= v.
Proof.
  unfold record_names.
  induction names as [|name names IH]; intros records H; [done|].
  simpl. apply IH. by apply record_name_positive.
Qed.

(** Every dict of the store holds positive counters of names other than
    "Unknown"; every call keeps it so. *)
Lemma exec_positive st c :
  (∀ l d n v, heap st !! l = Some d → d !! n = Some v →
              n ≠ "Unknown" ∧ 1 <= v) →
  ∀ l d n v, heap (exec st c) !! l = Some d → d !! n = Some v →
             n ≠ "Unknown" ∧ 1 <= v.
Proof.
  intros H.
  assert (Hins : ∀ l0 d0 (h : gmap loc (gmap string Z)),
    (∀ l d n v, h !! l = Some d → d !! n = Some v → n ≠ "Unknown" ∧ 1 <= v) →
    (∀ n v, d0 !! n = Some v → n ≠ "Unknown" ∧ 1 <= v) →
    ∀ l d n v, <[l0 := d0]> h !! l = Some d → d !! n = Some v →
               n ≠ "Unknown" ∧ 1 <= v).
  { intros l0 d0 h Hh Hd l d n v Hl. destruct (decide (l0 = l)) as [->|Hne].
    - rewrite lookup_insert_eq in Hl. injection Hl as <-. apply Hd.
    - rewrite lookup_insert_ne in Hl by done. by apply (Hh l). }
  assert (Hderef : ∀ l n v, deref (heap st) l !! n = Some v →
                            n ≠ "Unknown" ∧ 1 <= v).
  { intros l n v. unfold deref. destruct (heap st !! l) as [d|] eqn:E; simpl.
    - by apply (H l).
    - by rewrite lookup_empty. }
  assert (Hempty : ∀ n v, (∅ : gmap string Z) !! n = Some v →
                          n ≠ "Unknown" ∧ 1 <= v).
  { intros n v. by rewrite lookup_empty. }
  destruct c as [k nm t|k t|ns k|k]; simpl.
  - unfold start_session. destruct (Py.truthy k); simpl; [|done].
    destruct (active _); simpl; [done|]. unfold alloc. cbn.
    by apply Hins.
  - destruct (Py.truthy k) eqn:Hk; [|by unfold stop_session; rewrite Hk].
    destruct (sessions_by_class st !! k) as [sess|] eqn:Hs;
      [|by unfold stop_session; rewrite Hk, Hs].
    destruct (is_active sess) eqn:Ha;
      [|by unfold stop_session; rewrite Hk, Hs, Ha].
    rewrite (stop_session_active_state _ _ _ _ Hk Hs Ha).
    unfold reset_slot, alloc. cbn. apply Hins; [|done].
    apply Hins; [done|apply Hderef].
  - unfold record_recognition_results_for_class.
    destruct (Py.truthy k); simpl; [|done].
    destruct (sessions_by_class st !! k) as [sess|]; [|done].
    destruct (is_active sess); [|done]. simpl.
    apply Hins; [done|]. apply record_names_positive, Hderef.
  - unfold clear_session_data. destruct k as [c|]; [|done].
    destruct (Py.truthy c); [|done]. unfold reset_slot, alloc. cbn.
    by apply Hins.
Qed.

(** X5: in every state reached from the empty registry, a counter that is
    present is at least 1 and no counter exists for "Unknown": a name is in
    the counters of a session, hence in the summary of its stop, only if it
    was recorded at least once. *)
Theorem counters_are_positive cs k n v :
  counters (run cs init) k !! n = Some v → n ≠ "Unknown" ∧ 1 <= v.
Proof.
  assert (H : ∀ cs st,
    (∀ l d n v, heap st !! l = Some d → d !! n = Some v →
                n ≠ "Unknown" ∧ 1 <= v) →
    ∀ l d n v, heap (run cs st) !! l = Some d → d !! n = Some v →
               n ≠ "Unknown" ∧ 1 <= v).
  { clear. induction cs as [|c cs IH]; intros st Hst; [done|].
    change (run (c :: cs) st) with (run cs (exec st c)).
    apply IH. by apply exec_positive. }
  unfold counters. destruct (sessions_by_class (run cs init) !! k) as [s|];
    [|by rewrite lookup_empty].
  unfold deref.
  destruct (heap (run cs init) !! attendance_records s) as [d|] eqn:E; simpl;
    [|by rewrite lookup_empty].
  apply (H cs init) with (l := attendance_records s); [|done].
  intros l d0 n0 v0 Hl. simpl in Hl. by rewrite lookup_empty in Hl.
Qed.

Lemma counters_are_positive_witness :
  counters (run [CStart "CS101" None 5000000;
                 CRecord ["alice"; "Unknown"; "alice"] "CS101"] init)
    "CS101" !! "alice" = Some 2
  ∧ "alice" ≠ "Unknown" ∧ 1 <= 2.
Proof.
  split; [reflexivity|].
  apply (counters_are_positive
           [CStart "CS101" None 5000000;
            CRecord ["alice"; "Unknown"; "alice"] "CS101"] "CS101" "alice" 2).
  reflexivity.
Defined.

(** *** What an active slot holds *)

Lemma exec_active_named st c :
  (∀ k s, sessions_by_class st !! k = Some s → is_active s = true →
          ∃ name t, session_name s = Some name ∧ name ≠ ""
                    ∧ start_time s = Some t) →
  ∀ k s, sessions_by_class (exec st c) !! k = Some s → is_active s = true →
         ∃ name t, session_name s = Some name ∧ name ≠ ""
                   ∧ start_time s = Some t.
Proof.
  intros H.
  assert (Hins : ∀ k0 s0 (m : gmap string session),
    (∀ k s, m !! k = Some s → is_active s = true →
            ∃ name t, session_name s = Some name ∧ name ≠ ""
                      ∧ start_time s = Some t) →
    (is_active s0 = true →
     ∃ name t, session_name s0 = Some name ∧ name ≠ ""
               ∧ start_time s0 = Some t) →
    ∀ k s, <[k0 := s0]> m !! k = Some s → is_active s = true →
           ∃ name t, session_name s = Some name ∧ name ≠ ""
                     ∧ start_time s = Some t).
  { intros k0 s0 m Hm Hs0 k s Hl. destruct (decide (k0 = k)) as [->|Hne].
    - rewrite lookup_insert_eq in Hl. by injection Hl as <-.
    - rewrite lookup_insert_ne in Hl by done. by apply (Hm k). }
  destruct c as [k nm t|k t|ns k|k]; simpl.
  - unfold start_session. destruct (Py.truthy k); simpl; [|done].
    destruct (active _); simpl; [done|]. unfold alloc. cbn.
    apply Hins; [done|]. intros _. simpl. eexists _, _.
    split; [done|]. split; [|done].
    apply or_else_nonempty, default_name_nonempty.
  - destruct (Py.truthy k) eqn:Hk; [|by unfold stop_session; rewrite Hk].
    destruct (sessions_by_class st !! k) as [sess|] eqn:Hs;
      [|by unfold stop_session; rewrite Hk, Hs].
    destruct (is_active sess) eqn:Ha;
      [|by unfold stop_session; rewrite Hk, Hs, Ha].
    rewrite (stop_session_active_state _ _ _ _ Hk Hs Ha).
    unfold reset_slot, alloc. cbn. by apply Hins.
  - unfold record_recognition_results_for_class.
    destruct (Py.truthy k); simpl; [|done].
    destruct (sessions_by_class st !! k) as [sess|]; [|done].
    by destruct (is_active sess).
  - unfold clear_session_data.
    assert (Hall : ∀ k s, (∅ : gmap string session) !! k = Some s →
              is_active s = true →
              ∃ name t, session_name s = Some name ∧ name ≠ ""
                        ∧ start_time s = Some t).
    { intros k0 s0 Hk0. by rewrite lookup_empty in Hk0. }
    destruct k as [c|]; [|done].
    destruct (Py.truthy c); [|done]. unfold reset_slot, alloc. cbn.
    by apply Hins.
Qed.

Lemma run_active_named cs k s :
  sessions_by_class (run cs init) !! k = Some s → is_active s = true →
  ∃ name t, session_name s = Some name ∧ name ≠ "" ∧ start_time s = Some t.
Proof.
  assert (H : ∀ cs st,
    (∀ k s, sessions_by_class st !! k = Some s → is_active s = true →
            ∃ name t, session_name s = Some name ∧ name ≠ ""
                      ∧ start_time s = Some t) →
    ∀ k s, sessions_by_class (run cs st) !! k = Some s → is_active s = true →
           ∃ name t, session_name s = Some name ∧ name ≠ ""
                     ∧ start_time s = Some t).
  { clear. induction cs as [|c cs IH]; intros st Hst; [done|].
    change (run (c :: cs) st) with (run cs (exec st c)).
    apply IH. by apply exec_active_named. }
  apply (H cs init). intros k0 s0 Hk0. simpl in Hk0.
  by rewrite lookup_empty in Hk0.
Qed.



(** X7: the two read operations agree and never fail for a key that is not
    the empty string: in every state reached from the empty registry the
    status of a key is either active with a non-empty name and a start
    time, or inactive with neither; [get_current_session_data] is [None]
    exactly for a key without a slot and otherwise carries the same flag,
    name and start time together with the counters of the key. *)
Theorem status_is_consistent cs k :
  k ≠ "" →
  let st := run cs init in
  ((∃ name t, name ≠ ""
      ∧ get_session_status k st = Response (JStatus true (Some name) k (Some t)))
   ∨ get_session_status k st = Response (JStatus false None k None))
  ∧ (get_current_session_data k st = None ↔ sessions_by_class st !! k = None)
  ∧ (∀ a n k' recs t,
       get_current_session_data k st = Some (a, n, k', recs, t) →
       get_session_status k st = Response (JStatus a n k t)
       ∧ k' = k ∧ recs = counters st k
       ∧ a = active (sessions_by_class st !! k)).
Proof.
  intros Hk st. apply truthy_true in Hk.
  assert (Hwf : wf st) by apply wf_run, wf_init.
  unfold get_session_status, get_current_session_data, counters.
  rewrite Hk. simpl.
  destruct (sessions_by_class st !! k) as [s|] eqn:Hs.
  - split; [|split; [done|]].
    + destruct (is_active s) eqn:Ha.
      * left. destruct (run_active_named cs k s Hs Ha)
          as (name & t & -> & Hne & ->). by exists name, t.
      * right. by destruct (wf_inactive _ Hwf _ _ Hs Ha) as (_ & -> & ->).
    + intros a n k' recs t [= <- <- <- <- <-]. done.
  - split; [by right|]. split; [done|]. done.
Qed.

Lemma status_is_consistent_witness :
  "CS101" ≠ ""
  ∧ get_current_session_data "CS101"
      (run [CStart "CS101" (Some "morning") 5000000] init)
    ≠ None.
Proof.
  assert (Hk : "CS101" ≠ "") by discriminate. split; [exact Hk|].
  destruct (status_is_consistent [CStart "CS101" (Some "morning") 5000000]
              "CS101" Hk) as (_ & H & _).
  intros E. apply H in E. discriminate E.
Defined.

End registry_invariants.

(* ===================================================================== *)
(** ** More on the matcher and the attendance report (main.py) *)
(* ===================================================================== *)

Section matcher_more.
Import Main Samples.
Context {embedding : Type}.
Variable cosine_similarity : embedding → embedding → Q.

Local Open Scope Q_scope.

Lemma samples_app (q : embedding) db db' :
  samples cosine_similarity q (db ++ db')%list
  = (samples cosine_similarity q db ++ samples cosine_similarity q db')%list.
Proof. unfold samples. apply flat_map_app. Qed.

Lemma sample_identity (q : embedding) db j p s :
  samples cosine_similarity q db !! j = Some (p, s) → p ∈ map fst db.
Proof.
  intros Hj. apply list_elem_of_lookup_2 in Hj.
  unfold samples in Hj. apply list_elem_of_In, in_flat_map in Hj.
  destruct Hj as (entry & Hentry & Hin).
  apply in_map_iff in Hin as (v & [= <- _] & _).
  apply list_elem_of_In, in_map. exact Hentry.
Qed.

Lemma find_match_score (q : embedding) db :
  snd (find_match cosine_similarity q db)
  = snd (foldl keep_better ("Unknown", 0)
           (samples cosine_similarity q db)).
Proof.
  unfold find_match. rewrite scan_samples. by destruct (ge _ _).
Qed.

(** X8: whatever the store and the query, the score [find_match] reports
    is never negative and is an upper bound of every similarity (so at most
    1 when the similarities are); and when it names an identity other than
    "Unknown", that identity is a key of the store, the score is at least
    the threshold, and the score is the similarity of one of that
    identity's own vectors. *)
Theorem find_match_sound (q : embedding) db :
  let r := find_match cosine_similarity q db in
  0 <= snd r
  ∧ (∀ j p s, samples cosine_similarity q db !! j = Some (p, s) → s <= snd r)
  ∧ ((∀ a b, cosine_similarity a b <= 1) → snd r <= 1)
  ∧ (fst r ≠ "Unknown" →
     SIMILARITY_THRESHOLD <= snd r
     ∧ fst r ∈ map fst db
     ∧ ∃ j, samples cosine_similarity q db !! j = Some r).
Proof.
  intros r. subst r. rewrite find_match_score.
  destruct (foldl_keep_better_bound (samples cosine_similarity q db)
              ("Unknown", 0)) as (H0 & Hub & Hin).
  split; [exact H0|]. split; [exact Hub|]. split.
  - intros Hone. destruct Hin as [->|[j Hj]]; [done|].
    destruct (foldl keep_better _ _) as [p s] eqn:E. simpl.
    apply list_elem_of_lookup_2, list_elem_of_In in Hj.
    unfold samples in Hj. apply in_flat_map in Hj as (entry & _ & Hv).
    apply in_map_iff in Hv as (v & [= _ <-] & _). apply Hone.
  - unfold find_match. rewrite scan_samples.
    destruct (ge (snd (foldl keep_better ("Unknown", 0)
                         (samples cosine_similarity q db)))
                SIMILARITY_THRESHOLD) eqn:G; simpl; [|done].
    intros Hne. split; [by apply ge_true|].
    destruct Hin as [E|[j Hj]]; [by rewrite E in Hne|].
    split; [|by exists j].
    destruct (foldl keep_better _ _) as [p s]. simpl.
    by apply (sample_identity q db j p s).
Qed.

(** X9: entries added at the end of the store whose vectors are no closer
    to the query than the score already reported never change the answer:
    on equal similarity the earlier entry keeps the match. *)
Theorem find_match_ignores_no_better (q : embedding) db db' :
  (∀ j p s, samples cosine_similarity q db' !! j = Some (p, s) →
            s <= snd (find_match cosine_similarity q db)) →
  find_match cosine_similarity q (db ++ db')%list
  = find_match cosine_similarity q db.
Proof.
  intros Hle. rewrite find_match_score in Hle.
  unfold find_match. rewrite !scan_samples, samples_app, foldl_app.
  by rewrite (foldl_keep_better_none _ _ Hle).
Qed.

End matcher_more.

Section matcher_more_examples.
Import Main Samples.
Local Open Scope Q_scope.

Lemma find_match_ignores_no_better_witness :
  (∀ j p s, samples similarity_to 7%nat [("bob", [3; 4]%nat)] !! j
            = Some (p, s) →
            s <= snd (find_match similarity_to 7%nat [("alice", [1; 2]%nat)]))
  ∧ find_match similarity_to 7%nat db_tie
    = find_match similarity_to 7%nat [("alice", [1; 2]%nat)].
Proof.
  assert (H : ∀ j p s,
    samples similarity_to 7%nat [("bob", [3; 4]%nat)] !! j = Some (p, s) →
    s <= snd (find_match similarity_to 7%nat [("alice", [1; 2]%nat)])).
  { intros [|[|j]] p s Hj; vm_compute in Hj; try discriminate Hj;
      injection Hj as <- <-; vm_compute; discriminate. }
  split; [exact H|].
  apply (find_match_ignores_no_better similarity_to 7%nat
           [("alice", [1; 2]%nat)] [("bob", [3; 4]%nat)] H).
Defined.

End matcher_more_examples.

Section report.
Import Main.
Local Open Scope Q_scope.

Lemma csv_rows_defined attendance session_length :
  session_length ≠ 0%Z →
  csv_rows attendance session_length
  = inr (map (λ e, CsvRow (fst e) (snd e) session_length
                     (snd e / inject_Z session_length)
                     (if ge (snd e / inject_Z session_length)
                            ATTENDANCE_THRESHOLD
                      then "Present" else "Absent"))
             attendance).
Proof.
  intros Hd. induction attendance as [|[person presence] rest IH]; [done|].
  simpl. rewrite (percentage_defined _ _ Hd), IH. done.
Qed.

Lemma firebase_records_defined attendance session_length :
  session_length ≠ 0%Z →
  firebase_records attendance session_length
  = inr (map (λ e, (fst e,
                    AttendanceRecord
                      (if ge (snd e / inject_Z session_length)
                             ATTENDANCE_THRESHOLD
                       then "present" else "absent")
                      (snd e) (snd e / inject_Z session_length * 100)
                      session_length))
             attendance).
Proof.
  intros Hd. induction attendance as [|[person presence] rest IH]; [done|].
  simpl. rewrite (percentage_defined _ _ Hd), IH. done.
Qed.



End report.

(* ===================================================================== *)
(** ** More on the embedding-store update (EncodeGenerator.py) *)
(* ===================================================================== *)

Section dict_keys.
Context {V : Type}.
Implicit Types (d : Py.dict V) (k : string) (v : V).

Lemma dict_get_None k d : Py.dict_get k d = None ↔ k ∉ Py.dict_keys d.
Proof.
  unfold Py.dict_keys. induction d as [|[k' v'] d IH]; simpl.
  - split; [intros _; apply not_elem_of_nil|done].
  - destruct (decide (k' = k)) as [->|Hne].
    + split; [done|]. intros H. exfalso. apply H. by left.
    + rewrite IH, not_elem_of_cons. split; [by split|by intros [_ ?]].
Qed.

Lemma dict_mem_keys k d : Py.dict_mem k d = true ↔ k ∈ Py.dict_keys d.
Proof.
  unfold Py.dict_mem. destruct (Py.dict_get k d) eqn:E.
  - split; [|done]. intros _.
    destruct (decide (k ∈ Py.dict_keys d)) as [|Hn]; [done|].
    apply dict_get_None in Hn. congruence.
  - split; [done|]. intros H. by apply dict_get_None in E.
Qed.

(** A new key goes last. *)
Lemma dict_keys_set_new k v d :
  k ∉ Py.dict_keys d →
  Py.dict_keys (Py.dict_set k v d) = (Py.dict_keys d ++ [k])%list.
Proof.
  unfold Py.dict_keys. induction d as [|[k' v'] d IH]; simpl; [done|].
  intros Hk. apply not_elem_of_cons in Hk as [Hne Hk].
  rewrite decide_False by done. simpl. by rewrite IH.
Qed.

Lemma filter_all {A} (P : A → Prop) `{∀ x, Decision (P x)} (l : list A) :
  (∀ x, x ∈ l → P x) → filter P l = l.
Proof.
  induction l as [|a l IH]; intros H0; [done|].
  rewrite filter_cons_True by (apply H0; by left).
  f_equal. apply IH. intros x Hx. apply H0. by right.
Qed.

Lemma filter_none {A} (P : A → Prop) `{∀ x, Decision (P x)} (l : list A) :
  (∀ x, x ∈ l → ¬ P x) → filter P l = [].
Proof.
  induction l as [|a l IH]; intros H0; [done|].
  rewrite filter_cons_False by (apply H0; by left).
  apply IH. intros x Hx. apply H0. by right.
Qed.

Lemma filter_agree {A} (P Q : A → Prop) `{∀ x, Decision (P x)}
    `{∀ x, Decision (Q x)} (l : list A) :
  (∀ x, x ∈ l → P x ↔ Q x) → filter P l = filter Q l.
Proof.
  induction l as [|a l IH]; intros H1; [done|].
  assert (Ha : P a ↔ Q a) by (apply H1; by left).
  assert (Hl : filter P l = filter Q l).
  { apply IH. intros x Hx. apply H1. by right. }
  destruct (decide (P a)) as [Hp|Hp].
  - rewrite !filter_cons_True by tauto. by rewrite Hl.
  - rewrite !filter_cons_False by tauto. done.
Qed.

(** Deleting a key of a dict without repeated keys. *)
Lemma dict_keys_del k d :
  NoDup (Py.dict_keys d) →
  Py.dict_keys (Py.dict_del k d) = filter (λ k', k' ≠ k) (Py.dict_keys d).
Proof.
  unfold Py.dict_keys. induction d as [|[k' v'] d IH]; simpl; [done|].
  intros Hnd. apply NoDup_cons in Hnd as [Hk' Hnd].
  destruct (decide (k' = k)) as [->|Hne].
  - rewrite filter_cons_False by (intros H; by apply H).
    symmetry. apply filter_all. intros x Hx ->. by apply Hk'.
  - simpl. rewrite filter_cons_True by done. by rewrite IH.
Qed.

Lemma dict_keys_foldl_del names : ∀ d,
  NoDup (Py.dict_keys d) →
  Py.dict_keys (foldl (λ d name, Py.dict_del name d) d names)
  = filter (λ k, k ∉ names) (Py.dict_keys d).
Proof.
  induction names as [|n names IH]; intros d Hnd; simpl.
  - symmetry. apply filter_all. intros x _. apply not_elem_of_nil.
  - rewrite IH by (rewrite dict_keys_del by done; by apply NoDup_filter).
    rewrite dict_keys_del by done. rewrite list_filter_filter.
    apply filter_agree. intros x _. rewrite not_elem_of_cons. tauto.
Qed.

(** Deleting the keys that are not in [keep] keeps the others in place. *)
Lemma dict_keys_prune (keep : list string) d :
  NoDup (Py.dict_keys d) →
  Py.dict_keys
    (foldl (λ d name, Py.dict_del name d) d
       (filter (λ name, name ∉ keep) (Py.dict_keys d)))
  = filter (λ k, k ∈ keep) (Py.dict_keys d).
Proof.
  intros Hnd. rewrite dict_keys_foldl_del by done.
  apply filter_agree. intros x Hx. rewrite list_elem_of_filter.
  split.
  - intros Hn. destruct (decide (x ∈ keep)) as [|Hout]; [done|].
    exfalso. by apply Hn.
  - intros Hin [Hout _]. by apply Hout.
Qed.

End dict_keys.

Section enrollment_more.
Import EncodeGenerator Samples.
Context {embedding image : Type}.
Variable represent : string → option embedding.
Variable imread : string → option image.
Variable represent_augmented : string → image → nat → option embedding.

Abbreviation process := (process represent imread represent_augmented).
Abbreviation image_embeddings :=
  (image_embeddings represent imread represent_augmented).
Abbreviation person_embeddings :=
  (person_embeddings represent imread represent_augmented).
Abbreviation manage_embeddings :=
  (manage_embeddings represent imread represent_augmented).

(** The folders of the listing that a dict with the keys [known] lacks. *)
Abbreviation new_folders known listing :=
  (map e_name (filter (λ e, e_isdir e = true ∧ e_name e ∉ known) listing)).

Lemma dict_keys_process db_path N_AUG d e :
  Py.dict_keys (process db_path N_AUG d e)
  = (Py.dict_keys d ++ new_folders (Py.dict_keys d) [e])%list.
Proof.
  unfold EncodeGenerator.process.
  destruct (e_isdir e) eqn:Hdir; cbn [negb].
  - destruct (Py.dict_mem (e_name e) d) eqn:Hm.
    + apply dict_mem_keys in Hm.
      rewrite filter_cons_False by tauto. simpl. by rewrite app_nil_r.
    + assert (Hn : e_name e ∉ Py.dict_keys d).
      { intros Hin. apply dict_mem_keys in Hin. congruence. }
      rewrite filter_cons_True by done. simpl.
      by apply dict_keys_set_new.
  - rewrite filter_cons_False by (intros [? _]; congruence).
    simpl. by rewrite app_nil_r.
Qed.

Lemma dict_keys_foldl_process db_path N_AUG listing : ∀ d,
  NoDup (map e_name listing) →
  Py.dict_keys (foldl (process db_path N_AUG) d listing)
  = (Py.dict_keys d ++ new_folders (Py.dict_keys d) listing)%list.
Proof.
  induction listing as [|e listing IH]; intros d Hnd.
  { simpl. by rewrite app_nil_r. }
  simpl in Hnd. apply NoDup_cons in Hnd as [Hfresh Hnd].
  simpl. rewrite IH by done. rewrite dict_keys_process.
  rewrite <- app_assoc. f_equal.
  change (e :: listing) with ([e] ++ listing)%list.
  rewrite filter_app, map_app. f_equal. f_equal.
  apply filter_agree. intros x Hx.
  assert (Hne : e_name x ≠ e_name e).
  { intros E. apply Hfresh. rewrite <- E. apply list_elem_of_fmap.
    by exists x. }
  rewrite not_elem_of_app.
  split; [tauto|]. intros [Hdir Hout]. split; [done|]. split; [done|].
  intros Hin. apply list_elem_of_fmap in Hin as (y & Hy & Hin).
  apply list_elem_of_filter in Hin as [_ Hin].
  apply elem_of_cons in Hin as [->|Hin]; [done|].
  by apply elem_of_nil in Hin.
Qed.

(** The identities of the store after the update. *)
Lemma manage_embeddings_keys db_path N_AUG stored listing :
  NoDup (Py.dict_keys (default [] stored)) → NoDup (map e_name listing) →
  Py.dict_keys (manage_embeddings db_path N_AUG stored listing)
  = (filter (λ k, k ∈ map e_name listing) (Py.dict_keys (default [] stored))
     ++ new_folders (Py.dict_keys (default [] stored)) listing)%list.
Proof.
  intros Hs Hl.
  set (known := Py.dict_keys (default [] stored)) in *.
  assert (Hloop : Py.dict_keys
            (foldl (process db_path N_AUG) (default [] stored) listing)
            = (known ++ new_folders known listing)%list)
    by (by apply dict_keys_foldl_process).
  assert (Hnew : ∀ k, k ∈ new_folders known listing →
                      k ∈ map e_name listing ∧ k ∉ known).
  { intros k Hk. apply list_elem_of_fmap in Hk as (e & -> & He).
    apply list_elem_of_filter in He as [[_ Hout] Hin].
    split; [|done]. apply list_elem_of_fmap. by exists e. }
  assert (Hnd : NoDup (known ++ new_folders known listing)%list).
  { apply NoDup_app. split; [done|]. split.
    - intros k Hk Hin. by destruct (Hnew k Hin).
    - eapply sublist_NoDup; [exact Hl|].
      apply fmap_sublist, sublist_filter. }
  unfold EncodeGenerator.manage_embeddings.
  rewrite dict_keys_prune by (by rewrite Hloop).
  rewrite Hloop, filter_app. f_equal.
  apply filter_all. intros k Hk. by destruct (Hnew k Hk).
Qed.

Lemma new_folders_spec (known : list string) listing k :
  k ∈ new_folders known listing → k ∈ map e_name listing ∧ k ∉ known.
Proof.
  intros Hk. apply list_elem_of_fmap in Hk as (e & -> & He).
  apply list_elem_of_filter in He as [[_ Hout] Hin].
  split; [|done]. apply list_elem_of_fmap. by exists e.
Qed.

Lemma manage_embeddings_keys_in db_path N_AUG stored listing :
  NoDup (Py.dict_keys (default [] stored)) → NoDup (map e_name listing) →
  (∀ k, k ∈ Py.dict_keys (manage_embeddings db_path N_AUG stored listing) →
        k ∈ map e_name listing)
  ∧ (∀ e, e ∈ listing → e_isdir e = true →
          e_name e
          ∈ Py.dict_keys (manage_embeddings db_path N_AUG stored listing)).
Proof.
  intros Hs Hl. rewrite (manage_embeddings_keys _ _ _ _ Hs Hl). split.
  - intros k Hk. apply elem_of_app in Hk as [Hk|Hk].
    + by apply list_elem_of_filter in Hk as [Hk _].
    + by destruct (new_folders_spec _ _ _ Hk).
  - intros e He Hdir. apply elem_of_app.
    destruct (decide (e_name e ∈ Py.dict_keys (default [] stored)))
      as [Hin|Hout].
    + left. apply list_elem_of_filter. split; [|done].
      apply list_elem_of_fmap. by exists e.
    + right. apply list_elem_of_fmap. exists e. split; [done|].
      by apply list_elem_of_filter.
Qed.

(** X11: after the update the identities of the store are, in this order,
    the stored identities that are still names of the catalog, in their
    stored order, followed by the catalog folders that were not stored, in
    the order of the listing; so nothing stale is left, every folder of the
    catalog is enrolled, and no identity is repeated. *)
Theorem manage_embeddings_identities db_path N_AUG stored listing :
  NoDup (Py.dict_keys (default [] stored)) → NoDup (map e_name listing) →
  let result := manage_embeddings db_path N_AUG stored listing in
  Py.dict_keys result
  = (filter (λ k, k ∈ map e_name listing) (Py.dict_keys (default [] stored))
     ++ new_folders (Py.dict_keys (default [] stored)) listing)%list
  ∧ NoDup (Py.dict_keys result)
  ∧ (∀ k, k ∈ Py.dict_keys result → k ∈ map e_name listing)
  ∧ (∀ e, e ∈ listing → e_isdir e = true → e_name e ∈ Py.dict_keys result).
Proof.
  intros Hs Hl result. subst result.
  destruct (manage_embeddings_keys_in db_path N_AUG stored listing Hs Hl)
    as [Hin Hall].
  split; [by apply manage_embeddings_keys|]. split; [|done].
  rewrite (manage_embeddings_keys _ _ _ _ Hs Hl).
  apply NoDup_app. split; [by apply NoDup_filter|]. split.
  - intros k Hk Hnew. apply list_elem_of_filter in Hk as [_ Hk].
    by destruct (new_folders_spec _ _ _ Hnew).
  - eapply sublist_NoDup; [exact Hl|].
    apply fmap_sublist, sublist_filter.
Qed.

(** A dict that has every folder of the listing is not changed by the
    loop over the folders. *)
Lemma foldl_process_known db_path N_AUG listing : ∀ d,
  (∀ e, e ∈ listing → e_isdir e = true → e_name e ∈ Py.dict_keys d) →
  foldl (process db_path N_AUG) d listing = d.
Proof.
  induction listing as [|e listing IH]; intros d H; [done|].
  simpl. assert (E : process db_path N_AUG d e = d).
  { unfold EncodeGenerator.process.
    destruct (e_isdir e) eqn:Hdir; cbn [negb]; [|done].
    assert (Hm : Py.dict_mem (e_name e) d = true).
    { apply dict_mem_keys, H; [by left|done]. }
    by rewrite Hm. }
  rewrite E. apply IH. intros e' He'. apply H. by right.
Qed.

(** X12: running the update a second time on its own result, with the
    catalog unchanged, changes nothing: no vision call is made for an
    identity that is already enrolled and nothing is pruned. *)
Theorem manage_embeddings_twice db_path N_AUG stored listing :
  NoDup (Py.dict_keys (default [] stored)) → NoDup (map e_name listing) →
  manage_embeddings db_path N_AUG
    (Some (manage_embeddings db_path N_AUG stored listing)) listing
  = manage_embeddings db_path N_AUG stored listing.
Proof.
  intros Hs Hl.
  destruct (manage_embeddings_keys_in db_path N_AUG stored listing Hs Hl)
    as [Hin Hall].
  set (d := manage_embeddings db_path N_AUG stored listing) in *.
  unfold EncodeGenerator.manage_embeddings at 1. simpl.
  rewrite (foldl_process_known _ _ _ _ Hall).
  rewrite (filter_none _ (Py.dict_keys d)); [done|].
  intros k Hk Hout. by apply Hout, Hin.
Qed.

(** X13: an image yields at most one embedding of its own plus [N_AUG]
    augmented ones (just its own when [N_AUG] is 0 or negative), and a
    student at most that many for each file with an image suffix; files
    with another suffix yield none. *)
Theorem embeddings_per_image db_path files N_AUG :
  (∀ img_path, length (image_embeddings img_path N_AUG)
               <= 1 + Z.to_nat N_AUG)%nat
  ∧ (length (person_embeddings db_path files N_AUG)
     <= (1 + Z.to_nat N_AUG)
        * length (filter (λ img, Py.endswith (Py.lower img) IMAGE_SUFFIXES
                                 = true) files))%nat.
Proof.
  assert (Haug : ∀ p face n i,
    (length (augmentations represent_augmented p face n i) <= n)%nat).
  { intros p face n. induction n as [|n IH]; intros i; simpl; [lia|].
    destruct (represent_augmented p face i); simpl; [|lia].
    specialize (IH (S i)). lia. }
  assert (Himg : ∀ img_path,
    (length (image_embeddings img_path N_AUG) <= 1 + Z.to_nat N_AUG)%nat).
  { intros p. unfold EncodeGenerator.image_embeddings.
    destruct (represent p); simpl; [|lia].
    destruct (imread p); simpl; [|lia].
    specialize (Haug p i (Z.to_nat N_AUG) 0%nat). lia. }
  split; [exact Himg|].
  unfold EncodeGenerator.person_embeddings.
  induction files as [|img files IH]; [simpl; lia|].
  cbn [flat_map]. rewrite length_app.
  destruct (Py.endswith (Py.lower img) IMAGE_SUFFIXES) eqn:E.
  - rewrite filter_cons_True by done. cbn [length].
    rewrite Nat.mul_succ_r.
    specialize (Himg (Py.path_join db_path img)). lia.
  - rewrite filter_cons_False by (by rewrite E). cbn [length]. lia.
Qed.

End enrollment_more.

Section enrollment_more_examples.
Import EncodeGenerator Samples.

Lemma manage_embeddings_identities_witness :
  NoDup (Py.dict_keys (default [] (Some stored)))
  ∧ NoDup (map e_name listing)
  ∧ Py.dict_keys (manage_embeddings sample_represent sample_imread
                    sample_represent_augmented "db" 1 (Some stored) listing)
    = ["alice"; "bob"].
Proof.
  assert (H1 : NoDup (Py.dict_keys (default [] (Some stored))))
    by (by apply (bool_decide_unpack _)).
  assert (H2 : NoDup (map e_name listing))
    by (by apply (bool_decide_unpack _)).
  split; [exact H1|]. split; [exact H2|].
  destruct (manage_embeddings_identities sample_represent sample_imread
              sample_represent_augmented "db" 1 (Some stored) listing H1 H2)
    as [H _].
  rewrite H. reflexivity.
Defined.

Lemma manage_embeddings_twice_witness :
  NoDup (Py.dict_keys (default [] (Some stored)))
  ∧ NoDup (map e_name listing)
  ∧ manage_embeddings sample_represent sample_imread
      sample_represent_augmented "db" 1
      (Some (manage_embeddings sample_represent sample_imread
               sample_represent_augmented "db" 1 (Some stored) listing))
      listing
    = manage_embeddings sample_represent sample_imread
        sample_represent_augmented "db" 1 (Some stored) listing.
Proof.
  assert (H1 : NoDup (Py.dict_keys (default [] (Some stored))))
    by (by apply (bool_decide_unpack _)).
  assert (H2 : NoDup (map e_name listing))
    by (by apply (bool_decide_unpack _)).
  split; [exact H1|]. split; [exact H2|].
  apply (manage_embeddings_twice sample_represent sample_imread
           sample_represent_augmented "db" 1 (Some stored) listing H1 H2).
Defined.

End enrollment_more_examples.

(* ===================================================================== *)
(** ** More on the HTTP routes (app.py) *)
(* ===================================================================== *)

Section routes.
Import Run Samples.

(** The verdict of the stop route in whole numbers: "present" exactly when
    the duration is positive and at most four times the presence count. *)
Lemma status_by_counts presence_time session_duration :
  App.status (App.attendance_percentage presence_time session_duration)
    = "present"
  ↔ 0 < session_duration ∧ session_duration <= 4 * presence_time.
Proof.
  destruct (Z_lt_le_dec 0 session_duration) as [Hd|Hd].
  - rewrite (status_present_iff _ _ Hd). unfold Main.ATTENDANCE_THRESHOLD.
    assert (Hq : (0 < inject_Z session_duration)%Q).
    { change 0%Q with (inject_Z 0). by rewrite <- Zlt_Qlt. }
    rewrite <- (Qmult_le_r _ _ _ Hq).
    assert (E : (inject_Z presence_time / inject_Z session_duration
                 * inject_Z session_duration == inject_Z presence_time)%Q).
    { field. intros E. rewrite E in Hq. by apply Qlt_irrefl in Hq. }
    rewrite E. unfold Qle. simpl. split; [intros H; split; lia|lia].
  - destruct (attendance_percentage_zero presence_time _ Hd) as [_ ->].
    split; [discriminate|lia].
Qed.

Lemma status_two_values pct :
  App.status pct = "present" ∨ App.status pct = "absent".
Proof. unfold App.status. destruct (Main.ge pct 25); auto. Qed.

Section stop.
Variable save_attendance_record : App.saved_record → bool.

(** X14: the stop route never answers "No active session found": the
    registry answers a missing or inactive session with a tuple, which the
    route cannot parse.  For a key that is not empty and has no active
    session the route, with Firebase initialised, answers 200 with zero
    records, hands Firebase a session named "Unknown" of one minute without
    students, and leaves the registry as it was. *)
Theorem http_stop_without_session req firebase_manager now st :
  fst (fst (App.stop_session save_attendance_record req firebase_manager
              now st))
  ≠ (App.AError "No active session found", 400)
  ∧ ∀ k, k ≠ "" → active (sessions_by_class st !! k) = false →
      App.stop_session save_attendance_record (Some (Some k)) true now st
      = ((App.AStopped k 0 0, 200),
         ([], Some (App.SavedSession (Some "Unknown") 1 [])), st).
Proof.
  split.
  - unfold App.stop_session. destruct req as [class_id|]; [|done].
    destruct (Py.truthy_opt class_id); simpl; [|done].
    destruct firebase_manager; simpl; [|done].
    destruct (stop_session (default "" class_id) now st) as [resp st'] eqn:E.
    assert (Hresp : App.sd_status (App.parse_recognize_response resp)
                    ≠ Some "inactive").
    { destruct (Py.truthy (default "" class_id)) eqn:Hk;
        [|unfold stop_session in E; rewrite Hk in E; by injection E as <- _].
      destruct (sessions_by_class st !! default "" class_id) as [sess|] eqn:Hs;
        [|unfold stop_session in E; rewrite Hk, Hs in E;
          by injection E as <- _].
      destruct (is_active sess) eqn:Ha;
        [|unfold stop_session in E; rewrite Hk, Hs, Ha in E;
          by injection E as <- _].
      rewrite (stop_session_active _ _ _ _ Hk Hs Ha) in E.
      by injection E as <- _. }
    by rewrite decide_False.
  - intros k Hk Ha. apply truthy_true in Hk.
    unfold App.stop_session. simpl. rewrite Hk. simpl.
    assert (E : stop_session k now st = (NotActive_stop, st)).
    { unfold stop_session. rewrite Hk. simpl.
      destruct (sessions_by_class st !! k) as [sess|]; [|done].
      simpl in Ha. by rewrite Ha. }
    rewrite E. simpl. reflexivity.
Qed.

(** X15: on an active session the stop route, with Firebase initialised,
    stops the session in the registry and hands Firebase exactly one record
    per counter of the session, carrying the class, the name, its count and
    the duration in whole seconds; a record says "present" exactly when the
    duration is positive and at most four times the count, and "absent"
    otherwise, so a session stopped within its first second marks everyone
    absent.  The answer reports the number of counters and how many records
    Firebase accepted. *)
Theorem http_stop_saves_attendance st k sess now :
  reachable st → sessions_by_class st !! k = Some sess →
  is_active sess = true →
  let d := duration_seconds (start_time sess) now in
  let r := App.stop_session save_attendance_record (Some (Some k)) true now st in
  let saved := fst (snd (fst r)) in
  fst (fst r)
  = (App.AStopped k (length (filter save_attendance_record saved))
       (size (counters st k)), 200)
  ∧ snd r = snd (stop_session k now st)
  ∧ active (sessions_by_class (snd r) !! k) = false
  ∧ length saved = size (counters st k)
  ∧ (length (filter save_attendance_record saved) <= length saved)%nat
  ∧ NoDup (map App.sv_student_id saved)
  ∧ (∀ n v, counters st k !! n = Some v ↔
            ∃ rec, rec ∈ saved ∧ App.sv_student_id rec = n
                   ∧ App.sv_presence_time rec = v)
  ∧ (∀ rec, rec ∈ saved →
       App.sv_class_id rec = k ∧ App.sv_session_duration rec = d
       ∧ (App.sv_status rec = "present"
          ↔ 0 < d ∧ d <= 4 * App.sv_presence_time rec)
       ∧ (App.sv_status rec = "absent"
          ↔ ¬ (0 < d ∧ d <= 4 * App.sv_presence_time rec)))
  ∧ snd (snd (fst r))
    = Some (App.SavedSession (session_name sess) (d `div` 60)
              (map App.sv_student_id saved)).
Proof.
  intros Hr Hs Ha d r saved. pose proof (reachable_wf _ Hr) as Hwf.
  assert (Hact : active (sessions_by_class st !! k) = true) by (by rewrite Hs).
  pose proof (active_key_truthy _ _ Hwf Hact) as Hk.
  assert (Hk' : k ≠ "") by (by apply truthy_true).
  destruct (stop_session_response st k now sess Hwf Hk Hs Ha)
    as (Hresp & Hslot).
  destruct (stop_session k now st) as [resp st'] eqn:E. simpl in Hresp, Hslot.
  subst resp.
  assert (Hr' : r = ((App.AStopped k
                        (length (filter save_attendance_record
                                   (map (App.record_of k d)
                                      (map_to_list (counters st k)))))
                        (length (map_to_list (counters st k))), 200),
                     (map (App.record_of k d) (map_to_list (counters st k)),
                      Some (App.SavedSession (session_name sess) (d `div` 60)
                              (map fst (map_to_list (counters st k))))),
                     st')).
  { subst r. unfold App.stop_session. simpl. rewrite Hk. simpl.
    rewrite E. simpl. reflexivity. }
  subst saved. rewrite Hr'. simpl.
  assert (Hnames : map App.sv_student_id
                     (map (App.record_of k d) (map_to_list (counters st k)))
                   = map fst (map_to_list (counters st k))).
  { rewrite map_map. by apply map_ext. }
  split; [by rewrite length_map_to_list|]. split; [done|].
  split; [done|].
  split; [by rewrite length_map, length_map_to_list|].
  split; [apply length_filter|].
  split; [rewrite Hnames; apply NoDup_fst_map_to_list|].
  split; [|split; [|by rewrite Hnames]].
  - intros n v. rewrite <- elem_of_map_to_list. split.
    + intros Hin. exists (App.record_of k d (n, v)). split; [|done].
      apply list_elem_of_fmap. by exists (n, v).
    + intros (rec & Hin & <- & <-).
      apply list_elem_of_fmap in Hin as ([n v] & -> & Hin). done.
  - intros rec Hin.
    apply list_elem_of_fmap in Hin as ([n v] & -> & Hin). simpl.
    split; [done|]. split; [done|].
    pose proof (status_by_counts v d) as Hp. split; [exact Hp|].
    rewrite <- Hp.
    destruct (status_two_values (App.attendance_percentage v d)) as [E1|E1];
      rewrite E1; split; try done; intros H0; by destruct H0.
Qed.

End stop.


End routes.

Section routes_examples.
Import Run Samples.

Lemma http_stop_saves_attendance_witness :
  reachable st_recorded
  ∧ sessions_by_class st_recorded !! "CS101"
    = Some (Session true (Some "CS101_session") 1%positive (Some 5000000))
  ∧ fst (fst (App.stop_session (λ _, true) (Some (Some "CS101")) true
                13000000 st_recorded))
    = (App.AStopped "CS101" 2 2, 200).
Proof.
  pose proof reachable_st_recorded as Hr.
  split; [exact Hr|]. split; [reflexivity|].
  destruct (http_stop_saves_attendance (λ _, true) st_recorded "CS101"
              (Session true (Some "CS101_session") 1%positive (Some 5000000))
              13000000 Hr eq_refl eq_refl) as (H & _).
  rewrite H. reflexivity.
Defined.

(** The scenario at the route: eight seconds after the start, alice with
    two recognitions is present and bob with one is absent. *)
Example http_stop_scenario :
  map (λ r, (App.sv_student_id r, App.sv_status r))
    (fst (snd (fst (App.stop_session (λ _, true) (Some (Some "CS101")) true
                      13000000 st_recorded))))
  ≡ₚ [("alice", "present"); ("bob", "absent")].
Proof. vm_compute. by rewrite perm_swap || reflexivity. Qed.

End routes_examples.

(* ===================================================================== *)
(** ** More on the student folders (Student_Manage.py) *)
(* ===================================================================== *)

Section paths.

(** Strings as lists of characters. *)
Lemma chars_app (a b : string) :
  list_ascii_of_string (a ++ b)
  = (list_ascii_of_string a ++ list_ascii_of_string b)%list.
Proof. induction a as [|c a IH]; simpl; [done|]. by rewrite IH. Qed.

Lemma contains_chars c (s : string) :
  Py.contains c s = false ↔ c ∉ list_ascii_of_string s.
Proof.
  induction s as [|d s IH]; simpl.
  - split; [intros _; apply not_elem_of_nil|done].
  - rewrite orb_false_iff, IH, not_elem_of_cons, Ascii.eqb_neq.
    split; intros [H1 H2]; split; try done; by intros ->.
Qed.

Lemma drop_while_all (f : ascii → bool) (l rest : list ascii) :
  (∀ c, c ∈ l → f c = true) →
  Py.drop_while f (l ++ rest) = Py.drop_while f rest.
Proof.
  induction l as [|c l IH]; intros H; [done|].
  simpl. rewrite (H c) by (by left). apply IH. intros d Hd. apply H. by right.
Qed.

(** The directory of [d/leaf] is [d] when [leaf] has no slash and [d] ends
    with a character that is not a slash. *)
Lemma dirname_join (d leaf : string) c r :
  rev (list_ascii_of_string d) = c :: r → c ≠ "/"%char →
  Py.contains "/" leaf = false →
  Py.dirname (d ++ "/" ++ leaf) = d.
Proof.
  intros Hd Hc Hleaf. unfold Py.dirname.
  rewrite !chars_app, !rev_app_distr. simpl. rewrite <- !app_assoc. simpl.
  rewrite drop_while_all.
  - simpl. rewrite Hd. simpl.
    apply Ascii.eqb_neq in Hc. rewrite Hc. simpl.
    change (rev r ++ [c])%list with (rev (c :: r)).
    rewrite <- Hd, rev_involutive. apply string_of_list_ascii_of_string.
  - intros x Hx. apply list_elem_of_In, in_rev, list_elem_of_In in Hx.
    apply negb_true_iff, Ascii.eqb_neq. intros ->.
    by apply contains_chars in Hleaf.
Qed.

Lemma chars_inj (a b : string) :
  list_ascii_of_string a = list_ascii_of_string b → a = b.
Proof.
  intros H. rewrite <- (string_of_list_ascii_of_string a),
    <- (string_of_list_ascii_of_string b). by rewrite H.
Qed.

Lemma string_app_inv_tail (a b t : string) : a ++ t = b ++ t → a = b.
Proof.
  intros H. apply chars_inj. apply (f_equal list_ascii_of_string) in H.
  rewrite !chars_app in H. by apply app_inv_tail in H.
Qed.

Lemma string_app_inv_head (h a b : string) : h ++ a = h ++ b → a = b.
Proof.
  intros H. apply chars_inj. apply (f_equal list_ascii_of_string) in H.
  rewrite !chars_app in H. by apply app_inv_head in H.
Qed.

Lemma string_app_cons c (a b : string) : String c a ++ b = String c (a ++ b).
Proof. reflexivity. Qed.

Lemma string_app_nil_r (a : string) : a ++ "" = a.
Proof. apply chars_inj. rewrite chars_app. apply app_nil_r. Qed.

Lemma string_app_assoc (a b c : string) : (a ++ b) ++ c = a ++ b ++ c.
Proof. apply chars_inj. rewrite !chars_app. symmetry. apply app_assoc. Qed.

(** [str] is one to one. *)
Lemma str_inj i j : Py.str i = Py.str j → i = j.
Proof.
  unfold Py.str. intros H.
  apply (f_equal NilEmpty.uint_of_string) in H.
  rewrite !NilEmpty.usu in H. injection H as H.
  apply (f_equal Nat.of_uint) in H.
  by rewrite !DecimalNat.Unsigned.of_to in H.
Qed.

(** The last character of a string that is not empty and has no slash. *)
Lemma last_char_no_slash (name : string) :
  name ≠ "" → Py.contains "/" name = false →
  ∃ c r, rev (list_ascii_of_string name) = c :: r ∧ c ≠ "/"%char.
Proof.
  intros Hne Hns.
  destruct (rev (list_ascii_of_string name)) as [|c r] eqn:E.
  - apply (f_equal (@rev ascii)) in E. rewrite rev_involutive in E.
    simpl in E. destruct name; [done|discriminate E].
  - exists c, r. split; [done|]. intros ->.
    apply contains_chars in Hns. apply Hns.
    apply list_elem_of_In, in_rev. rewrite E. by left.
Qed.

Lemma rev_chars_join (d leaf : string) c r :
  rev (list_ascii_of_string leaf) = c :: r →
  rev (list_ascii_of_string (d ++ "/" ++ leaf))
  = c :: (r ++ "/"%char :: rev (list_ascii_of_string d))%list.
Proof.
  intros H. rewrite !chars_app, !rev_app_distr. simpl.
  rewrite <- !app_assoc. simpl. by rewrite H.
Qed.

(** [s.endswith("/")] looks at the last character. *)
Lemma substring_last (s : string) c r :
  rev (list_ascii_of_string s) = c :: r →
  substring (String.length s - 1) 1 s = String c "".
Proof.
  revert c r. induction s as [|a s IH]; intros c r H; [done|].
  destruct s as [|b s'].
  - simpl in H. by injection H as -> _.
  - simpl in H.
    destruct (rev (list_ascii_of_string s') ++ [b])%list as [|c' r'] eqn:E.
    { by destruct (rev (list_ascii_of_string s')). }
    simpl in H. injection H as -> _.
    replace (String.length (String a (String b s')) - 1)%nat
      with (S (String.length (String b s') - 1)) by (simpl; lia).
    change (substring (S (String.length (String b s') - 1)) 1
              (String a (String b s')))
      with (substring (String.length (String b s') - 1) 1 (String b s')).
    by apply (IH c r').
Qed.

Lemma endswith_slash_false (s : string) c r :
  rev (list_ascii_of_string s) = c :: r → c ≠ "/"%char →
  Py.endswith1 s "/" = false.
Proof.
  intros H Hc. unfold Py.endswith1. simpl String.length.
  rewrite (substring_last s c r H).
  apply andb_false_iff. right. apply String.eqb_neq. by intros [= ->].
Qed.

Lemma startswith_slash_false (leaf : string) :
  Py.contains "/" leaf = false → Py.startswith leaf "/" = false.
Proof.
  unfold Py.startswith. destruct leaf as [|a s]; [done|].
  intros H. simpl in H. apply orb_false_iff in H as [H _].
  apply Ascii.eqb_neq in H. cbn [String.prefix].
  destruct (ascii_dec "/" a) as [<-|]; [done|done].
Qed.

(** [os.path.join(d, leaf)] puts one slash between the two. *)
Lemma path_join_plain (d leaf : string) c r :
  rev (list_ascii_of_string d) = c :: r → c ≠ "/"%char →
  Py.contains "/" leaf = false →
  Py.path_join d leaf = d ++ "/" ++ leaf.
Proof.
  intros Hd Hc Hleaf. unfold Py.path_join.
  rewrite (startswith_slash_false _ Hleaf).
  rewrite (endswith_slash_false _ _ _ Hd Hc).
  destruct d; [done|done].
Qed.

Lemma prefix_app_same (a t b : string) :
  String.prefix (a ++ t) (a ++ b) = String.prefix t b.
Proof.
  induction a as [|c a IH]; [done|].
  rewrite !string_app_cons. cbn [String.prefix].
  destruct (ascii_dec c c); [done|done].
Qed.

Lemma startswith_below (d leaf : string) :
  Py.startswith (d ++ "/" ++ leaf) (d ++ "/") = true.
Proof.
  unfold Py.startswith. rewrite <- (string_app_nil_r (d ++ "/")) at 1.
  rewrite string_app_assoc. rewrite prefix_app_same.
  rewrite !string_app_cons. cbn [String.prefix].
  destruct (ascii_dec "/" "/"); [|done]. by destruct leaf.
Qed.

Lemma startswith_self (d : string) : Py.startswith d (d ++ "/") = false.
Proof.
  unfold Py.startswith. rewrite <- (string_app_nil_r d) at 2.
  by rewrite prefix_app_same.
Qed.

Lemma contains_app c (a b : string) :
  Py.contains c (a ++ b) = Py.contains c a || Py.contains c b.
Proof.
  induction a as [|x a IH]; [done|].
  rewrite string_app_cons. simpl. by rewrite IH, orb_assoc.
Qed.

Lemma string_length_app (a b : string) :
  String.length (a ++ b) = (String.length a + String.length b)%nat.
Proof.
  induction a as [|x a IH]; [done|].
  rewrite string_app_cons. simpl. by rewrite IH.
Qed.

Lemma uint_no_slash (d : Decimal.uint) :
  Py.contains "/" (NilEmpty.string_of_uint d) = false.
Proof. induction d; simpl; done. Qed.

(** A decimal numeral has no slash. *)
Lemma str_no_slash n : Py.contains "/" (Py.str n) = false.
Proof. apply uint_no_slash. Qed.

End paths.

Section folders.
Import Student_Manage Samples.
Variable b64decode : string → option string.

Lemma students_dir_last :
  rev (list_ascii_of_string STUDENTS_DIR)
  = "s"%char :: rev (list_ascii_of_string "Smart Attendance System/Image").
Proof. reflexivity. Qed.

(** The folder of a plain name: the students directory, a slash, the name. *)
Lemma folder_plain (name : string) :
  Py.contains "/" name = false →
  Py.path_join STUDENTS_DIR name = STUDENTS_DIR ++ "/" ++ name.
Proof.
  intros Hns. by apply (path_join_plain _ _ _ _ students_dir_last).
Qed.

Lemma folder_last (name : string) :
  name ≠ "" → Py.contains "/" name = false →
  ∃ c r, rev (list_ascii_of_string (STUDENTS_DIR ++ "/" ++ name)) = c :: r
         ∧ c ≠ "/"%char.
Proof.
  intros Hne Hns.
  destruct (last_char_no_slash name Hne Hns) as (c & r & Hr & Hc).
  eexists c, _. split; [|done]. by apply rev_chars_join.
Qed.

Lemma below_ne (d leaf : string) : d ++ "/" ++ leaf ≠ d.
Proof.
  intros E. apply (f_equal String.length) in E.
  rewrite string_length_app in E. rewrite string_app_cons in E.
  simpl in E. lia.
Qed.

(** The ancestors of a student folder. *)
Lemma ancestors_folder (name : string) :
  name ≠ "" → Py.contains "/" name = false →
  ancestors (STUDENTS_DIR ++ "/" ++ name)
  = ["Smart Attendance System"; STUDENTS_DIR; STUDENTS_DIR ++ "/" ++ name].
Proof.
  intros Hne Hns. unfold ancestors.
  rewrite string_length_app.
  change (String.length STUDENTS_DIR) with 30%nat.
  change (S (30 + String.length ("/" ++ name)))
    with (S (S (S (S (27 + String.length ("/" ++ name)))))).
  set (m := (27 + String.length ("/" ++ name))%nat).
  set (p := STUDENTS_DIR ++ "/" ++ name).
  assert (Hd : Py.dirname p = STUDENTS_DIR).
  { by apply (dirname_join _ _ _ _ students_dir_last). }
  assert (Ht : Py.truthy p = true) by reflexivity.
  change (ancestors_from (S (S (S (S m)))) p)
    with (if negb (Py.truthy p) then []
          else if String.eqb (Py.dirname p) p then [p]
          else (ancestors_from (S (S (S m))) (Py.dirname p) ++ [p])%list).
  rewrite Ht, Hd. cbn [negb].
  destruct (String.eqb_spec STUDENTS_DIR p) as [E|_].
  { symmetry in E. by apply below_ne in E. }
  reflexivity.
Qed.

(** [os.makedirs] of a student folder that does not exist, under the
    existing base directories, creates just the folder. *)
Lemma makedirs_folder (name : string) (f : fs) :
  name ≠ "" → Py.contains "/" name = false →
  f !! "Smart Attendance System" = Some Dir →
  f !! STUDENTS_DIR = Some Dir →
  f !! (STUDENTS_DIR ++ "/" ++ name) = None →
  makedirs (STUDENTS_DIR ++ "/" ++ name) f
  = inr (<[STUDENTS_DIR ++ "/" ++ name := Dir]> f).
Proof.
  intros Hne Hns H1 H2 H3. unfold makedirs, path_exists.
  rewrite H3, (ancestors_folder name Hne Hns).
  cbn [existsb foldl]. rewrite H1, H2, H3. cbn [orb].
  by rewrite (insert_id f _ _ H1), (insert_id f _ _ H2).
Qed.

(** Writing a file into an existing directory. *)
Lemma write_file_below (d leaf content : string) (f : fs) c r :
  rev (list_ascii_of_string d) = c :: r → c ≠ "/"%char →
  Py.contains "/" leaf = false →
  f !! d = Some Dir →
  f !! (d ++ "/" ++ leaf) ≠ Some Dir →
  write_file (d ++ "/" ++ leaf) content f
  = inr (<[d ++ "/" ++ leaf := File content]> f).
Proof.
  intros Hd Hc Hleaf Hdir Hp. unfold write_file.
  rewrite (dirname_join _ _ _ _ Hd Hc Hleaf), Hdir.
  assert (Py.truthy d = true) as ->.
  { destruct d; [done|done]. }
  cbn [negb].
  destruct (f !! (d ++ "/" ++ leaf)) as [[|x]|]; done.
Qed.

Lemma image_leaf_no_slash (name : string) n :
  Py.contains "/" name = false →
  Py.contains "/" (name ++ "_" ++ Py.str n ++ ".jpg") = false.
Proof.
  intros H. rewrite !contains_app, H, str_no_slash. reflexivity.
Qed.

Lemma image_file_inj (d name : string) i j :
  d ++ "/" ++ name ++ "_" ++ Py.str i ++ ".jpg"
  = d ++ "/" ++ name ++ "_" ++ Py.str j ++ ".jpg" → i = j.
Proof.
  intros E. do 4 apply string_app_inv_head in E.
  apply string_app_inv_tail in E. by apply str_inj.
Qed.

(** The loop over images that all decode: it goes through, writes image
    [i] to the file numbered [idx + i + 1] of the folder, and touches no
    other path. *)
Lemma save_images_good (name folder : string) c r (good : list string) :
  rev (list_ascii_of_string folder) = c :: r → c ≠ "/"%char →
  Py.contains "/" name = false →
  Forall (λ img, is_Some (b64decode (payload img))) good →
  ∀ idx saved (f : fs),
    f !! folder = Some Dir →
    (∀ p, Py.startswith p (folder ++ "/") = true → f !! p ≠ Some Dir) →
    ∃ f' : fs,
      (∀ rest,
         save_images b64decode name folder (good ++ rest) idx saved f
         = save_images b64decode name folder rest
             (idx + length good) (saved + length good) f')
      ∧ (∀ p, Py.startswith p (folder ++ "/") = false → f' !! p = f !! p)
      ∧ (∀ p, Py.startswith p (folder ++ "/") = true → f' !! p ≠ Some Dir)
      ∧ (∀ i img, good !! i = Some img →
           f' !! (folder ++ "/" ++ name ++ "_" ++ Py.str (idx + i + 1) ++ ".jpg")
           = File <$> b64decode (payload img))
      ∧ (∀ p, (∀ i, (i < length good)%nat →
                 p ≠ folder ++ "/" ++ name ++ "_" ++ Py.str (idx + i + 1)
                     ++ ".jpg") →
           f' !! p = f !! p).
Proof.
  intros Hd Hc Hns Hgood. induction Hgood as [|img good [bytes Hb] _ IH];
    intros idx saved f Hdir Hbelow.
  - exists f. split; [|done]. intros rest. simpl.
    by rewrite !Nat.add_0_r.
  - set (file := folder ++ "/" ++ name ++ "_" ++ Py.str (idx + 1) ++ ".jpg").
    assert (Hleaf := image_leaf_no_slash name (idx + 1) Hns).
    assert (Hfile : Py.startswith file (folder ++ "/") = true)
      by apply startswith_below.
    assert (Hne : file ≠ folder) by apply below_ne.
    destruct (IH (S idx) (S saved) (<[file := File bytes]> f))
      as (f' & Hrun & Hout & Hin & Hfiles & Hother).
    { by rewrite lookup_insert_ne. }
    { intros p Hp. destruct (decide (p = file)) as [->|Hpf].
      - by rewrite lookup_insert_eq.
      - rewrite lookup_insert_ne by done. by apply Hbelow. }
    exists f'. split; [|split; [|split; [|split]]].
    + intros rest. cbn [app save_images]. rewrite Hb.
      rewrite (path_join_plain _ _ _ _ Hd Hc Hleaf).
      rewrite (write_file_below _ _ _ _ _ _ Hd Hc Hleaf Hdir)
        by (by apply Hbelow).
      rewrite Hrun. cbn [length]. f_equal; lia.
    + intros p Hp. rewrite (Hout p Hp). apply lookup_insert_ne.
      intros <-. by rewrite Hfile in Hp.
    + done.
    + intros [|i] img' Hi.
      * injection Hi as <-. rewrite Nat.add_0_r, Hb. cbn [fmap option_fmap option_map].
        rewrite Hother; [apply lookup_insert_eq|].
        intros i _ E. apply image_file_inj in E. lia.
      * replace (idx + S i + 1)%nat with (S idx + i + 1)%nat by lia.
        by apply Hfiles.
    + intros p Hp. rewrite Hother.
      * apply lookup_insert_ne. intros <-. apply (Hp 0%nat); [simpl; lia|].
        by rewrite Nat.add_0_r.
      * intros i Hi. replace (S idx + i + 1)%nat with (idx + S i + 1)%nat by lia.
        apply Hp. simpl. lia.
Qed.

(** When the folder is there, [add_student_from_api] refuses. *)
Lemma add_refused_when_folder_exists student_name images (f : fs) :
  is_Some (f !! STUDENTS_DIR) →
  is_Some (f !! student_folder_of student_name) →
  add_student_from_api b64decode student_name images f
  = (Returned
       (JError ("Student '" ++ normalize student_name
                ++ "' already exists! Delete it first to recapture."))
       400, f).
Proof.
  intros H1 H2. apply path_exists_true in H1, H2.
  unfold student_folder_of in H2.
  unfold add_student_from_api. rewrite H1. cbn [negb]. by rewrite H2.
Qed.

(** Images split into those that decode, up to the first that does not. *)
Lemma split_at_first_bad (images : list string) :
  ∃ good rest,
    images = (good ++ rest)%list
    ∧ Forall (λ img, is_Some (b64decode (payload img))) good
    ∧ (rest = [] ∨ ∃ bad more, rest = bad :: more
                              ∧ b64decode (payload bad) = None).
Proof.
  induction images as [|img images (good & rest & -> & Hgood & Hrest)].
  - exists [], []. split; [done|]. split; [constructor|by left].
  - destruct (b64decode (payload img)) as [bytes|] eqn:E.
    + exists (img :: good), rest. split; [done|]. split; [|done].
      constructor; [by rewrite E|done].
    + exists [], (img :: good ++ rest)%list. split; [done|].
      split; [constructor|]. right. by eexists _, _.
Qed.

(** A new student with a plain name: the call creates the folder, saves
    the images that decode, and goes on with the rest. *)
Lemma add_new_student_run student_name good (f : fs) :
  normalize student_name ≠ "" →
  Py.contains "/" (normalize student_name) = false →
  f !! "Smart Attendance System" = Some Dir →
  f !! STUDENTS_DIR = Some Dir →
  f !! student_folder_of student_name = None →
  (∀ p, Py.startswith p (student_folder_of student_name ++ "/") = true →
        f !! p = None) →
  Forall (λ img, is_Some (b64decode (payload img))) good →
  ∃ f' : fs,
    (∀ rest,
       add_student_from_api b64decode student_name (good ++ rest) f
       = save_images b64decode (normalize student_name)
           (student_folder_of student_name) rest (length good) (length good) f')
    ∧ f' !! student_folder_of student_name = Some Dir
    ∧ (∀ i img, good !! i = Some img →
         f' !! (student_folder_of student_name ++ "/" ++ normalize student_name
                ++ "_" ++ Py.str (i + 1) ++ ".jpg")
         = File <$> b64decode (payload img))
    ∧ (∀ p, p ≠ student_folder_of student_name →
         (∀ i, (i < length good)%nat →
            p ≠ student_folder_of student_name ++ "/" ++ normalize student_name
                ++ "_" ++ Py.str (i + 1) ++ ".jpg") →
         f' !! p = f !! p)
    ∧ (∀ p, p ≠ student_folder_of student_name →
         Py.startswith p (student_folder_of student_name ++ "/") = false →
         f' !! p = f !! p).
Proof.
  unfold student_folder_of. set (name := normalize student_name).
  intros Hne Hns H1 H2. rewrite (folder_plain name Hns).
  set (folder := STUDENTS_DIR ++ "/" ++ name). intros H3 H4 Hgood.
  destruct (folder_last name Hne Hns) as (c & r & Hd & Hc).
  destruct (save_images_good name folder c r good Hd Hc Hns Hgood 0 0
              (<[folder := Dir]> f))
    as (f' & Hrun & Hout & _ & Hfiles & Hother).
  { apply lookup_insert_eq. }
  { intros p Hp. rewrite lookup_insert_ne.
    - by rewrite (H4 p Hp).
    - intros <-. unfold folder in Hp. by rewrite startswith_self in Hp. }
  exists f'. split; [|split; [|split; [|split]]].
  - intros rest. unfold add_student_from_api. fold name.
    rewrite (folder_plain name Hns). fold folder.
    unfold path_exists at 1. rewrite H2. cbn [negb].
    unfold path_exists. rewrite H3.
    unfold folder at 1. rewrite (makedirs_folder name f Hne Hns H1 H2 H3).
    fold folder. apply Hrun.
  - rewrite Hout by apply startswith_self. apply lookup_insert_eq.
  - intros i img Hi. apply (Hfiles i img Hi).
  - intros p Hp Hi. rewrite Hother by apply Hi. by apply lookup_insert_ne.
  - intros p Hp Hb. rewrite (Hout p Hb). by apply lookup_insert_ne.
Qed.




End folders.

Section names.
Import Student_Manage Samples.

Lemma replace_space_twice (s : string) :
  Py.replace_char " " "_" (Py.replace_char " " "_" s)
  = Py.replace_char " " "_" s.
Proof.
  induction s as [|c s IH]; simpl; [done|]. rewrite IH. f_equal.
  destruct (Ascii.eqb_spec c " ") as [->|Hc]; [done|].
  by apply Ascii.eqb_neq in Hc as ->.
Qed.

Lemma lstrip_length (s : string) :
  (String.length (Py.lstrip s) ≤ String.length s)%nat.
Proof.
  induction s as [|c s IH]; simpl; [done|].
  destruct (Py.isspace c); simpl; lia.
Qed.

(** A string is stripped when [lstrip] and [rstrip] leave it alone. *)
Lemma lstrip_fixed (c : ascii) (s : string) :
  Py.lstrip (String c s) = String c s ↔ Py.isspace c = false.
Proof.
  simpl. destruct (Py.isspace c); [|done]. split; [|done].
  intros E. pose proof (lstrip_length s) as H. rewrite E in H. simpl in H. lia.
Qed.

Lemma rstrip_twice (s : string) : Py.rstrip (Py.rstrip s) = Py.rstrip s.
Proof.
  induction s as [|c s IH]; [done|]. simpl.
  destruct (Py.rstrip s) as [|d r] eqn:E.
  - destruct (Py.isspace c) eqn:Ec; [done|]. simpl. by rewrite Ec.
  - change (Py.rstrip (String c (String d r)))
      with (match Py.rstrip (String d r) with
            | "" => if Py.isspace c then "" else String c ""
            | r' => String c r'
            end).
    by rewrite IH.
Qed.

Lemma rstrip_head (c : ascii) (s : string) :
  Py.isspace c = false → ∃ r, Py.rstrip (String c s) = String c r.
Proof.
  intros Hc. simpl. destruct (Py.rstrip s) as [|d r].
  - rewrite Hc. by eexists.
  - by eexists.
Qed.

Lemma strip_lstrip (s : string) : Py.lstrip (Py.strip s) = Py.strip s.
Proof.
  unfold Py.strip.
  assert (H : Py.lstrip s = "" ∨ ∃ c r, Py.lstrip s = String c r
                                        ∧ Py.isspace c = false).
  { induction s as [|c s IH]; [by left|]. simpl.
    destruct (Py.isspace c) eqn:Ec; [done|]. right. by eexists _, _. }
  destruct H as [->|(c & r & -> & Hc)]; [done|].
  destruct (rstrip_head c r Hc) as [r' ->]. by apply lstrip_fixed.
Qed.

Lemma strip_rstrip (s : string) : Py.rstrip (Py.strip s) = Py.strip s.
Proof. apply rstrip_twice. Qed.

Lemma replace_keeps_lstrip (s : string) :
  Py.lstrip s = s → Py.lstrip (Py.replace_char " " "_" s)
                    = Py.replace_char " " "_" s.
Proof.
  destruct s as [|c s]; [done|]. intros H. apply lstrip_fixed in H.
  cbn [Py.replace_char]. apply lstrip_fixed.
  destruct (Ascii.eqb_spec c " ") as [->|_]; [done|done].
Qed.

Lemma replace_keeps_rstrip (s : string) :
  Py.rstrip s = s → Py.rstrip (Py.replace_char " " "_" s)
                    = Py.replace_char " " "_" s.
Proof.
  induction s as [|c s IH]; [done|]. cbn [Py.rstrip Py.replace_char].
  destruct (Py.rstrip s) as [|d r] eqn:E.
  - destruct (Py.isspace c) eqn:Ec; [done|]. intros [= <-]. simpl.
    destruct (Ascii.eqb_spec c " ") as [->|_]; [done|]. by rewrite Ec.
  - intros [= <-]. rewrite IH by done. cbn [Py.replace_char]. done.
Qed.

(** The normal form of a name is its own normal form. *)
Lemma normalize_twice (s : string) : normalize (normalize s) = normalize s.
Proof.
  unfold normalize.
  assert (Py.strip (Py.replace_char " " "_" (Py.strip s))
          = Py.replace_char " " "_" (Py.strip s)) as ->.
  { unfold Py.strip at 1.
    rewrite (replace_keeps_lstrip _ (strip_lstrip s)).
    apply replace_keeps_rstrip, strip_rstrip. }
  apply replace_space_twice.
Qed.

(** X20: the name that the answers report (the normalised one) addresses
    the same folder as the input name: normalising is idempotent, and both
    functions behave on the reported name as on the input name. *)
Theorem reported_name_addresses_same_folder b64decode student_name images
    (f : fs) :
  normalize (normalize student_name) = normalize student_name
  ∧ student_folder_of (normalize student_name) = student_folder_of student_name
  ∧ remove_student (normalize student_name) f = remove_student student_name f
  ∧ add_student_from_api b64decode (normalize student_name) images f
    = add_student_from_api b64decode student_name images f.
Proof.
  pose proof (normalize_twice student_name) as E.
  split; [done|]. split; [unfold student_folder_of; by rewrite E|].
  unfold remove_student, add_student_from_api. by rewrite E.
Qed.

Lemma split_nonempty c (s : string) : Py.split c s ≠ [].
Proof.
  induction s as [|d s IH]; simpl; [done|].
  destruct (Ascii.eqb d c); [done|]. by destruct (Py.split c s).
Qed.

Lemma split_no_separator c (s : string) :
  Py.contains c s = false → Py.split c s = [s].
Proof.
  induction s as [|d s IH]; simpl; [done|]. intros H.
  apply orb_false_iff in H as [-> H]. by rewrite (IH H).
Qed.

Lemma split_first c (a b : string) :
  Py.contains c a = false →
  Py.split c (a ++ String c b) = a :: Py.split c b.
Proof.
  induction a as [|d a IH]; intros H.
  - change ("" ++ String c b) with (String c b). simpl.
    by rewrite Ascii.eqb_refl.
  - simpl in H. apply orb_false_iff in H as [Hd H].
    change (String d a ++ String c b) with (String d (a ++ String c b)).
    simpl. by rewrite Hd, (IH H).
Qed.

(** X21: of an image string with a comma, the code keeps what stands
    between the first and the second comma: the data of a data URL, and
    nothing of what follows a further comma; a string without a comma is
    taken whole. *)
Theorem payload_is_second_piece (prefix data : string) :
  Py.contains "," prefix = false → Py.contains "," data = false →
  payload (prefix ++ "," ++ data) = data
  ∧ (∀ more, payload (prefix ++ "," ++ data ++ "," ++ more) = data)
  ∧ payload data = data.
Proof.
  intros Hp Hd.
  assert (Hc : ∀ rest, Py.contains "," (prefix ++ "," ++ rest) = true).
  { intros rest. rewrite contains_app. apply orb_true_iff. by right. }
  split; [|split].
  - unfold payload. rewrite Hc.
    change ("," ++ data) with (String "," data).
    by rewrite (split_first _ _ _ Hp), (split_no_separator _ _ Hd).
  - intros more. unfold payload. rewrite Hc.
    change ("," ++ data ++ "," ++ more) with (String "," (data ++ String "," more)).
    by rewrite (split_first _ _ _ Hp), (split_first _ _ _ Hd).
  - unfold payload. by rewrite Hd.
Qed.

End names.

Section folders_examples.
Import Student_Manage Samples.




Lemma payload_is_second_piece_witness :
  payload "data:image/jpeg;base64,AAAA" = "AAAA"
  ∧ payload "data:image/jpeg;base64,AAAA,BBBB" = "AAAA".
Proof.
  destruct (payload_is_second_piece "data:image/jpeg;base64" "AAAA"
              eq_refl eq_refl) as (H1 & H2 & _).
  split; [exact H1|exact (H2 "BBBB")].
Defined.

End folders_examples.

(* ===================================================================== *)
(** ** Recognising the faces of an image (main.py, app.py) *)
(* ===================================================================== *)

Section recognition.
Import Run Main Recognition Samples.
Context {frame face embedding : Type}.
Variable cosine_similarity : embedding → embedding → Q.
Variable imread : string → option frame.
Variable detect : frame → option (list face).
Variable represent : frame → face → option embedding.
Variable round3 : Q → Q.
Variable b64decode : string → option string.

Abbreviation recognize_faces_from_image :=
  (recognize_faces_from_image cosine_similarity imread detect represent round3).
Abbreviation recognize_image_route :=
  (recognize_image_route cosine_similarity imread detect represent round3
     b64decode).
Abbreviation request_image := (request_image (face:=face) b64decode).
Abbreviation recognize_face :=
  (recognize_face cosine_similarity represent round3).

(** The name a face is given, when its embedding can be computed. *)
Lemma names_of_results db (fr : frame) (faces : list face) :
  names_of (map (recognize_face db fr) faces)
  = omap (λ f, (λ e, fst (find_match cosine_similarity e db))
                 <$> represent fr f) faces.
Proof.
  unfold names_of, omap. induction faces as [|f faces IH]; [done|].
  simpl. rewrite IH. unfold recognize_face.
  destruct (represent fr f) as [e|]; [|done]. simpl.
  by destruct (find_match cosine_similarity e db).
Qed.

Lemma occurrences_omap {A} (g : A → option string) n (l : list A) :
  occurrences n (omap g l)
  = Z.of_nat (length (filter (λ x, g x = Some n) l)).
Proof.
  unfold omap. induction l as [|x l IH]; [done|]. cbn [list_omap].
  destruct (g x) as [m|] eqn:E.
  - cbn [occurrences]. rewrite IH.
    destruct (decide (m = n)) as [->|Hne].
    + rewrite filter_cons_True by done. cbn [length]. lia.
    + rewrite filter_cons_False; [lia|]. rewrite E. by intros [= ?].
  - rewrite filter_cons_False by (by rewrite E). done.
Qed.

(** The counters after a record call on an active session. *)
Lemma record_counters st k names :
  reachable st → active (sessions_by_class st !! k) = true →
  let st' := snd (record_recognition_results_for_class names k st) in
  sessions_by_class st' = sessions_by_class st
  ∧ counters st' k = record_names (counters st k) names
  ∧ (∀ k', k' ≠ k → counters st' k' = counters st k').
Proof.
  intros Hr Ha. pose proof (reachable_wf _ Hr) as Hwf.
  pose proof (active_key_truthy _ _ Hwf Ha) as Hk.
  destruct (sessions_by_class st !! k) as [sess|] eqn:Hs; [|done].
  simpl in Ha. rewrite (record_active st k sess names Hk Hs Ha). simpl.
  split; [done|]. split.
  - unfold counters, deref. simpl. rewrite Hs. simpl.
    by rewrite lookup_insert_eq.
  - intros k' Hne. unfold counters. simpl.
    destruct (sessions_by_class st !! k') as [s'|] eqn:Hs'; [|done].
    unfold deref. rewrite lookup_insert_ne; [done|].
    intros E. apply Hne. symmetry. by apply (wf_sep _ Hwf _ _ _ _ Hs Hs').
Qed.

(** A record call without an active session changes nothing. *)
Lemma record_inactive st k names :
  active (sessions_by_class st !! k) = false →
  snd (record_recognition_results_for_class names k st) = st.
Proof.
  intros Ha. unfold record_recognition_results_for_class.
  destruct (Py.truthy k); [|done]. cbn [negb].
  destruct (sessions_by_class st !! k) as [sess|]; [|done].
  simpl in Ha. by rewrite Ha.
Qed.

(** The route, once the image is there and has been read. *)
Lemma route_on_frame db req st img_bytes (fr : frame) :
  request_image req = inr img_bytes →
  imread img_bytes = Some fr →
  recognize_image_route (Some db) req st
  = let results := map (recognize_face db fr) (default [] (detect fr)) in
    match names_of results with
    | [] => ((RFaces (length results) results, 200), st)
    | names =>
        if negb (Py.truthy_opt (request_class_id req)) then
          ((RError "classId is required while a session is active", 400), st)
        else
          ((RFaces (length results) results, 200),
           snd (record_recognition_results_for_class names
                  (default "" (request_class_id req)) st))
    end.
Proof.
  intros Himg Hfr. unfold recognize_image_route. rewrite Himg.
  unfold recognize_faces_from_image. rewrite Hfr.
  cbn [parse_recognize_response].
  assert (E : match detect fr with
              | Some faces => map (recognize_face db fr) faces
              | None => []
              end = map (recognize_face db fr) (default [] (detect fr))).
  { by destruct (detect fr). }
  rewrite E. clear E. cbn zeta.
  destruct (map (recognize_face db fr) (default [] (detect fr)))
    as [|r rs] eqn:E; [done|].
  reflexivity.
Qed.

(** What [find_match] reports about a face. *)
Lemma find_match_named (q : embedding) db :
  (0 <= snd (find_match cosine_similarity q db))%Q
  ∧ (fst (find_match cosine_similarity q db) ≠ "Unknown" →
     fst (find_match cosine_similarity q db) ∈ map fst db
     ∧ (SIMILARITY_THRESHOLD <= snd (find_match cosine_similarity q db))%Q).
Proof.
  destruct (foldl_keep_better_bound (samples cosine_similarity q db)
              ("Unknown", 0%Q)) as (H0 & _ & Hin).
  split; [by rewrite find_match_score|].
  unfold find_match. rewrite scan_samples.
  destruct (ge (snd (foldl keep_better ("Unknown", 0%Q)
                       (samples cosine_similarity q db)))
              SIMILARITY_THRESHOLD) eqn:G; simpl; [|done].
  intros Hne. split; [|by apply ge_true].
  destruct Hin as [E|[j Hj]]; [by rewrite E in Hne|].
  destruct (foldl keep_better _ _) as [p s]. simpl.
  by apply (sample_identity cosine_similarity q db j p s).
Qed.

(** X22: for an image that can be read, [recognize_faces_from_image]
    answers with one result per detected face, in the order of detection: a
    face whose embedding fails gives an error entry and does not end the
    loop; any other face gives its bounding box, a name and the rounded
    score, where the score is not negative and a name other than "Unknown"
    is an identity of the store with a score of at least the threshold. *)
Theorem recognition_reports_each_face db image (fr : frame) :
  imread image = Some fr →
  ∃ results,
    recognize_faces_from_image (Some db) image = Some (Faces results)
    ∧ length results = length (default [] (detect fr))
    ∧ (∀ i f, default [] (detect fr) !! i = Some f →
         match represent fr f with
         | None => results !! i = Some Failed
         | Some e =>
             ∃ name score,
               results !! i = Some (Named name (round3 score) f)
               ∧ (0 <= score)%Q
               ∧ (name ≠ "Unknown" →
                  name ∈ map fst db ∧ (SIMILARITY_THRESHOLD <= score)%Q)
         end).
Proof.
  intros Hfr. exists (map (recognize_face db fr) (default [] (detect fr))).
  split; [|split].
  - unfold recognize_faces_from_image. rewrite Hfr. by destruct (detect fr).
  - apply length_map.
  - intros i f Hi.
    change (map (recognize_face db fr) (default [] (detect fr)))
      with (recognize_face db fr <$> default [] (detect fr)).
    rewrite list_lookup_fmap, Hi. simpl. unfold recognize_face.
    destruct (represent fr f) as [e|]; [|done].
    pose proof (find_match_named e db) as [H0 Hn].
    destruct (find_match cosine_similarity e db) as [name score].
    by exists name, score.
Qed.

(** X23: a request with an image and the class id of an active session:
    the route answers 200 with one result per detected face and adds to the
    counter of every name other than "Unknown" the number of faces of the
    image that were matched to that name.  Faces without an embedding and
    faces below the threshold add nothing, and neither the sessions nor the
    counters of the other classes change. *)
Theorem route_records_matched_faces db req st img_bytes (fr : frame) k :
  reachable st → active (sessions_by_class st !! k) = true →
  request_class_id req = Some k →
  request_image req = inr img_bytes →
  imread img_bytes = Some fr →
  let faces := default [] (detect fr) in
  let st' := snd (recognize_image_route (Some db) req st) in
  fst (recognize_image_route (Some db) req st)
  = (RFaces (length faces) (map (recognize_face db fr) faces), 200)
  ∧ sessions_by_class st' = sessions_by_class st
  ∧ (∀ n, count (counters st' k) n
          = count (counters st k) n
            + (if decide (n = "Unknown") then 0
               else Z.of_nat
                      (length
                         (filter
                            (λ f, (λ e, fst (find_match cosine_similarity e db))
                                    <$> represent fr f = Some n) faces))))
  ∧ (∀ k', k' ≠ k → counters st' k' = counters st k').
Proof.
  intros Hr Ha Hk Himg Hfr faces st'. subst st'.
  pose proof (active_key_truthy _ _ (reachable_wf _ Hr) Ha) as Hkt.
  rewrite (route_on_frame db req st img_bytes fr Himg Hfr). cbn zeta.
  fold faces. rewrite Hk. change (default "" (Some k)) with k.
  cbn [Py.truthy_opt]. rewrite Hkt. cbn [negb].
  pose proof (names_of_results db fr faces) as Hnames.
  pose proof (record_counters st k (names_of (map (recognize_face db fr) faces))
                Hr Ha) as (Hs & Hc & Ho).
  destruct (names_of (map (recognize_face db fr) faces)) as [|name names] eqn:E.
  - cbn [fst snd]. rewrite length_map.
    split; [done|]. split; [done|]. split; [|done].
    intros n. case_decide; [lia|].
    rewrite <- occurrences_omap, <- Hnames. simpl. lia.
  - cbn [fst snd]. rewrite length_map. split; [done|]. split; [done|].
    split; [|done].
    intros n. rewrite Hc, count_record_names.
    by rewrite Hnames, occurrences_omap.
Qed.

(** X24: when at least one face of the image gets a name (be it
    "Unknown") and the request carries no class id, neither in the JSON
    object nor in the query string, the route answers 400 "classId is
    required while a session is active" and changes nothing, whether or not
    any session is active; when no face gets a name, it answers 200 with
    the results without asking for a class id. *)
Theorem route_requires_class_id db req st img_bytes (fr : frame) :
  Py.truthy_opt (request_class_id req) = false →
  request_image req = inr img_bytes →
  imread img_bytes = Some fr →
  let faces := default [] (detect fr) in
  ((∃ f, f ∈ faces ∧ is_Some (represent fr f)) →
   recognize_image_route (Some db) req st
   = ((RError "classId is required while a session is active", 400), st))
  ∧ ((∀ f, f ∈ faces → represent fr f = None) →
     recognize_image_route (Some db) req st
     = ((RFaces (length faces) (map (λ _, Failed) faces), 200), st)).
Proof.
  intros Hc Himg Hfr faces.
  rewrite (route_on_frame db req st img_bytes fr Himg Hfr). cbn zeta.
  fold faces. rewrite Hc. cbn [negb]. rewrite names_of_results. split.
  - intros (f & Hf & [e He]).
    destruct (omap _ faces) as [|name names] eqn:E; [|done].
    exfalso. apply (f_equal length) in E. simpl in E.
    assert (Hin : fst (find_match cosine_similarity e db)
                  ∈ omap (λ f, (λ e, fst (find_match cosine_similarity e db))
                                 <$> represent fr f) faces).
    { apply list_elem_of_omap. exists f. split; [done|]. by rewrite He. }
    destruct (omap _ faces); [by apply elem_of_nil in Hin|done].
  - intros Hnone.
    assert (Hmap : map (recognize_face db fr) faces = map (λ _, Failed) faces).
    { apply map_ext_in. intros f Hf. unfold recognize_face.
      by rewrite (Hnone f) by (by apply list_elem_of_In). }
    rewrite Hmap.
    assert (omap (λ f, (λ e, fst (find_match cosine_similarity e db))
                         <$> represent fr f) faces = []) as ->;
      [|by rewrite length_map].
    clear Hmap. induction faces as [|f l IH]; [done|].
    unfold omap in *. cbn [list_omap]. rewrite (Hnone f) by (by left).
    simpl. apply IH. intros g Hg. apply Hnone. by right.
Qed.

(** X25: whatever the request, the route answers with status 200, 400 or
    500; it never adds, removes, starts or stops a session; it changes
    nothing unless it answers 200; from a reachable registry it touches no
    counters but those of the class id of the request, and with a class id
    whose session is not active it changes nothing at all. *)
Theorem route_only_counts load_embeddings req st :
  let code := snd (fst (recognize_image_route load_embeddings req st)) in
  let st' := snd (recognize_image_route load_embeddings req st) in
  (code = 200 ∨ code = 400 ∨ code = 500)
  ∧ sessions_by_class st' = sessions_by_class st
  ∧ (code ≠ 200 → st' = st)
  ∧ (active (sessions_by_class st !! default "" (request_class_id req))
     = false → st' = st)
  ∧ (reachable st →
     reachable st'
     ∧ ∀ k, k ≠ default "" (request_class_id req) →
            counters st' k = counters st k).
Proof.
  cbn zeta. unfold recognize_image_route.
  assert (Hsame : ∀ (a : answer (face:=face)) c,
    (c = 200 ∨ c = 400 ∨ c = 500)
    → (c = 200 ∨ c = 400 ∨ c = 500)
      ∧ sessions_by_class st = sessions_by_class st
      ∧ (c ≠ 200 → st = st)
      ∧ (active (sessions_by_class st
                   !! default "" (request_class_id req)) = false → st = st)
      ∧ (reachable st →
         reachable st
         ∧ ∀ k, k ≠ default "" (request_class_id req) →
                counters st k = counters st k)).
  { intros _ c Hc. by repeat split. }
  destruct (request_image req) as [[a c]|img_bytes] eqn:Himg.
  { cbn [fst snd]. apply (Hsame a).
    unfold request_image in Himg.
    destruct (body req) as [[[image cid]|]|[bytes|]]; try discriminate Himg.
    - destruct (negb (Py.truthy_opt image)).
      + injection Himg as <- <-. by right; left.
      + destruct (decode_base64_image b64decode (default "" image));
          [discriminate Himg|]. injection Himg as <- <-. by right; right.
    - injection Himg as <- <-. by right; right.
    - injection Himg as <- <-. by right; left. }
  destruct (recognize_faces_from_image load_embeddings img_bytes)
    as [[|results]|]; cbn [parse_recognize_response fst snd].
  - apply (Hsame (RError "")). by left.
  - destruct (0 <? length results)%nat; [|apply (Hsame (RError "")); by left].
    destruct (names_of results) as [|name names];
      [apply (Hsame (RError "")); by left|].
    destruct (negb (Py.truthy_opt (request_class_id req)));
      [apply (Hsame (RError "")); by right; left|].
    cbn [fst snd]. set (k := default "" (request_class_id req)).
    split; [by left|]. split.
    { unfold record_recognition_results_for_class.
      destruct (negb (Py.truthy k)); [done|].
      destruct (sessions_by_class st !! k) as [sess|]; [|done].
      by destruct (is_active sess). }
    split; [done|]. split; [apply record_inactive|].
    intros Hr.
    split; [apply (reachable_exec st (CRecord (name :: names) k) Hr)|].
    intros k' Hne.
    destruct (active (sessions_by_class st !! k)) eqn:Ha.
    + by apply (record_counters st k (name :: names) Hr Ha).
    + by rewrite record_inactive.
  - apply (Hsame (RError "")). by right; right.
Qed.

(** X26: an image that cannot be read: [recognize_faces_from_image]
    returns its error with status 400 as a tuple, which
    [parse_recognize_response] cannot parse, so the route answers with
    status 200 and the message of the failed parse, and changes nothing. *)
Theorem route_invalid_image db req st img_bytes :
  request_image req = inr img_bytes →
  imread img_bytes = None →
  recognize_faces_from_image (Some db) img_bytes = Some InvalidImage
  ∧ recognize_image_route (Some db) req st
    = ((RError "Failed to parse recognition response", 200), st).
Proof.
  intros Himg Hfr. unfold recognize_image_route, recognize_faces_from_image.
  by rewrite Himg, Hfr.
Qed.

End recognition.

Section recognition_examples.
Import Run Main Recognition Samples.

Lemma recognition_reports_each_face_witness :
  ∃ results,
    recognize_faces_from_image sample_similarity sample_frame sample_detect
      sample_face sample_round3 (Some sample_db) "image"
    = Some (Faces results)
    ∧ length results = 5%nat
    ∧ results !! 4%nat = Some Failed.
Proof.
  destruct (recognition_reports_each_face sample_similarity sample_frame
              sample_detect sample_face sample_round3 sample_db "image" 5%nat
              eq_refl) as (results & Hrun & Hlen & Hres).
  exists results. split; [exact Hrun|]. split; [exact Hlen|].
  exact (Hres 4%nat 9%nat eq_refl).
Defined.

Lemma route_records_matched_faces_witness :
  let r := recognize_image_route sample_similarity sample_frame sample_detect
             sample_face sample_round3 sample_b64decode (Some sample_db)
             (Request (Json (Some (Some "data:image/jpeg;base64,AAAA",
                                   Some "CS101"))) None)
             st_started in
  snd (fst r) = 200
  ∧ count (counters (snd r) "CS101") "alice"
    = count (counters st_started "CS101") "alice" + 2
  ∧ count (counters (snd r) "CS101") "Unknown"
    = count (counters st_started "CS101") "Unknown".
Proof.
  destruct (route_records_matched_faces sample_similarity sample_frame
              sample_detect sample_face sample_round3 sample_b64decode
              sample_db
              (Request (Json (Some (Some "data:image/jpeg;base64,AAAA",
                                    Some "CS101"))) None)
              st_started "AAAA" 4%nat "CS101"
              reachable_st_started eq_refl eq_refl eq_refl eq_refl)
    as (Hresp & _ & Hcount & _).
  split; [by rewrite Hresp|]. split.
  - rewrite (Hcount "alice"). reflexivity.
  - rewrite (Hcount "Unknown"). reflexivity.
Defined.

Lemma route_requires_class_id_witness :
  recognize_image_route sample_similarity sample_frame sample_detect
    sample_face sample_round3 sample_b64decode (Some sample_db)
    (Request (Form (Some "image")) None) init
  = ((RError "classId is required while a session is active", 400), init).
Proof.
  destruct (route_requires_class_id sample_similarity sample_frame
              sample_detect sample_face sample_round3 sample_b64decode
              sample_db (Request (Form (Some "image")) None) init "image"
              5%nat eq_refl eq_refl eq_refl) as [H _].
  apply H. exists 1%nat. split; [by left|by eexists].
Defined.

Lemma route_invalid_image_witness :
  recognize_image_route sample_similarity sample_frame sample_detect
    sample_face sample_round3 sample_b64decode (Some sample_db)
    (Request (Form (Some "")) (Some "CS101")) st_started
  = ((RError "Failed to parse recognition response", 200), st_started).
Proof.
  apply (route_invalid_image sample_similarity sample_frame sample_detect
           sample_face sample_round3 sample_b64decode sample_db
           (Request (Form (Some "")) (Some "CS101")) st_started ""
           eq_refl eq_refl).
Defined.

(** The faces of the sample image: two of "alice", one of "bob", one
    unknown and one without an embedding. *)
Example recognize_sample_image :
  recognize_faces_from_image sample_similarity sample_frame sample_detect
    sample_face sample_round3 (Some sample_db) "image"
  = Some (Faces [Named "alice" 1 1%nat; Named "Unknown" 0 7%nat;
                 Named "bob" 1 2%nat; Named "alice" 1 1%nat; Failed]).
Proof. reflexivity. Qed.

End recognition_examples.

(* ===================================================================== *)
(** ** The routes over the student folders (app.py) *)
(* ===================================================================== *)

Section student_routes.
Import Student_Manage StudentRoutes Samples.
Variable b64encode : string → string.
Variable b64decode : string → option string.

Abbreviation data_urls := (data_urls b64encode).
Abbreviation add_student_route := (add_student_route b64encode b64decode).

(** The data of a data URL. *)
Lemma payload_data_url (prefix data : string) :
  Py.contains "," prefix = false → Py.contains "," data = false →
  payload (prefix ++ "," ++ data) = data.
Proof.
  intros Hp Hd. unfold payload.
  assert (Py.contains "," (prefix ++ "," ++ data) = true) as ->.
  { rewrite contains_app. apply orb_true_iff. by right. }
  change ("," ++ data) with (String "," data).
  by rewrite (split_first _ _ _ Hp), (split_no_separator _ _ Hd).
Qed.

(** What the loop of [save_images] reports when it goes through. *)
Lemma save_images_added name folder images : ∀ idx saved (f f' : fs) n m fo c,
  save_images b64decode name folder images idx saved f
  = (Returned (JAdded n m fo) c, f') →
  n = name ∧ m = (saved + length images)%nat ∧ fo = folder ∧ c = 200.
Proof.
  induction images as [|img images IH]; intros idx saved f f' n m fo c H.
  - simpl in H. injection H as <- <- <- <- <-. simpl.
    by rewrite Nat.add_0_r.
  - cbn [save_images] in H.
    destruct (b64decode (payload img)) as [bytes|]; [|discriminate H].
    destruct (write_file _ bytes f) as [e|f1]; [discriminate H|].
    apply IH in H as (-> & -> & -> & ->). simpl.
    repeat split; lia.
Qed.

(** The data URLs of files that are not empty. *)
Lemma data_urls_nonempty (files : list file) :
  Forall (λ f, content f ≠ "") files →
  data_urls files
  = map (λ f, "data:"
              ++ (if Py.truthy (mimetype f) then mimetype f else "image/jpeg")
              ++ ";base64," ++ b64encode (content f)) files.
Proof.
  unfold StudentRoutes.data_urls.
  induction 1 as [|f files Hf _ IH]; [done|].
  cbn [flat_map map]. rewrite IH.
  apply truthy_true in Hf. by rewrite Hf.
Qed.

Lemma payload_of_url (f : file) :
  Py.contains "," (mimetype f) = false →
  Py.contains "," (b64encode (content f)) = false →
  payload ("data:"
           ++ (if Py.truthy (mimetype f) then mimetype f else "image/jpeg")
           ++ ";base64," ++ b64encode (content f))
  = b64encode (content f).
Proof.
  intros Hm He.
  set (mime := if Py.truthy (mimetype f) then mimetype f else "image/jpeg").
  assert (Hmime : Py.contains "," mime = false).
  { unfold mime. by destruct (Py.truthy (mimetype f)). }
  assert (E : "data:" ++ mime ++ ";base64," ++ b64encode (content f)
              = ("data:" ++ mime ++ ";base64") ++ ","
                ++ b64encode (content f)).
  { rewrite !string_app_assoc. reflexivity. }
  rewrite E. apply payload_data_url; [|done].
  by rewrite !contains_app, Hmime.
Qed.



(** X29: with a Firebase manager, the remove route answers 500 whatever
    [remove_student] did, because it asks the result, a [Response] or a
    tuple, for [get]; the folder of an existing student is removed all the
    same.  Without a manager the route passes on the answer of
    [remove_student]. *)
Theorem remove_route_with_firebase student_name (f : fs) :
  fst (remove_student_route student_name true f) = Failed500
  ∧ snd (remove_student_route student_name true f)
    = snd (remove_student student_name f)
  ∧ (f !! student_folder_of student_name = Some Dir →
     fst (remove_student student_name f)
     = Returned
         (JRemoved ("Student '" ++ normalize student_name
                    ++ "' removed successfully!")) 200
     ∧ path_exists (student_folder_of student_name)
         (snd (remove_student_route student_name true f)) = false)
  ∧ remove_student_route student_name false f
    = (of_outcome (fst (remove_student student_name f)),
       snd (remove_student student_name f)).
Proof.
  unfold remove_student_route.
  destruct (remove_student student_name f) as [result f'] eqn:E.
  cbn [fst snd]. split; [by destruct result|]. split; [by destruct result|].
  split; [|by destruct result].
  intros Hdir. unfold remove_student in E.
  fold (student_folder_of student_name) in E.
  unfold path_exists in E. rewrite Hdir in E.
  destruct (rmtree (student_folder_of student_name) f) as [e|f''] eqn:Hrm.
  { unfold rmtree in Hrm. by rewrite Hdir in Hrm. }
  injection E as <- <-. split; [done|].
  assert (snd (let '(result, f'0) :=
                 (Returned
                    (JRemoved ("Student '" ++ normalize student_name
                               ++ "' removed successfully!")) 200, f'') in
               match result with
               | Raised _ => (Failed500, f'0)
               | Returned _ _ => (Failed500, f'0)
               end) = f'') as -> by reflexivity.
  unfold path_exists. rewrite (rmtree_lookup _ _ _ _ Hrm).
  rewrite decide_True; [done|by left].
Qed.

End student_routes.

Section student_routes_examples.
Import Student_Manage StudentRoutes Samples.


(** With a Firebase manager the client is told of a failure although the
    folder has been removed. *)
Example remove_route_answers_500 :
  fst (remove_student_route " Ahmed Ali " true fs_ahmed) = Failed500
  ∧ snd (remove_student_route " Ahmed Ali " true fs_ahmed)
      !! "Smart Attendance System/Images/Ahmed_Ali" = None
  ∧ fst (remove_student_route " Ahmed Ali " false fs_ahmed)
    = Passed (JRemoved "Student 'Ahmed_Ali' removed successfully!") 200.
Proof. split; [reflexivity|]. split; reflexivity. Qed.

End student_routes_examples.

(* ===================================================================== *)
(** ** Attendance records in Firestore (firebase_config.py) *)
(* ===================================================================== *)

Section firestore.
Import App Firebase_config Samples.
Variable now : clock.

(** The fields that [save_record] writes. *)
Abbreviation fields r :=
  (list_to_map
     [("presence_time", VInt (sv_presence_time r));
      ("attendance_percentage", VFloat (sv_attendance_percentage r));
      ("session_duration", VInt (sv_session_duration r))]
   ∪ list_to_map
       [("classId", VStr (sv_class_id r));
        ("studentId", VStr (sv_student_id r));
        ("date", VStr (today_str now));
        ("status", VStr (sv_status r));
        ("timestamp", VServerTime (server_time now));
        ("createdAt", VStr (isoformat now))] : document).

Lemma save_record_online r (att : collection) :
  save_record true now r att
  = (true,
     set_merge (record_id (sv_class_id r) (sv_student_id r) (today_str now))
       (fields r) att).
Proof. reflexivity. Qed.

(** Every record has the same field names. *)
Lemma fields_dom r r' : dom (fields r) = dom (fields r').
Proof.
  rewrite !dom_union_L, !dom_list_to_map_L. reflexivity.
Qed.

(** Writing fields over fields of the same names leaves nothing of the
    earlier ones. *)
Lemma union_replace (a b old : document) :
  dom b ⊆ dom a → a ∪ (b ∪ old) = a ∪ old.
Proof.
  intros Hdom. apply map_eq. intros i. rewrite !lookup_union.
  destruct (a !! i) as [v|] eqn:Ea.
  - by destruct (b !! i), (old !! i).
  - assert (b !! i = None) as ->.
    { apply not_elem_of_dom. intros Hb. apply Hdom in Hb.
      by apply not_elem_of_dom in Ea. }
    by destruct (old !! i).
Qed.

Lemma set_merge_twice id (a b : document) (att : collection) :
  dom b ⊆ dom a →
  set_merge id a (set_merge id b att) = set_merge id a att.
Proof.
  intros Hdom. unfold set_merge. rewrite lookup_insert_eq. simpl.
  by rewrite insert_insert_eq, (union_replace a b _ Hdom).
Qed.

(** Two strings without the separator, each followed by the separator:
    what comes before and what comes after is determined. *)
Lemma app_separator_inj sep (a1 a2 b1 b2 : string) :
  Py.contains sep a1 = false → Py.contains sep a2 = false →
  a1 ++ String sep b1 = a2 ++ String sep b2 → a1 = a2 ∧ b1 = b2.
Proof.
  revert a2. induction a1 as [|x a1 IH]; intros [|y a2] H1 H2 E.
  - by injection E as ->.
  - rewrite string_app_cons in E. injection E as <- _.
    simpl in H2. by rewrite Ascii.eqb_refl in H2.
  - rewrite string_app_cons in E. injection E as -> _.
    simpl in H1. by rewrite Ascii.eqb_refl in H1.
  - rewrite !string_app_cons in E. injection E as -> E.
    simpl in H1, H2. apply orb_false_iff in H1 as [_ H1].
    apply orb_false_iff in H2 as [_ H2].
    by destruct (IH a2 H1 H2 E) as [-> ->].
Qed.

(** Class ids without an underscore: the id tells the class and the
    student. *)
Lemma record_id_inj c1 s1 c2 s2 d :
  Py.contains "_" c1 = false → Py.contains "_" c2 = false →
  record_id c1 s1 d = record_id c2 s2 d → c1 = c2 ∧ s1 = s2.
Proof.
  intros H1 H2 E. unfold record_id in E.
  apply (app_separator_inj "_" c1 c2 _ _ H1 H2) in E as [-> E].
  split; [done|]. by apply string_app_inv_tail in E.
Qed.

(** The fields of a saved record, whatever the document held before. *)
Lemma fields_lookup r (old : document) :
  (fields r ∪ old) !! "classId" = Some (VStr (sv_class_id r))
  ∧ (fields r ∪ old) !! "date" = Some (VStr (today_str now))
  ∧ (fields r ∪ old) !! "studentId" = Some (VStr (sv_student_id r))
  ∧ (fields r ∪ old) !! "status" = Some (VStr (sv_status r))
  ∧ (fields r ∪ old) !! "presence_time" = Some (VInt (sv_presence_time r)).
Proof.
  repeat split; apply lookup_union_Some_l; vm_compute; reflexivity.
Qed.

(** A saved record is found by the query of its class and day. *)
Lemma query_finds id (doc : document) class_id (att : collection) :
  att !! id = Some doc →
  doc !! "classId" = Some (VStr class_id) →
  doc !! "date" = Some (VStr (today_str now)) →
  get_attendance_for_class true now class_id None att !! id
  = Some (<["id" := VStr id]> doc).
Proof.
  intros Hid Hc Hd. unfold get_attendance_for_class. cbn [negb Py.truthy_opt].
  rewrite map_lookup_imap, Hid. simpl. by rewrite decide_True.
Qed.


End firestore.

Section firestore_examples.
Import App Firebase_config Samples.

(** With underscores in class ids, records of different classes can share
    a document: the record of student "c" in class "a_b" is replaced by
    the record of student "b_c" in class "a", and the query of class "a_b"
    no longer finds it. *)
Example record_ids_collide :
  let first := SavedRecord "a_b" "c" "present" 30 50 60 in
  let second := SavedRecord "a" "b_c" "absent" 3 5 60 in
  let att1 := snd (save_record true sample_clock first ∅) in
  let att2 := snd (save_record true sample_clock second att1) in
  record_id "a_b" "c" "2024-05-01" = record_id "a" "b_c" "2024-05-01"
  ∧ size (get_attendance_for_class true sample_clock "a_b" None att1) = 1%nat
  ∧ get_attendance_for_class true sample_clock "a_b" None att2 = ∅
  ∧ size att2 = 1%nat.
Proof.
  split; [reflexivity|]. split; [reflexivity|]. split; [|reflexivity].
  apply map_eq. intros i. vm_compute. reflexivity.
Qed.

End firestore_examples.
